(** * A shallow embedding of the VPS manager bot (v2.py)

    The bot keeps one module-level dictionary [data] with the VM records
    and the admin list, persists it with [save_data] after every change,
    and drives qemu, qemu-img and tmate through [run_shell].  The model
    below follows the source function by function.  Shell calls are
    answered by an environment oracle and [asyncio.sleep] has no effect
    on the state.

    The Python handlers are coroutines.  A definition that carries the
    name of a handler is that handler run from its first line to its last
    with no other handler in between, and [reachable] collects the states
    of the runs in which handlers do not overlap.  What happens when they
    do overlap is treated separately, for the two handlers that keep a
    decision across an [await]: see [createvps_alloc] and
    [renewssh_until_tmate].  So are the clicks on a view whose record
    has been deleted: see [click_gone]. *)

From Stdlib Require Import ZArith Lia Ascii String.
From stdpp Require Import gmap strings list fin_maps pretty sorting.

Local Open Scope string_scope.
Local Open Scope Z_scope.

(** ** Configuration (v2.py, CONFIG block) *)

Definition DATA_FILE : string := "vps_data.json".
Definition ISO_PATH : string := "/root/ubuntu-22.04-desktop-amd64.iso".
Definition WORK_DIR : string := "/root/vps_manager".
Definition SSH_PORT_MIN : Z := 22700.
Definition SSH_PORT_MAX : Z := 22999.

(** ** Python helpers *)

(** [str(n)] for an integer. *)
Definition py_str (n : Z) : string := pretty n.

(** [a or b] on strings: the first operand unless it is empty. *)
Definition str_or (a b : string) : string :=
  if decide (a = "") then b else a.

(** [os.path.join(d, f)]: an absolute second component replaces the first. *)
Definition path_join (d f : string) : string :=
  match f with
  | String "/"%char _ => f
  | _ => d +:+ "/" +:+ f
  end.

(** [l.remove(x)]: drops the first occurrence of [x]. *)
Fixpoint list_remove_first (x : Z) (l : list Z) : list Z :=
  match l with
  | [] => []
  | y :: l' => if decide (y = x) then l' else y :: list_remove_first x l'
  end.

(** ** Data model *)

Inductive Status := Running | Stopped.

(** One entry of [data["vps"]].  The source reads [local_ssh_port] with
    [v.get], so a record may lack it: [None] is a record without that
    key.  Every other key is read with [v[...]]. *)
Record VM := mkVM {
  vm_id : string;
  vm_user : string;
  vm_name : string;
  ram_mb : Z;
  cpu : Z;
  disk_gb : Z;
  status : Status;
  local_ssh_port : option Z;
  local_ssh : string;
  tmate : string;
  created_at : string
}.

(** The dictionary [data]: [{"vps": {...}, "admins": [...]}]. *)
Record Data := mkData {
  vps : gmap string VM;
  admins : list Z
}.

(** What is on disk under [DATA_FILE].  [open(DATA_FILE, "w")] empties the
    file before [json.dump] writes to it, hence [Truncated]. *)
Inductive FileContent :=
| NoFile
| Truncated
| Doc (d : Data).

(** The shell commands the source builds with f-strings, by their
    variable parts. *)
Inductive TmateVar := tmate_ssh | tmate_web.

Inductive Cmd :=
| QemuImgCreate (qcow : string) (size_gb : Z)
| QemuLaunch (name : string) (ram cores : Z) (qcow : string)
             (ssh_port : Z) (log : string)
| Pgrep (name : string)
| Pkill (name : string)
| TmateNewSession (sock : string)
| TmateDisplay (sock : string) (what : TmateVar).

(** [(stdout, stderr, returncode)] of [run_shell], both texts stripped. *)
Definition ShellResult : Type := string * string * Z.

(** External effects a handler attempts, in order. *)
Inductive Event :=
| EvShell (c : Cmd) (timeout : Z)
| EvRemove (path : string)
| EvWriteFile (path : string) (text : string)
| EvOpenTrunc (path : string)
| EvJsonDump (path : string) (d : Data).

(** The process state together with the part of the host it touches. *)
Record World := mkWorld {
  data : Data;
  data_file : FileContent;
  files : gset string;
  trace : list Event;
  clock : nat
}.

(** The host: the fixed owner id, and what the [n]-th query to the
    outside (shell, random generator, wall clock) answers. *)
Record Env := mkEnv {
  OWNER_ID : Z;
  shell : nat → Cmd → ShellResult;
  random_raw : nat → Z;
  utcnow : nat → string
}.

(** ** Exceptions and the handler monad *)

Inductive Exn :=
| RuntimeError (msg : string)
| KeyError (key : string)
| InteractionResponded
| JSONDecodeError.

Inductive Res (A : Type) :=
| Ok (a : A)
| Raise (e : Exn)
| OutOfFuel.
Arguments Ok {A} a.
Arguments Raise {A} e.
Arguments OutOfFuel {A}.

Definition M (A : Type) : Type := World → Res A * World.

Definition ret {A} (a : A) : M A := λ w, (Ok a, w).

Definition bind {A B} (m : M A) (k : A → M B) : M B :=
  λ w, match m w with
       | (Ok a, w') => k a w'
       | (Raise e, w') => (Raise e, w')
       | (OutOfFuel, w') => (OutOfFuel, w')
       end.

Definition raise {A} (e : Exn) : M A := λ w, (Raise e, w).

(** [try: m  except RuntimeError: h] *)
Definition try_RuntimeError {A} (m : M A) (h : M A) : M A :=
  λ w, match m w with
       | (Raise (RuntimeError _), w') => h w'
       | r => r
       end.

Notation "'let*' x := c1 'in' c2" := (bind c1 (λ x, c2))
  (at level 10, x name, c1 at level 100, c2 at level 200).
Notation "'let*' ' pat := c1 'in' c2" :=
  (bind c1 (λ x, match x with pat => c2 end))
  (at level 10, pat pattern, c1 at level 100, c2 at level 200).
Notation "c1 ;; c2" := (bind c1 (λ _, c2))
  (at level 100, c2 at level 200, right associativity).

Definition get_data : M Data := λ w, (Ok (data w), w).

Definition set_data (d : Data) : M unit :=
  λ w, (Ok tt, mkWorld d (data_file w) (files w) (trace w) (clock w)).

Definition tick (w : World) : World :=
  mkWorld (data w) (data_file w) (files w) (trace w) (S (clock w)).

(** ** Files *)

(** [os.path.exists(p)] *)
Definition path_exists (p : string) : M bool :=
  λ w, (Ok (bool_decide (p ∈ files w)), w).

(** [os.remove(p)] on an existing path. *)
Definition os_remove (p : string) : M unit :=
  λ w, (Ok tt, mkWorld (data w) (data_file w) (files w ∖ {[p]})
                       (trace w ++ [EvRemove p]) (clock w)).

(** [if os.path.exists(p): os.remove(p)], errors ignored. *)
Definition remove_if_exists (p : string) : M unit :=
  let* e := path_exists p in if e then os_remove p else ret tt.

(** [with open(p, "w") as f: f.write(text)] *)
Definition write_file (p text : string) : M unit :=
  λ w, (Ok tt, mkWorld (data w) (data_file w) ({[p]} ∪ files w)
                       (trace w ++ [EvWriteFile p text]) (clock w)).

(** What a command that exited with [rc] leaves on the file system:
    [qemu-img create] its image, the qemu launch line the log it redirects
    to, [tmate -S sock new-session] its socket. *)
Definition tool_effect (c : Cmd) (rc : Z) (fs : gset string) : gset string :=
  if decide (rc = 0) then
    match c with
    | QemuImgCreate qcow _ => {[qcow]} ∪ fs
    | QemuLaunch _ _ _ _ _ log => {[log]} ∪ fs
    | TmateNewSession sock => {[sock]} ∪ fs
    | Pgrep _ | Pkill _ | TmateDisplay _ _ => fs
    end
  else fs.

(** What a handler sends back to the caller. *)
Inductive Response :=
| NoFreePorts
| CreateFailed (msg : string)
| Created (vps_id : string)
| NotFound
| NotAuthorized
| ViewSent (vps_id : string)
| AlreadyRunning (name : string)
| StartFailed (msg : string)
| Started (name : string)
| StoppedMsg (name : string)
| SshInfo (local tm : string)
| Deleted (name : string)
| ReinstallFailed (msg : string)
| Reinstalled (name : string)
| RenewFailed (msg : string)
| Renewed (local tm : string)
| OnlyOwner
| AlreadyAdmin
| AdminAdded (user : Z)
| CannotRemoveOwner
| NotAnAdmin
| AdminRemoved (user : Z)
| Detached.

(** The four buttons of the view that [manage] sends. *)
Inductive Button := BtnStart | BtnStop | BtnRestart | BtnSsh.

(** The dictionary returned by [vm_paths]. *)
Record Paths := mkPaths {
  qcow : string;
  log : string;
  tmate_file : string;
  script : string
}.

(** [vm_paths] *)
Definition vm_paths (vm_name : string) : Paths :=
  {| qcow := path_join WORK_DIR (vm_name +:+ ".qcow2");
     log := path_join WORK_DIR (vm_name +:+ "_log.txt");
     tmate_file := path_join WORK_DIR (vm_name +:+ "_tmate.txt");
     script := path_join WORK_DIR ("create_" +:+ vm_name +:+ ".sh") |}.

(** [f"/tmp/tmate_{vm_name}.sock"] *)
Definition tmate_sock (vm_name : string) : string :=
  "/tmp/tmate_" +:+ vm_name +:+ ".sock".

(** [f"ssh ubuntu@localhost -p {port}"] *)
Definition ssh_line (port : Z) : string :=
  "ssh ubuntu@localhost -p " +:+ py_str port.

(** In-place updates of a record: [v["status"] = s] and the like. *)
Definition with_status (s : Status) (v : VM) : VM :=
  mkVM (vm_id v) (vm_user v) (vm_name v) (ram_mb v) (cpu v) (disk_gb v)
       s (local_ssh_port v) (local_ssh v) (tmate v) (created_at v).

Definition with_port (p : Z) (v : VM) : VM :=
  mkVM (vm_id v) (vm_user v) (vm_name v) (ram_mb v) (cpu v) (disk_gb v)
       (status v) (Some p) (ssh_line p) (tmate v) (created_at v).

Definition with_tmate (t : string) (v : VM) : VM :=
  mkVM (vm_id v) (vm_user v) (vm_name v) (ram_mb v) (cpu v) (disk_gb v)
       (status v) (local_ssh_port v) (local_ssh v) t (created_at v).

Section Bot.
Variable E : Env.

(** ** Data helpers *)

(** [load_data] *)
Definition load_data : M Data :=
  λ w, match data_file w with
       | NoFile => (Ok (mkData ∅ [OWNER_ID E]), w)
       | Truncated => (Raise JSONDecodeError, w)
       | Doc d => (Ok d, w)
       end.

(** The two steps of [save_data]: [open(DATA_FILE, "w")], which empties
    the file, and [json.dump] followed by the close at the end of the
    [with] block. *)
Definition open_trunc : M unit :=
  λ w, (Ok tt, mkWorld (data w) Truncated (files w)
                       (trace w ++ [EvOpenTrunc DATA_FILE]) (clock w)).

Definition json_dump (d : Data) : M unit :=
  λ w, (Ok tt, mkWorld (data w) (Doc d) (files w)
                       (trace w ++ [EvJsonDump DATA_FILE d]) (clock w)).

Definition save_data (d : Data) : M unit :=
  open_trunc;; json_dump d.

(** [save_data] interrupted after [k] of its steps. *)
Definition save_data_crash (k : nat) (d : Data) : M unit :=
  match k with
  | O => ret tt
  | S O => open_trunc
  | _ => save_data d
  end.

(** [is_admin] *)
Definition is_admin (uid : Z) : M bool :=
  let* d := get_data in ret (bool_decide (uid ∈ admins d)).

(** [random.randint(lo, hi)] *)
Definition randint (lo hi : Z) : M Z :=
  λ w, (Ok (lo + random_raw E (clock w) `mod` (hi - lo + 1)), tick w).

(** [gen_vps_id]: the [while True] loop, one iteration per unit of fuel. *)
Fixpoint gen_vps_id (fuel : nat) : M string :=
  match fuel with
  | O => λ w, (OutOfFuel, w)
  | S fuel' =>
      let* r := randint 1000 9999 in
      let vid := py_str r in
      let* d := get_data in
      if decide (vps d !! vid = None) then ret vid else gen_vps_id fuel'
  end.

(** A port is counted when [v.get("local_ssh_port")] is truthy. *)
Definition truthy_port (v : VM) : option Z :=
  match local_ssh_port v with
  | Some p => if decide (p = 0) then None else Some p
  | None => None
  end.

(** The set [used] of [find_free_ssh_port]. *)
Definition used_ports (d : Data) : gset Z :=
  list_to_set (omap (λ kv, truthy_port kv.2) (map_to_list (vps d))).

(** [range(SSH_PORT_MIN, SSH_PORT_MAX + 1)] *)
Definition port_range : list Z :=
  seqZ SSH_PORT_MIN (SSH_PORT_MAX + 1 - SSH_PORT_MIN).

(** The scan of [find_free_ssh_port]: the first port of the range that is
    not in [used], if any. *)
Definition free_port (d : Data) : option Z :=
  snd <$> list_find (λ p, p ∉ used_ports d) port_range.

(** [find_free_ssh_port] *)
Definition find_free_ssh_port : M Z :=
  let* d := get_data in
  match free_port d with
  | Some p => ret p
  | None => raise (RuntimeError "No free SSH ports available")
  end.

(** [run_shell]: the environment answers; a timeout is the answer
    [("", "timeout", -1)]. *)
Definition run_shell (c : Cmd) (timeout : Z) : M ShellResult :=
  λ w, let r := shell E (clock w) c in
       (Ok r, mkWorld (data w) (data_file w) (tool_effect c r.2 (files w))
                      (trace w ++ [EvShell c timeout]) (S (clock w))).

(** [datetime.utcnow().isoformat()] *)
Definition now : M string :=
  λ w, (Ok (utcnow E (clock w)), tick w).

(** ** QEMU and tmate helpers *)

(** [create_vm_process]: [qemu-img create], then the qemu launch line. *)
Definition create_vm_process (vm_name : string) (ram cores disk ssh_port : Z)
  : M (bool * string) :=
  let paths := vm_paths vm_name in
  let* '(out1, err1, rc1) := run_shell (QemuImgCreate (qcow paths) disk) 120 in
  if decide (rc1 ≠ 0) then
    ret (false, "qemu-img failed: " +:+ str_or err1 out1)
  else
    let* '(out2, err2, rc2) :=
      run_shell (QemuLaunch vm_name ram cores (qcow paths) ssh_port (log paths)) 120 in
    if decide (rc2 ≠ 0) then
      ret (false, "qemu launch failed: " +:+ str_or err2 out2)
    else
      ret (true, "VM launched, logs: " +:+ log paths).

(** [generate_tmate] *)
Definition generate_tmate (vm_name : string) : M (bool * string) :=
  let paths := vm_paths vm_name in
  let sock := tmate_sock vm_name in
  remove_if_exists (tmate_file paths) ;;
  remove_if_exists sock ;;
  let* '(out1, err1, rc1) := run_shell (TmateNewSession sock) 120 in
  if decide (rc1 ≠ 0) then
    ret (false, "tmate start failed: " +:+ str_or err1 out1)
  else
    let* '(out2, err2, rc2) := run_shell (TmateDisplay sock tmate_ssh) 120 in
    if decide (rc2 ≠ 0 ∨ out2 = "") then
      let* '(out3, err3, rc3) := run_shell (TmateDisplay sock tmate_web) 120 in
      if decide (rc3 = 0 ∧ out3 ≠ "") then
        write_file (tmate_file paths) out3 ;;
        ret (true, out3)
      else
        ret (false, "tmate display failed: " +:+ str_or err2 out2)
    else
      write_file (tmate_file paths) out2 ;;
      ret (true, out2).

(** ** Commands *)

(** [data["vps"][vps_id] = v] *)
Definition store_vm (vps_id : string) (v : VM) : M unit :=
  let* d := get_data in
  set_data (mkData (<[vps_id := v]> (vps d)) (admins d)).

(** An assignment to a key of the record object [v = data["vps"][vps_id]]. *)
Definition update_vm (vps_id : string) (f : VM → VM) : M unit :=
  let* d := get_data in
  set_data (mkData (alter f vps_id (vps d)) (admins d)).

(** [save_data(data)] *)
Definition save : M unit :=
  let* d := get_data in save_data d.

(** [createvps] *)
Definition createvps (fuel : nat) (caller : Z) (name : string) (ram cores disk : Z)
  : M Response :=
  let user_id := py_str caller in
  let* vps_id := gen_vps_id fuel in
  let vm_name := name +:+ "-" +:+ vps_id in
  let* port := try_RuntimeError (let* p := find_free_ssh_port in ret (Some p))
                                (ret None) in
  match port with
  | None => ret NoFreePorts
  | Some local_port =>
      let* '(success, msg) := create_vm_process vm_name ram cores disk local_port in
      if negb success then ret (CreateFailed msg)
      else
        let* '(tmate_ok, tmate_str) := generate_tmate vm_name in
        let tmate_str :=
          if negb tmate_ok then "Failed to generate tmate link: " +:+ tmate_str
          else tmate_str in
        let* stamp := now in
        store_vm vps_id
          {| vm_id := vps_id; vm_user := user_id; vm_name := vm_name;
             ram_mb := ram; cpu := cores; disk_gb := disk;
             status := Running;
             local_ssh_port := Some local_port;
             local_ssh := ssh_line local_port;
             tmate := tmate_str;
             created_at := stamp |} ;;
        save ;;
        ret (Created vps_id)
  end.

(** The opening of [manage], [deletevps], [reinstallvps] and [renewssh]:
    look the id up, then let the owner of the record and the admins in. *)
Definition with_vps (caller : Z) (vps_id : string) (body : VM → M Response)
  : M Response :=
  let* d := get_data in
  match vps d !! vps_id with
  | None => ret NotFound
  | Some v =>
      let* adm := is_admin caller in
      if bool_decide (vm_user v ≠ py_str caller) && negb adm
      then ret NotAuthorized
      else body v
  end.

(** [manage]: the checks, then the view with its four buttons. *)
Definition manage (caller : Z) (vps_id : string) : M Response :=
  with_vps caller vps_id (λ v, ret (ViewSent vps_id)).

(** [i.response.send_message(...)]: an interaction is answered once.  On
    an interaction that has its answer already the call raises
    [InteractionResponded]. *)
Definition send_message (answered : bool) (r : Response) : M Response :=
  if answered then raise InteractionResponded else ret r.

(** The callbacks take the interaction [i] of the click, close over the
    record object [v] that manage looked up, and carry no check of their
    own: neither the caller of the click nor the admin list is read.
    While the record is in the registry, [v] is the record under
    [vps_id], which is how the callbacks find it here.  [Detached] stands
    for a click on a view whose record has been deleted since; the source
    goes on with the object it still holds, which [click_gone] follows.

    [start_cb_on answered] is [start_cb(i)] on an interaction that has
    ([true]) or has not ([false]) been answered before. *)
Definition start_cb_on (answered : bool) (vps_id : string) : M Response :=
  let* d := get_data in
  match vps d !! vps_id with
  | None => ret Detached
  | Some v =>
      let name := vm_name v in
      let* '(out, err, rc) := run_shell (Pgrep name) 120 in
      if decide (out ≠ "") then
        update_vm vps_id (with_status Running) ;;
        save ;;
        send_message answered (AlreadyRunning name)
      else
        match local_ssh_port v with
        | None => raise (KeyError "local_ssh_port")
        | Some port =>
            let* '(success, msg) :=
              create_vm_process name (ram_mb v) (cpu v) (disk_gb v) port in
            if negb success then send_message answered (StartFailed msg)
            else
              update_vm vps_id (with_status Running) ;;
              save ;;
              send_message answered (Started name)
        end
  end.

(** [start_cb] as the callback of the Start button: the click is a new
    interaction. *)
Definition start_cb (vps_id : string) : M Response :=
  start_cb_on false vps_id.

Definition stop_cb (vps_id : string) : M Response :=
  let* d := get_data in
  match vps d !! vps_id with
  | None => ret Detached
  | Some v =>
      let name := vm_name v in
      run_shell (Pkill name) 120 ;;
      update_vm vps_id (with_status Stopped) ;;
      save ;;
      ret (StoppedMsg name)
  end.

(** [restart_cb]: [stop_cb(i)] answers the interaction, then
    [start_cb(i)] runs on the same interaction, so its own answer raises
    [InteractionResponded] once its work is done.  The user has the
    message of [stop_cb]. *)
Definition restart_cb (vps_id : string) : M Response :=
  stop_cb vps_id ;; start_cb_on true vps_id.

Definition ssh_cb (vps_id : string) : M Response :=
  let* d := get_data in
  match vps d !! vps_id with
  | None => ret Detached
  | Some v => ret (SshInfo (local_ssh v) (tmate v))
  end.

Definition click (b : Button) (vps_id : string) : M Response :=
  match b with
  | BtnStart => start_cb vps_id
  | BtnStop => stop_cb vps_id
  | BtnRestart => restart_cb vps_id
  | BtnSsh => ssh_cb vps_id
  end.

(** [manage] and, with nothing in between, a click on the view it sent if
    it sent one.  A view outlives this moment: clicks that come later are
    [click] in the state of that later time. *)
Definition manage_click (caller : Z) (vps_id : string) (b : Button) : M Response :=
  let* r := manage caller vps_id in
  match r with
  | ViewSent vid => click b vid
  | _ => ret r
  end.

(** [deletevps] *)
Definition deletevps (caller : Z) (vps_id : string) : M Response :=
  with_vps caller vps_id (λ v,
    let name := vm_name v in
    run_shell (Pkill name) 10 ;;
    let paths := vm_paths name in
    remove_if_exists (qcow paths) ;;
    remove_if_exists (log paths) ;;
    remove_if_exists (tmate_file paths) ;;
    remove_if_exists (script paths) ;;
    remove_if_exists (tmate_sock name) ;;
    let* d := get_data in
    set_data (mkData (delete vps_id (vps d)) (admins d)) ;;
    save ;;
    ret (Deleted name)).

(** [reinstallvps] *)
Definition reinstallvps (caller : Z) (vps_id : string) : M Response :=
  with_vps caller vps_id (λ v,
    let name := vm_name v in
    run_shell (Pkill name) 10 ;;
    let paths := vm_paths name in
    remove_if_exists (qcow paths) ;;
    let* local_port :=
      match truthy_port v with
      | Some p => ret p
      | None => find_free_ssh_port
      end in
    let* '(success, msg) :=
      create_vm_process name (ram_mb v) (cpu v) (disk_gb v) local_port in
    if negb success then ret (ReinstallFailed msg)
    else
      update_vm vps_id (with_port local_port) ;;
      update_vm vps_id (with_status Running) ;;
      save ;;
      ret (Reinstalled name)).

(** [renewssh] *)
Definition renewssh (caller : Z) (vps_id : string) : M Response :=
  with_vps caller vps_id (λ v,
    let name := vm_name v in
    let* port := try_RuntimeError (let* p := find_free_ssh_port in ret (Some p))
                                  (ret None) in
    match port with
    | None => ret NoFreePorts
    | Some new_port =>
        run_shell (Pkill name) 10 ;;
        let* '(success, msg) :=
          create_vm_process name (ram_mb v) (cpu v) (disk_gb v) new_port in
        if negb success then ret (RenewFailed msg)
        else
          update_vm vps_id (with_port new_port) ;;
          let* '(t_ok, t_str) := generate_tmate name in
          let t_str :=
            if negb t_ok then "Failed to generate tmate: " +:+ t_str else t_str in
          update_vm vps_id (with_tmate t_str) ;;
          update_vm vps_id (with_status Running) ;;
          save ;;
          let* d := get_data in
          match vps d !! vps_id with
          | Some v' => ret (Renewed (local_ssh v') (tmate v'))
          | None => ret Detached
          end
    end).

(** [addadmin] *)
Definition addadmin (caller user : Z) : M Response :=
  if decide (caller ≠ OWNER_ID E) then ret OnlyOwner
  else
    let* d := get_data in
    if decide (user ∈ admins d) then ret AlreadyAdmin
    else
      set_data (mkData (vps d) (admins d ++ [user])) ;;
      save ;;
      ret (AdminAdded user).

(** [removeadmin] *)
Definition removeadmin (caller user : Z) : M Response :=
  if decide (caller ≠ OWNER_ID E) then ret OnlyOwner
  else if decide (user = OWNER_ID E) then ret CannotRemoveOwner
  else
    let* d := get_data in
    if decide (user ∉ admins d) then ret NotAnAdmin
    else
      set_data (mkData (vps d) (list_remove_first user (admins d))) ;;
      save ;;
      ret (AdminRemoved user).

(** ** The bot as a transition system *)

Inductive Request :=
| ReqCreate (caller : Z) (name : string) (ram cores disk : Z)
| ReqManage (caller : Z) (vps_id : string)
| ReqClick (b : Button) (vps_id : string)
| ReqDelete (caller : Z) (vps_id : string)
| ReqReinstall (caller : Z) (vps_id : string)
| ReqRenew (caller : Z) (vps_id : string)
| ReqAddAdmin (caller user : Z)
| ReqRemoveAdmin (caller user : Z).

Definition handle (fuel : nat) (r : Request) : M Response :=
  match r with
  | ReqCreate caller name ram cores disk => createvps fuel caller name ram cores disk
  | ReqManage caller vps_id => manage caller vps_id
  | ReqClick b vps_id => click b vps_id
  | ReqDelete caller vps_id => deletevps caller vps_id
  | ReqReinstall caller vps_id => reinstallvps caller vps_id
  | ReqRenew caller vps_id => renewssh caller vps_id
  | ReqAddAdmin caller user => addadmin caller user
  | ReqRemoveAdmin caller user => removeadmin caller user
  end.

(** Module start: [data = load_data()]. *)
Definition startup : M unit :=
  let* d := load_data in set_data d.

(** The first start, with no data file yet. *)
Definition init_world (fs : gset string) : World :=
  mkWorld (mkData ∅ [OWNER_ID E]) NoFile fs [] 0.

(** States of the runs in which handlers do not overlap: the bot handles
    the requests one after the other, each to its end, and may be
    restarted between two of them.  A click is allowed on any identifier
    at any time, which covers every view manage has sent. *)
Inductive reachable : World → Prop :=
| reach_init fs : reachable (init_world fs)
| reach_handle w fuel r : reachable w → reachable (handle fuel r w).2
| reach_restart w : reachable w → reachable (startup w).2.

End Bot.

(** * Specification vocabulary and sample hosts *)

(** No record of [d] holds port [p]. *)
Definition port_unused (d : Data) (p : Z) : Prop :=
  ∀ k v, vps d !! k = Some v → local_ssh_port v ≠ Some p.

(** The identifier [gen_vps_id] tries on iteration [i], counted from [w]. *)
Definition draw (E : Env) (w : World) (i : nat) : string :=
  py_str (1000 + random_raw E (i + clock w) `mod` (9999 - 1000 + 1)).

(** [w] after [n] more queries to the host. *)
Definition advance (n : nat) (w : World) : World :=
  mkWorld (data w) (data_file w) (files w) (trace w) (n + clock w).

(** Every identifier [gen_vps_id] can produce belongs to a record. *)
Definition ids_exhausted (d : Data) : Prop :=
  ∀ z, 1000 ≤ z ≤ 9999 → vps d !! py_str z ≠ None.

(** A host on which every tool succeeds; tmate prints a connection string
    and the other tools print nothing. *)
Definition ok_env : Env :=
  mkEnv 42
        (λ _ c, match c with
                | TmateDisplay _ _ => ("ssh demo@nyc1.tmate.io", "", 0)
                | _ => ("", "", 0)
                end)
        (λ _, 0) (λ _, "2024-01-01T00:00:00").

(** A registry with a record under each of the 9000 identifiers, as a
    data file written under a wider port range would hold. *)
Definition blank_vm (z : Z) : VM :=
  mkVM (py_str z) "7" ("vm-" +:+ py_str z) 512 1 1 Stopped
       (Some (21700 + z)) (ssh_line (21700 + z)) "" "2024-01-01T00:00:00".

Definition full_registry : Data :=
  mkData (list_to_map ((λ z, (py_str z, blank_vm z)) <$> seqZ 1000 9000)) [42].

Definition full_world : World :=
  mkWorld full_registry (Doc full_registry) ∅ [] 0.

(** A running bot whose data file holds the owner alone, and the state it
    is about to save once user 7 has been made an admin. *)
Definition owner_only : Data := mkData ∅ [42].
Definition owner_and_7 : Data := mkData ∅ [42; 7].
Definition saved_world : World := mkWorld owner_and_7 (Doc owner_only) ∅ [] 0.

(** The bot after user 7 has created the VM "web" on [ok_env]; the record
    gets the identifier "1000" and the port 22700. *)
Definition one_vm_world : World :=
  (handle ok_env 1 (ReqCreate 7 "web" 2048 2 20) (init_world ok_env ∅)).2.

(** [w] after host-only activity: the files are now [fs], the events
    [evs] were added and [n] queries were answered; [data] and the data
    file are as in [w]. *)
Definition host_step (w : World) (fs : gset string) (evs : list Event) (n : nat)
  : World :=
  mkWorld (data w) (data_file w) fs (trace w ++ evs) (n + clock w).

(** How a callback ends when its last step is to send [r]: with that
    answer, or with [InteractionResponded] on an interaction that had one. *)
Definition sent (answered : bool) (r : Response) : Res Response :=
  if answered then Raise InteractionResponded else Ok r.

(** The two command lines of [create_vm_process]. *)
Definition img_cmd (name : string) (disk : Z) : Cmd :=
  QemuImgCreate (qcow (vm_paths name)) disk.

Definition launch_cmd (name : string) (ram cores port : Z) : Cmd :=
  QemuLaunch name ram cores (qcow (vm_paths name)) port (log (vm_paths name)).

(** Events that are shell commands. *)
Definition is_shell (e : Event) : Prop := ∃ c t, e = EvShell c t.

(** A computation that always returns and only touches the host. *)
Definition host_only {A} (m : M A) : Prop :=
  ∀ w, ∃ a fs evs n, m w = (Ok a, host_step w fs evs n).

(** [w] once [data] has become [d] and [save_data] has written it, after
    host activity as in [host_step]. *)
Definition saved (w : World) (d : Data) (fs : gset string) (evs : list Event)
    (n : nat) : World :=
  mkWorld d (Doc d) fs
          (trace w ++ evs ++ [EvOpenTrunc DATA_FILE; EvJsonDump DATA_FILE d])
          (n + clock w).

(** [data] with the record under [vid] updated by [f]. *)
Definition alter_vm (f : VM → VM) (vid : string) (d : Data) : Data :=
  mkData (alter f vid (vps d)) (admins d).

(** The record [createvps] stores. *)
Definition created_vm (vid : string) (caller : Z) (name : string)
    (ram cores disk port : Z) (tm stamp : string) : VM :=
  {| vm_id := vid; vm_user := py_str caller; vm_name := name +:+ "-" +:+ vid;
     ram_mb := ram; cpu := cores; disk_gb := disk;
     status := Running;
     local_ssh_port := Some port;
     local_ssh := ssh_line port;
     tmate := tm;
     created_at := stamp |}.

(** A host on which [qemu-img] succeeds and the qemu launch line runs
    into the timeout of [run_shell]. *)
Definition launch_fails_env : Env :=
  mkEnv 42
        (λ _ c, match c with
                | QemuLaunch _ _ _ _ _ _ => ("", "timeout", -1)
                | _ => ("", "", 0)
                end)
        (λ _, 0) (λ _, "2024-01-01T00:00:00").

(** User 7 asks for a VM on [launch_fails_env], from a fresh bot. *)
Definition failed_create : Res Response * World :=
  createvps launch_fails_env 1 7 "web" 2048 2 20 (init_world launch_fails_env ∅).

(** Start is clicked for the VM of [one_vm_world] while no qemu process
    of that name is around ([pgrep] prints nothing on [ok_env]). *)
Definition start_when_down : Res Response * World :=
  start_cb ok_env "1000" one_vm_world.

(** [v.get("local_ssh_port") or find_free_ssh_port()] as reinstallvps
    evaluates it: the port of the record when it has one. *)
Definition reinstall_port (v : VM) (d : Data) : option Z :=
  match truthy_port v with
  | Some p => Some p
  | None => free_port d
  end.

(** The events of a reinstall that goes through. *)
Definition reinstall_events (v : VM) (p : Z) (had_disk : bool) : list Event :=
  let name := vm_name v in
  [EvShell (Pkill name) 10]
  ++ (if had_disk then [EvRemove (qcow (vm_paths name))] else [])
  ++ [EvShell (img_cmd name (disk_gb v)) 120;
      EvShell (launch_cmd name (ram_mb v) (cpu v) p) 120].

(** ** Invariants of the registry *)

(** Every record has a port, within the range and spelled out in its ssh
    line, and no two records have the same port. *)
Definition ports_ok (d : Data) : Prop :=
  ∀ k v, vps d !! k = Some v →
    ∃ p, local_ssh_port v = Some p
         ∧ SSH_PORT_MIN ≤ p ≤ SSH_PORT_MAX
         ∧ local_ssh v = ssh_line p
         ∧ ∀ k' v', vps d !! k' = Some v' → local_ssh_port v' = Some p → k' = k.

Definition good_data (E : Env) (d : Data) : Prop :=
  OWNER_ID E ∈ admins d ∧ NoDup (admins d) ∧ ports_ok d.

(** The invariant of the runs in which handlers do not overlap: [data] is
    good, and so is the document in the data file when there is one. *)
Definition inv (E : Env) (w : World) : Prop :=
  good_data E (data w)
  ∧ match data_file w with
    | Doc d => good_data E d
    | NoFile | Truncated => True
    end.

(** The bot after the owner (42) has made user 7 an admin. *)
Definition two_admins_world : World :=
  (handle ok_env 0 (ReqAddAdmin 42 7) (init_world ok_env ∅)).2.

(** Renewing and reinstalling the VM of [one_vm_world], by its owner. *)
Definition renewed : Res Response * World := renewssh ok_env 7 "1000" one_vm_world.

(** A host like [ok_env] whose random source moves on at every query, and
    two creations in a row on it. *)
Definition counting_env : Env :=
  mkEnv 42 (shell ok_env) (λ n, Z.of_nat n) (utcnow ok_env).

Definition two_vms_world : World :=
  (handle counting_env 1 (ReqCreate 8 "db" 1024 1 10)
     (handle counting_env 1 (ReqCreate 7 "web" 2048 2 20)
        (init_world counting_env ∅)).2).2.

(** * Further vocabulary *)

(** What makes a record the same VM: everything but its status, its port
    with the ssh line, and its tmate string. *)
Definition same_identity (v v' : VM) : Prop :=
  vm_id v' = vm_id v ∧ vm_user v' = vm_user v ∧ vm_name v' = vm_name v
  ∧ ram_mb v' = ram_mb v ∧ cpu v' = cpu v ∧ disk_gb v' = disk_gb v
  ∧ created_at v' = created_at v.

(** The ways one request changes [data]; only a request that is allowed
    to touch the admin list ([adm = true]) can replace it. *)
Inductive data_step (adm : bool) (d : Data) : Data → Prop :=
| step_none : data_step adm d d
| step_create vid caller name ram cores disk p tm stamp :
    vps d !! vid = None →
    free_port d = Some p →
    data_step adm d
      (mkData (<[vid := created_vm vid caller name ram cores disk p tm stamp]> (vps d))
              (admins d))
| step_alter f vid :
    (∀ v, same_identity v (f v)) →
    data_step adm d (alter_vm f vid d)
| step_delete vid :
    data_step adm d (mkData (delete vid (vps d)) (admins d))
| step_admins l :
    adm = true →
    data_step adm d (mkData (vps d) l).

(** The requests that may touch the admin list: addadmin and removeadmin
    issued by the owner. *)
Definition owner_admin_request (E : Env) (r : Request) : bool :=
  match r with
  | ReqAddAdmin caller _ | ReqRemoveAdmin caller _ => bool_decide (caller = OWNER_ID E)
  | _ => false
  end.

(** The data file holds what a restart has to find: the current [data],
    or nothing at all while [data] is still the initial registry. *)
Definition synced (E : Env) (w : World) : Prop :=
  data_file w = Doc (data w)
  ∨ (data_file w = NoFile ∧ data w = mkData ∅ [OWNER_ID E]).

(** Every record is filed under its own id, and its name is a base name
    followed by a dash and that id. *)
Definition ids_ok (d : Data) : Prop :=
  ∀ k v, vps d !! k = Some v →
    vm_id v = k ∧ ∃ base, vm_name v = base +:+ "-" +:+ k.

(** The files deletevps removes for a VM name. *)
Definition vm_artifacts (name : string) : gset string :=
  {[ qcow (vm_paths name); log (vm_paths name); tmate_file (vm_paths name);
     script (vm_paths name); tmate_sock name ]}.

(** Events that are file removals. *)
Definition is_remove (e : Event) : Prop := ∃ p, e = EvRemove p.

(** A host on which [qemu-img] runs into the timeout of [run_shell]. *)
Definition img_fails_env : Env :=
  mkEnv 42
        (λ _ c, match c with
                | QemuImgCreate _ _ => ("", "timeout", -1)
                | _ => ("", "", 0)
                end)
        (λ _, 0) (λ _, "2024-01-01T00:00:00").

(** ** The two listings *)

(** What listvps and listall send: a refusal, or an embed with one field
    per record. *)
Inductive Listing :=
| NoVps
| OnlyAdmins
| Fields (l : list VM).

(** The order [sorted(..., key=lambda x: x["id"])] sorts by: strings
    compared character by character. *)
Definition id_le (a b : VM) : Prop := String.leb (vm_id a) (vm_id b) = true.

#[global] Instance id_le_dec : RelDecision id_le.
Proof. intros a b. unfold id_le. apply _. Defined.

(** [listvps]: the records whose user is the caller.  The fields come in
    the order of the dictionary, which a [gmap] does not keep: the list
    is to be read up to its order. *)
Definition listvps (caller : Z) : M Listing :=
  let* d := get_data in
  let owned := filter (λ v, vm_user v = py_str caller) (map_to_list (vps d)).*2 in
  if decide (owned = []) then ret NoVps else ret (Fields owned).

(** [listall]: for admins, all records sorted by id. *)
Definition listall (caller : Z) : M Listing :=
  let* adm := is_admin caller in
  if negb adm then ret OnlyAdmins
  else
    let* d := get_data in
    ret (Fields (merge_sort id_le (map_to_list (vps d)).*2)).

(** A registry whose single record has no port, as an older data file
    could hold, in a running bot. *)
Definition portless_vm : VM :=
  mkVM "2000" "7" "old-2000" 1024 1 10 Stopped None "" "" "2023-01-01T00:00:00".

Definition portless_world : World :=
  let d := mkData {[ "2000" := portless_vm ]} [42] in
  mkWorld d (Doc d) ∅ [] 0.

(** The bot on [counting_env] after its first creation. *)
Definition one_vm_world_counting : World :=
  (handle counting_env 1 (ReqCreate 7 "web" 2048 2 20) (init_world counting_env ∅)).2.

(** ** A view that outlives a right

    The scenario: the owner (42) makes user 7 an admin, user 8 creates
    the VM "db" (identifier "1000"), user 7 asks for its manage view and
    gets it, and the owner then removes user 7 from the admins.  The view
    and its buttons are still with user 7. *)
Definition db_world : World :=
  (handle ok_env 1 (ReqCreate 8 "db" 1024 1 10) two_admins_world).2.

Definition stale_view_world : World :=
  (handle ok_env 0 (ReqRemoveAdmin 42 7)
     (handle ok_env 0 (ReqManage 7 "1000") db_world).2).2.

(** Stop is clicked on that view. *)
Definition stale_stop : Res Response * World :=
  click ok_env BtnStop "1000" stale_view_world.

(** ** A view whose record is gone

    The callbacks hold the record object [v] itself.  After deletevps the
    object is no longer in [data], but a view that was sent before still
    has it, and its callbacks run on it as they always do: what they
    write into [v] is seen by nobody, [save_data(data)] writes the
    registry as it is, and the shell commands are built from the fields
    of [v]. *)
Definition start_cb_gone (E : Env) (answered : bool) (v : VM) : M Response :=
  let name := vm_name v in
  let* '(out, err, rc) := run_shell E (Pgrep name) 120 in
  if decide (out ≠ "") then
    save ;;
    send_message answered (AlreadyRunning name)
  else
    match local_ssh_port v with
    | None => raise (KeyError "local_ssh_port")
    | Some port =>
        let* '(success, msg) :=
          create_vm_process E name (ram_mb v) (cpu v) (disk_gb v) port in
        if negb success then send_message answered (StartFailed msg)
        else
          save ;;
          send_message answered (Started name)
    end.

Definition stop_cb_gone (E : Env) (v : VM) : M Response :=
  let name := vm_name v in
  run_shell E (Pkill name) 120 ;;
  save ;;
  ret (StoppedMsg name).

Definition click_gone (E : Env) (b : Button) (v : VM) : M Response :=
  match b with
  | BtnStart => start_cb_gone E false v
  | BtnStop => stop_cb_gone E v
  | BtnRestart => stop_cb_gone E v ;; start_cb_gone E true v
  | BtnSsh => ret (SshInfo (local_ssh v) (tmate v))
  end.

(** ** Handlers that overlap

    A coroutine gives way to the other handlers at an [await] that has
    to wait: a shell command, a sleep, a call to Discord.  Two handlers
    take a decision from [data] before such a point and act on it after:
    [createvps] chooses its identifier and port (lines 203-208) and
    stores the record at line 225, behind the awaits in
    [create_vm_process] and [generate_tmate]; renewssh writes the new
    port into the record (lines 462-463) and saves at line 471, behind
    the awaits in [generate_tmate].  Below, each of the two is cut at the
    first of these awaits. *)

(** [createvps] up to the [await] of its first shell command (line 106,
    reached from line 214): the identifier and the port it has chosen, or
    [None] when no port is free. *)
Definition createvps_alloc (E : Env) (fuel : nat) : M (option (string * Z)) :=
  let* vps_id := gen_vps_id E fuel in
  let* port := try_RuntimeError (let* p := find_free_ssh_port in ret (Some p))
                                (ret None) in
  ret (match port with
       | None => None
       | Some local_port => Some (vps_id, local_port)
       end).

(** [createvps] from there to its end, with what it had chosen. *)
Definition createvps_resume (E : Env) (caller : Z) (name : string)
    (ram cores disk : Z) (chosen : option (string * Z)) : M Response :=
  match chosen with
  | None => ret NoFreePorts
  | Some (vps_id, local_port) =>
      let user_id := py_str caller in
      let vm_name := name +:+ "-" +:+ vps_id in
      let* '(success, msg) := create_vm_process E vm_name ram cores disk local_port in
      if negb success then ret (CreateFailed msg)
      else
        let* '(tmate_ok, tmate_str) := generate_tmate E vm_name in
        let tmate_str :=
          if negb tmate_ok then "Failed to generate tmate link: " +:+ tmate_str
          else tmate_str in
        let* stamp := now E in
        store_vm vps_id
          {| vm_id := vps_id; vm_user := user_id; vm_name := vm_name;
             ram_mb := ram; cpu := cores; disk_gb := disk;
             status := Running;
             local_ssh_port := Some local_port;
             local_ssh := ssh_line local_port;
             tmate := tmate_str;
             created_at := stamp |} ;;
        save ;;
        ret (Created vps_id)
  end.

(** The arguments of one /createvps. *)
Record Creation := mkCreation {
  cr_caller : Z;
  cr_name : string;
  cr_ram : Z;
  cr_cores : Z;
  cr_disk : Z
}.

(** Two creations that overlap: the second handler starts while the first
    waits for [qemu-img]; then the first runs on to its end, and after it
    the second. *)
Definition createvps_overlapped (E : Env) (fuel : nat) (a b : Creation)
  : M (Response * Response) :=
  let* chosen_a := createvps_alloc E fuel in
  let* chosen_b := createvps_alloc E fuel in
  let* ra := createvps_resume E (cr_caller a) (cr_name a) (cr_ram a) (cr_cores a)
                              (cr_disk a) chosen_a in
  let* rb := createvps_resume E (cr_caller b) (cr_name b) (cr_ram b) (cr_cores b)
                              (cr_disk b) chosen_b in
  ret (ra, rb).

(** Users 7 and 8 each ask for a VM on [counting_env], the second while
    the first is still being set up. *)
Definition overlapped_creations : Res (Response * Response) * World :=
  createvps_overlapped counting_env 1
    (mkCreation 7 "web" 2048 2 20) (mkCreation 8 "db" 1024 1 10)
    (init_world counting_env ∅).

Definition overlap_world : World := overlapped_creations.2.

(** User 7 then renews the ssh access of VM "1000". *)
Definition renewed_after_overlap : Res Response * World :=
  renewssh counting_env 7 "1000" overlap_world.

(** [generate_tmate] from its first [await] on (line 159): the session is
    started and its connection string read. *)
Definition tmate_session (E : Env) (vm_name : string) : M (bool * string) :=
  let paths := vm_paths vm_name in
  let sock := tmate_sock vm_name in
  let* '(out1, err1, rc1) := run_shell E (TmateNewSession sock) 120 in
  if decide (rc1 ≠ 0) then
    ret (false, "tmate start failed: " +:+ str_or err1 out1)
  else
    let* '(out2, err2, rc2) := run_shell E (TmateDisplay sock tmate_ssh) 120 in
    if decide (rc2 ≠ 0 ∨ out2 = "") then
      let* '(out3, err3, rc3) := run_shell E (TmateDisplay sock tmate_web) 120 in
      if decide (rc3 = 0 ∧ out3 ≠ "") then
        write_file (tmate_file paths) out3 ;;
        ret (true, out3)
      else
        ret (false, "tmate display failed: " +:+ str_or err2 out2)
    else
      write_file (tmate_file paths) out2 ;;
      ret (true, out2).

(** renewssh up to the first [await] that follows the write of the new
    port (line 159, reached from line 466): the answer it has given, or
    the VM name it goes on with. *)
Definition renewssh_until_tmate (E : Env) (caller : Z) (vps_id : string)
  : M (Response + string) :=
  let* d := get_data in
  match vps d !! vps_id with
  | None => ret (inl NotFound)
  | Some v =>
      let* adm := is_admin caller in
      if bool_decide (vm_user v ≠ py_str caller) && negb adm
      then ret (inl NotAuthorized)
      else
        let name := vm_name v in
        let* port := try_RuntimeError (let* p := find_free_ssh_port in ret (Some p))
                                      (ret None) in
        match port with
        | None => ret (inl NoFreePorts)
        | Some new_port =>
            run_shell E (Pkill name) 10 ;;
            let* '(success, msg) :=
              create_vm_process E name (ram_mb v) (cpu v) (disk_gb v) new_port in
            if negb success then ret (inl (RenewFailed msg))
            else
              update_vm vps_id (with_port new_port) ;;
              remove_if_exists (tmate_file (vm_paths name)) ;;
              remove_if_exists (tmate_sock name) ;;
              ret (inr name)
        end
  end.

(** renewssh from there to its end. *)
Definition renewssh_from_tmate (E : Env) (vps_id name : string) : M Response :=
  let* '(t_ok, t_str) := tmate_session E name in
  let t_str :=
    if negb t_ok then "Failed to generate tmate: " +:+ t_str else t_str in
  update_vm vps_id (with_tmate t_str) ;;
  update_vm vps_id (with_status Running) ;;
  save ;;
  let* d := get_data in
  match vps d !! vps_id with
  | Some v' => ret (Renewed (local_ssh v') (tmate v'))
  | None => ret Detached
  end.

(** The renewal of [renewed], stopped at that await. *)
Definition renew_suspended : Res (Response + string) * World :=
  renewssh_until_tmate ok_env 7 "1000" one_vm_world.

(** * Properties *)

(** ** The model on small inputs *)

Example path_join_relative :
  qcow (vm_paths "web-1000") = "/root/vps_manager/web-1000.qcow2".
Proof. reflexivity. Qed.

Example path_join_absolute :
  path_join WORK_DIR "/etc/passwd" = "/etc/passwd".
Proof. reflexivity. Qed.

Example ssh_line_22700 : ssh_line 22700 = "ssh ubuntu@localhost -p 22700".
Proof. vm_compute. reflexivity. Qed.

Example list_remove_first_once : list_remove_first 7 [42; 7; 9; 7] = [42; 9; 7].
Proof. reflexivity. Qed.

Example first_create_on_fresh_bot :
  (λ v, (vm_name v, local_ssh_port v, status v))
    <$> (vps (data one_vm_world) !! "1000")
  = Some ("web-1000", Some 22700, Running).
Proof. vm_compute. reflexivity. Qed.

Example second_create_takes_next_port :
  (λ kv, (vm_name kv.2, local_ssh_port kv.2))
    <$> map_to_list (vps (data two_vms_world))
  = [("db-1006", Some 22701); ("web-1000", Some 22700)].
Proof. vm_compute. reflexivity. Qed.

(** ** Port allocation *)

Lemma elem_of_used_ports d p :
  p ∈ used_ports d ↔
  ∃ k v, vps d !! k = Some v ∧ local_ssh_port v = Some p ∧ p ≠ 0.
Proof.
  unfold used_ports. rewrite elem_of_list_to_set, list_elem_of_omap. split.
  - intros ([k v] & Hin & Ht). apply elem_of_map_to_list in Hin.
    exists k, v. split; [done|]. unfold truthy_port in Ht. simpl in Ht.
    destruct (local_ssh_port v) as [q|]; [|done].
    destruct (decide (q = 0)); [done|]. by simplify_eq.
  - intros (k & v & Hk & Hp & Hnz). exists (k, v). split.
    + by apply elem_of_map_to_list.
    + unfold truthy_port. simpl. rewrite Hp.
      by destruct (decide (p = 0)).
Qed.

Lemma port_range_bounds p :
  p ∈ port_range ↔ SSH_PORT_MIN ≤ p ≤ SSH_PORT_MAX.
Proof.
  unfold port_range. rewrite elem_of_seqZ.
  unfold SSH_PORT_MIN, SSH_PORT_MAX. lia.
Qed.

Lemma not_used_port_unused d p :
  SSH_PORT_MIN ≤ p ≤ SSH_PORT_MAX → p ∉ used_ports d ↔ port_unused d p.
Proof.
  intros Hr. rewrite elem_of_used_ports. unfold port_unused. split.
  - intros Hn k v Hk Hp. apply Hn. exists k, v.
    repeat split; [done..|]. unfold SSH_PORT_MIN in Hr. lia.
  - intros Hu (k & v & Hk & Hp & _). by eapply Hu.
Qed.

Lemma free_port_Some d p :
  free_port d = Some p ↔
  SSH_PORT_MIN ≤ p ≤ SSH_PORT_MAX ∧ port_unused d p ∧
  ∀ q, SSH_PORT_MIN ≤ q < p → ¬ port_unused d q.
Proof.
  unfold free_port. split.
  - intros Hf. destruct (list_find _ _) as [[i x]|] eqn:Hfind; [|done].
    simpl in Hf. simplify_eq.
    apply list_find_Some in Hfind as (Hi & Hp & Hmin).
    assert (Hr : SSH_PORT_MIN ≤ p ≤ SSH_PORT_MAX).
    { apply port_range_bounds. by eapply list_elem_of_lookup_2. }
    split; [done|]. split; [by apply not_used_port_unused|].
    intros q Hq Hfree.
    unfold port_range in Hi. apply lookup_seqZ in Hi as [-> Hlt].
    apply (Hmin (Z.to_nat (q - SSH_PORT_MIN)) q).
    + unfold port_range. apply lookup_seqZ. lia.
    + lia.
    + apply not_used_port_unused; [lia | done].
  - intros (Hr & Hfree & Hmin).
    set (i := Z.to_nat (p - SSH_PORT_MIN)).
    assert (Hfind : list_find (λ p0, p0 ∉ used_ports d) port_range = Some (i, p)).
    { apply list_find_Some. split_and!.
      - unfold port_range. apply lookup_seqZ. unfold SSH_PORT_MAX in *. lia.
      - by apply not_used_port_unused.
      - intros j y Hj Hlt Hy. unfold port_range in Hj.
        apply lookup_seqZ in Hj as [-> Hb].
        apply (Hmin (SSH_PORT_MIN + Z.of_nat j)); [lia|].
        apply not_used_port_unused; [|done]. unfold SSH_PORT_MAX in *. lia. }
    by rewrite Hfind.
Qed.

Lemma free_port_None d :
  free_port d = None ↔ ∀ q, SSH_PORT_MIN ≤ q ≤ SSH_PORT_MAX → ¬ port_unused d q.
Proof.
  unfold free_port. rewrite fmap_None, list_find_None, Forall_forall.
  split.
  - intros H q Hq Hfree. apply (H q); [by apply port_range_bounds|].
    by apply not_used_port_unused.
  - intros H q Hq Hn. apply port_range_bounds in Hq.
    apply (H q Hq). by apply not_used_port_unused.
Qed.

(** C2: [find_free_ssh_port] returns the smallest port of
    [SSH_PORT_MIN .. SSH_PORT_MAX] that no record holds, and raises its
    RuntimeError exactly when every port of the range is held; either way
    the state is left as it was. *)
Theorem find_free_ssh_port_lowest_free (w : World) :
  (∃ p, find_free_ssh_port w = (Ok p, w) ∧
        SSH_PORT_MIN ≤ p ≤ SSH_PORT_MAX ∧
        port_unused (data w) p ∧
        ∀ q, SSH_PORT_MIN ≤ q < p → ¬ port_unused (data w) q)
  ∨ (find_free_ssh_port w = (Raise (RuntimeError "No free SSH ports available"), w) ∧
     ∀ q, SSH_PORT_MIN ≤ q ≤ SSH_PORT_MAX → ¬ port_unused (data w) q).
Proof.
  unfold find_free_ssh_port, bind, get_data.
  destruct (free_port (data w)) as [p|] eqn:Hf.
  - left. exists p. split; [done|]. by apply free_port_Some.
  - right. split; [done|]. by apply free_port_None.
Qed.

(** ** Identifier allocation *)

Lemma randint_in_range E lo hi w :
  lo ≤ hi → ∃ z, lo ≤ z ≤ hi ∧ randint E lo hi w = (Ok z, tick w).
Proof.
  intros Hle. eexists. split; [|reflexivity].
  pose proof (Z.mod_pos_bound (random_raw E (clock w)) (hi - lo + 1)). lia.
Qed.

Lemma draw_in_range E w i :
  ∃ z, 1000 ≤ z ≤ 9999 ∧ draw E w i = py_str z.
Proof.
  eexists. split; [|reflexivity].
  pose proof (Z.mod_pos_bound (random_raw E (i + clock w)) (9999 - 1000 + 1)). lia.
Qed.

Lemma draw_tick E w i : draw E (tick w) i = draw E w (S i).
Proof. unfold draw. simpl. by rewrite Nat.add_succ_r. Qed.

Lemma advance_tick n w : advance n (tick w) = advance (S n) w.
Proof. unfold advance, tick. simpl. by rewrite Nat.add_succ_r. Qed.

(** One iteration of the loop. *)
Lemma gen_vps_id_unfold E fuel w :
  gen_vps_id E (S fuel) w =
  if decide (vps (data w) !! draw E w 0 = None)
  then (Ok (draw E w 0), tick w)
  else gen_vps_id E fuel (tick w).
Proof.
  simpl. unfold bind, randint, get_data, draw. simpl.
  by destruct (decide _).
Qed.

Lemma gen_vps_id_first_free E w n fuel :
  vps (data w) !! draw E w n = None →
  (∀ i, (i < n)%nat → vps (data w) !! draw E w i ≠ None) →
  (n < fuel)%nat →
  gen_vps_id E fuel w = (Ok (draw E w n), advance (S n) w).
Proof.
  revert w fuel. induction n as [|n IH]; intros w fuel Hfree Hbusy Hfuel.
  - destruct fuel as [|fuel]; [lia|]. rewrite gen_vps_id_unfold.
    by rewrite decide_True.
  - destruct fuel as [|fuel]; [lia|]. rewrite gen_vps_id_unfold.
    rewrite decide_False by (apply Hbusy; lia).
    rewrite (IH (tick w) fuel).
    + by rewrite draw_tick, advance_tick.
    + by rewrite draw_tick.
    + intros i Hi. rewrite draw_tick. apply Hbusy. lia.
    + lia.
Qed.

Lemma gen_vps_id_exhausted E fuel w :
  ids_exhausted (data w) → (gen_vps_id E fuel w).1 = OutOfFuel.
Proof.
  revert w. induction fuel as [|fuel IH]; intros w Hfull; [done|].
  rewrite gen_vps_id_unfold.
  destruct (draw_in_range E w 0) as (z & Hz & ->).
  rewrite decide_False by by apply Hfull.
  by apply IH.
Qed.

Lemma gen_vps_id_no_exception E fuel w e :
  (gen_vps_id E fuel w).1 ≠ Raise e.
Proof.
  revert w. induction fuel as [|fuel IH]; intros w; [done|].
  rewrite gen_vps_id_unfold. by destruct (decide _).
Qed.

(** Whatever [gen_vps_id] returns is absent from the registry, and the
    call changes nothing but the count of host queries. *)
Lemma gen_vps_id_result E fuel w vid w' :
  gen_vps_id E fuel w = (Ok vid, w') →
  vps (data w) !! vid = None ∧ ∃ n, w' = advance n w.
Proof.
  revert w. induction fuel as [|fuel IH]; intros w; [done|].
  rewrite gen_vps_id_unfold. destruct (decide _) as [Hnone|Hsome].
  - intros [= <- <-]. split; [done|]. by exists 1%nat.
  - intros Hrec. apply IH in Hrec as [Hnone [n ->]]. split; [done|].
    exists (S n). by rewrite advance_tick.
Qed.

Lemma list_registry_exhausted (l : list Z) (adm : list Z) :
  (∀ z, 1000 ≤ z ≤ 9999 → z ∈ l) →
  ids_exhausted
    (mkData (list_to_map ((λ z, (py_str z, blank_vm z)) <$> l)) adm).
Proof.
  intros Hl z Hz Hnone. cbn [vps] in Hnone.
  apply not_elem_of_list_to_map_2 in Hnone.
  apply Hnone. rewrite <- list_fmap_compose.
  apply list_elem_of_fmap. exists z. split; [done|]. by apply Hl.
Qed.

Lemma full_registry_exhausted : ids_exhausted full_registry.
Proof.
  apply list_registry_exhausted. intros z Hz. apply elem_of_seqZ. lia.
Qed.

(** C6, as the code has it: [gen_vps_id] retries four-digit identifiers
    until one is absent from the registry and returns that one, so it
    returns as soon as the random source yields a free identifier; it
    never raises, and when every identifier from 1000 to 9999 belongs to a
    record it does not return at all. *)
Theorem gen_vps_id_retries_until_free (E : Env) (w : World) :
  (∀ i, ∃ z, 1000 ≤ z ≤ 9999 ∧ draw E w i = py_str z)
  ∧ (∀ n, vps (data w) !! draw E w n = None →
          (∀ i, (i < n)%nat → vps (data w) !! draw E w i ≠ None) →
          ∀ fuel, (n < fuel)%nat →
            gen_vps_id E fuel w = (Ok (draw E w n), advance (S n) w))
  ∧ (∀ fuel e, (gen_vps_id E fuel w).1 ≠ Raise e)
  ∧ (ids_exhausted (data w) → ∀ fuel, (gen_vps_id E fuel w).1 = OutOfFuel).
Proof.
  split_and!.
  - apply draw_in_range.
  - intros n Hfree Hbusy fuel Hfuel. by apply gen_vps_id_first_free.
  - intros fuel e. apply gen_vps_id_no_exception.
  - intros Hfull fuel. by apply gen_vps_id_exhausted.
Qed.

Lemma gen_vps_id_retries_until_free_witness :
  gen_vps_id ok_env 1 (init_world ok_env ∅)
  = (Ok "1000", advance 1 (init_world ok_env ∅))
  ∧ ∀ fuel, (gen_vps_id ok_env fuel full_world).1 = OutOfFuel.
Proof.
  pose proof (gen_vps_id_retries_until_free ok_env (init_world ok_env ∅))
    as (_ & Hfirst & _ & _).
  pose proof (gen_vps_id_retries_until_free ok_env full_world)
    as (_ & _ & _ & Hfull).
  split.
  - apply (Hfirst 0%nat); [vm_compute; reflexivity | intros i Hi; lia | lia].
  - apply Hfull. apply full_registry_exhausted.
Defined.

(** C6 fails as stated: on a registry that holds all 9000 identifiers no
    amount of iterations makes [gen_vps_id] return or raise. *)
Lemma gen_vps_id_exhausted_never_returns :
  ¬ ∃ fuel, (gen_vps_id ok_env fuel full_world).1 ≠ OutOfFuel.
Proof.
  intros [fuel Hret]. apply Hret.
  apply gen_vps_id_exhausted, full_registry_exhausted.
Qed.

(** ** The data file *)

Lemma save_data_eq d w :
  save_data d w =
  (Ok tt, mkWorld (data w) (Doc d) (files w)
                  (trace w ++ [EvOpenTrunc DATA_FILE; EvJsonDump DATA_FILE d])
                  (clock w)).
Proof.
  unfold save_data, bind, open_trunc, json_dump. simpl.
  by rewrite <- app_assoc.
Qed.

(** C4, as the code has it: [save_data] opens the data file itself for
    writing, which empties it, and dumps the JSON into it in place; no
    other path is created and nothing is renamed.  A save that runs to
    its end is read back by [load_data] as it was written; one that is
    interrupted between the open and the dump leaves a file that
    [load_data] cannot parse. *)
Theorem save_data_writes_in_place (E : Env) (d : Data) (w : World) :
  save_data d w =
    (Ok tt, mkWorld (data w) (Doc d) (files w)
                    (trace w ++ [EvOpenTrunc DATA_FILE; EvJsonDump DATA_FILE d])
                    (clock w))
  ∧ load_data E (save_data d w).2 = (Ok d, (save_data d w).2)
  ∧ files (save_data_crash 1 d w).2 = files w
  ∧ data_file (save_data_crash 1 d w).2 = Truncated
  ∧ (load_data E (save_data_crash 1 d w).2).1 = Raise JSONDecodeError.
Proof.
  split_and!; [apply save_data_eq | by rewrite save_data_eq | done..].
Qed.

(** C4 fails as stated: with a good document on disk, a save interrupted
    after its first step leaves a file that is neither the old document
    nor the new one, and the next load fails on it. *)
Lemma save_data_crash_exposes_truncated_file :
  (load_data ok_env saved_world).1 = Ok owner_only
  ∧ (load_data ok_env (save_data owner_and_7 saved_world).2).1 = Ok owner_and_7
  ∧ (load_data ok_env (save_data_crash 1 owner_and_7 saved_world).2).1
    = Raise JSONDecodeError
  ∧ trace (save_data owner_and_7 saved_world).2
    = [EvOpenTrunc DATA_FILE; EvJsonDump DATA_FILE owner_and_7].
Proof. by split_and!. Qed.

(** ** Authorization *)

Lemma with_vps_unauthorized caller vid v body w :
  vps (data w) !! vid = Some v →
  vm_user v ≠ py_str caller →
  caller ∉ admins (data w) →
  with_vps caller vid body w = (Ok NotAuthorized, w).
Proof.
  intros Hv Huser Hadm. unfold with_vps, bind, get_data, is_admin, ret. simpl.
  rewrite Hv. simpl.
  by rewrite bool_decide_true, bool_decide_false.
Qed.

Lemma with_vps_authorized caller vid v body w :
  vps (data w) !! vid = Some v →
  vm_user v = py_str caller ∨ caller ∈ admins (data w) →
  with_vps caller vid body w = body v w.
Proof.
  intros Hv Hauth. unfold with_vps, bind, get_data, is_admin, ret. simpl.
  rewrite Hv. simpl. destruct Hauth as [Hown|Hadm].
  - by rewrite bool_decide_false by (by intros ?).
  - rewrite (bool_decide_true (caller ∈ _)) by done.
    by rewrite andb_false_r.
Qed.

Lemma with_vps_not_found caller vid body w :
  vps (data w) !! vid = None →
  with_vps caller vid body w = (Ok NotFound, w).
Proof.
  intros Hv. unfold with_vps, bind, get_data. simpl. by rewrite Hv.
Qed.

(** ** The helpers that only touch the host *)

Lemma bind_ok {A B} (m : M A) (k : A → M B) w a w' :
  m w = (Ok a, w') → bind m k w = k a w'.
Proof. intros H. unfold bind. by rewrite H. Qed.

Lemma host_step_host_step w fs evs n fs' evs' n' :
  host_step (host_step w fs evs n) fs' evs' n'
  = host_step w fs' (evs ++ evs') (n' + n).
Proof.
  unfold host_step. simpl. f_equal; [by rewrite app_assoc | lia].
Qed.

Lemma host_step_id w : w = host_step w (files w) [] 0.
Proof. destruct w. unfold host_step. simpl. by rewrite app_nil_r. Qed.

Lemma tool_effect_failed c rc fs : rc ≠ 0 → tool_effect c rc fs = fs.
Proof. intros Hrc. unfold tool_effect. by rewrite decide_False. Qed.

Lemma run_shell_eq E c t w :
  run_shell E c t w
  = (Ok (shell E (clock w) c),
     host_step w (tool_effect c (shell E (clock w) c).2 (files w)) [EvShell c t] 1).
Proof. reflexivity. Qed.

Lemma remove_if_exists_eq p w :
  remove_if_exists p w
  = (Ok tt, if decide (p ∈ files w)
            then host_step w (files w ∖ {[p]}) [EvRemove p] 0
            else w).
Proof.
  unfold remove_if_exists, bind, path_exists. simpl.
  destruct (decide (p ∈ files w)).
  - by rewrite bool_decide_true.
  - by rewrite bool_decide_false.
Qed.

Lemma create_vm_process_cases E n r c d p w :
  let r1 := shell E (clock w) (img_cmd n d) in
  let r2 := shell E (S (clock w)) (launch_cmd n r c p) in
  (r1.2 ≠ 0 ∧
   create_vm_process E n r c d p w
   = (Ok (false, "qemu-img failed: " +:+ str_or r1.1.2 r1.1.1),
      host_step w (files w) [EvShell (img_cmd n d) 120] 1))
  ∨ (r1.2 = 0 ∧ r2.2 ≠ 0 ∧
     create_vm_process E n r c d p w
     = (Ok (false, "qemu launch failed: " +:+ str_or r2.1.2 r2.1.1),
        host_step w ({[qcow (vm_paths n)]} ∪ files w)
          [EvShell (img_cmd n d) 120; EvShell (launch_cmd n r c p) 120] 2))
  ∨ (r1.2 = 0 ∧ r2.2 = 0 ∧
     create_vm_process E n r c d p w
     = (Ok (true, "VM launched, logs: " +:+ log (vm_paths n)),
        host_step w ({[log (vm_paths n)]} ∪ ({[qcow (vm_paths n)]} ∪ files w))
          [EvShell (img_cmd n d) 120; EvShell (launch_cmd n r c p) 120] 2)).
Proof.
  intros r1 r2.
  assert (H1 : run_shell E (img_cmd n d) 120 w
               = (Ok r1, host_step w (tool_effect (img_cmd n d) r1.2 (files w))
                                   [EvShell (img_cmd n d) 120] 1))
    by reflexivity.
  assert (H2 : ∀ fs, run_shell E (launch_cmd n r c p) 120
                       (host_step w fs [EvShell (img_cmd n d) 120] 1)
               = (Ok r2, host_step w (tool_effect (launch_cmd n r c p) r2.2 fs)
                                   [EvShell (img_cmd n d) 120;
                                    EvShell (launch_cmd n r c p) 120] 2)).
  { intros fs. rewrite run_shell_eq, host_step_host_step. reflexivity. }
  clearbody r1 r2. destruct r1 as [[out1 err1] rc1], r2 as [[out2 err2] rc2].
  cbn [fst snd] in *.
  unfold create_vm_process. cbv zeta.
  erewrite bind_ok by exact H1. cbv beta iota.
  destruct (decide (rc1 ≠ 0)) as [Hrc1|Hrc1].
  - left. split; [done|]. by rewrite tool_effect_failed.
  - right. assert (rc1 = 0) as -> by lia.
    erewrite bind_ok by apply H2. cbv beta iota.
    destruct (decide (rc2 ≠ 0)) as [Hrc2|Hrc2].
    + left. split_and!; [done..|]. by rewrite tool_effect_failed.
    + right. assert (rc2 = 0) as -> by lia. done.
Qed.

Lemma host_only_ret {A} (a : A) : host_only (ret a).
Proof. intros w. exists a, (files w), [], 0%nat. unfold ret. by rewrite <- host_step_id. Qed.

Lemma host_only_bind {A B} (m : M A) (k : A → M B) :
  host_only m → (∀ a, host_only (k a)) → host_only (bind m k).
Proof.
  intros Hm Hk w. destruct (Hm w) as (a & fs & evs & n & Hmw).
  destruct (Hk a (host_step w fs evs n)) as (b & fs' & evs' & n' & Hkw).
  exists b, fs', (evs ++ evs')%list, (n' + n)%nat.
  erewrite bind_ok by exact Hmw. by rewrite Hkw, host_step_host_step.
Qed.

Lemma host_only_run_shell E c t : host_only (run_shell E c t).
Proof. intros w. rewrite run_shell_eq. eauto 10. Qed.

Lemma host_only_remove_if_exists p : host_only (remove_if_exists p).
Proof.
  intros w. rewrite remove_if_exists_eq. destruct (decide _); [eauto 10|].
  exists tt, (files w), [], 0%nat. by rewrite <- host_step_id.
Qed.

Lemma host_only_write_file p t : host_only (write_file p t).
Proof. intros w. by exists tt, ({[p]} ∪ files w), [EvWriteFile p t], 0%nat. Qed.

Lemma host_only_now E : host_only (now E).
Proof.
  intros w. exists (utcnow E (clock w)), (files w), [], 1%nat.
  unfold now, tick, host_step. by rewrite app_nil_r.
Qed.

Lemma host_only_create_vm_process E n r c d p :
  host_only (create_vm_process E n r c d p).
Proof.
  intros w.
  destruct (create_vm_process_cases E n r c d p w)
    as [[_ ->]|[(_ & _ & ->)|(_ & _ & ->)]]; eauto 10.
Qed.

Lemma host_only_generate_tmate E name : host_only (generate_tmate E name).
Proof.
  unfold generate_tmate. cbv zeta.
  apply host_only_bind; [apply host_only_remove_if_exists | intros _].
  apply host_only_bind; [apply host_only_remove_if_exists | intros _].
  apply host_only_bind; [apply host_only_run_shell | intros [[out1 err1] rc1]].
  destruct (decide _); [apply host_only_ret|].
  apply host_only_bind; [apply host_only_run_shell | intros [[out2 err2] rc2]].
  destruct (decide _).
  - apply host_only_bind; [apply host_only_run_shell | intros [[out3 err3] rc3]].
    destruct (decide _); [|apply host_only_ret].
    apply host_only_bind; [apply host_only_write_file | intros _].
    apply host_only_ret.
  - apply host_only_bind; [apply host_only_write_file | intros _].
    apply host_only_ret.
Qed.

Lemma create_vm_process_result E n r c d p w :
  ∃ b msg fs evs k,
    create_vm_process E n r c d p w
    = (Ok (b, msg), host_step w fs (EvShell (img_cmd n d) 120 :: evs) k)
    ∧ files w ⊆ fs
    ∧ Forall is_shell evs
    ∧ ((shell E (clock w) (img_cmd n d)).2 = 0 → qcow (vm_paths n) ∈ fs)
    ∧ (b = true →
       fs = {[log (vm_paths n)]} ∪ ({[qcow (vm_paths n)]} ∪ files w)
       ∧ evs = [EvShell (launch_cmd n r c p) 120] ∧ k = 2%nat).
Proof.
  destruct (create_vm_process_cases E n r c d p w)
    as [[Hrc ->]|[(Hrc1 & Hrc2 & ->)|(Hrc1 & Hrc2 & ->)]].
  - eexists _, _, _, [], _. split_and!; [done | done | done | done | done].
  - eexists _, _, _, [_], _. split_and!; [done | set_solver | | set_solver | done].
    repeat constructor. by eexists _, _.
  - eexists _, _, _, [_], _. split_and!; [done | set_solver | | set_solver | done].
    repeat constructor. by eexists _, _.
Qed.

(** ** What each command does to the state *)

Lemma tool_effect_pkill name rc fs : tool_effect (Pkill name) rc fs = fs.
Proof. unfold tool_effect. by destruct (decide _). Qed.

Lemma tool_effect_pgrep name rc fs : tool_effect (Pgrep name) rc fs = fs.
Proof. unfold tool_effect. by destruct (decide _). Qed.

Lemma world_ext d f fs tr c d' f' fs' tr' c' :
  d = d' → f = f' → fs = fs' → tr = tr' → c = c' →
  mkWorld d f fs tr c = mkWorld d' f' fs' tr' c'.
Proof. by intros -> -> -> -> ->. Qed.

Ltac world_eq :=
  unfold saved, host_step, alter_vm, ret; cbn [data data_file files trace clock];
  rewrite ?tool_effect_pkill, ?tool_effect_pgrep;
  f_equal; apply world_ext;
  [ try done | try done | try done
  | repeat first [rewrite <- app_assoc | rewrite <- app_comm_cons]; try done
  | try done; try lia ].

Lemma stop_cb_eq E vid v w :
  vps (data w) !! vid = Some v →
  stop_cb E vid w
  = (Ok (StoppedMsg (vm_name v)),
     saved w (alter_vm (with_status Stopped) vid (data w)) (files w)
           [EvShell (Pkill (vm_name v)) 120] 1).
Proof.
  intros Hv. unfold stop_cb. unfold bind at 1. unfold get_data at 1.
  rewrite Hv. cbv zeta.
  erewrite bind_ok by apply run_shell_eq.
  unfold update_vm, save, set_data, get_data, bind. simpl.
  world_eq.
Qed.

Lemma start_cb_on_cases E answered vid v w :
  vps (data w) !! vid = Some v →
  let name := vm_name v in
  let pgrep := EvShell (Pgrep name) 120 in
  let running := alter_vm (with_status Running) vid (data w) in
  ((shell E (clock w) (Pgrep name)).1.1 ≠ "" ∧
   start_cb_on E answered vid w
   = (sent answered (AlreadyRunning name), saved w running (files w) [pgrep] 1))
  ∨ ((shell E (clock w) (Pgrep name)).1.1 = "" ∧
     local_ssh_port v = None ∧
     start_cb_on E answered vid w
     = (Raise (KeyError "local_ssh_port"), host_step w (files w) [pgrep] 1))
  ∨ ((shell E (clock w) (Pgrep name)).1.1 = "" ∧
     ∃ port b msg fs evs k,
       local_ssh_port v = Some port
       ∧ files w ⊆ fs
       ∧ Forall is_shell evs
       ∧ ((shell E (S (clock w)) (img_cmd name (disk_gb v))).2 = 0 →
          qcow (vm_paths name) ∈ fs)
       ∧ (b = true →
          fs = {[log (vm_paths name)]} ∪ ({[qcow (vm_paths name)]} ∪ files w)
          ∧ evs = [EvShell (launch_cmd name (ram_mb v) (cpu v) port) 120])
       ∧ start_cb_on E answered vid w
         = (sent answered (if b then Started name else StartFailed msg),
            let evs' := pgrep :: EvShell (img_cmd name (disk_gb v)) 120 :: evs in
            if b then saved w running fs evs' k
            else host_step w fs evs' k)).
Proof.
  intros Hv name pgrep running.
  remember (start_cb_on E answered vid w) as res eqn:Hres.
  unfold start_cb_on in Hres. erewrite bind_ok in Hres by reflexivity.
  cbn [data] in Hres. rewrite Hv in Hres. cbv zeta in Hres. fold name in Hres.
  erewrite bind_ok in Hres by apply run_shell_eq.
  destruct (shell E (clock w) (Pgrep name)) as [[out err] rc] eqn:Hsh.
  cbv beta iota in Hres. cbn [fst snd] in *. rewrite tool_effect_pgrep in Hres.
  destruct (decide (out ≠ "")) as [Hout|Hout].
  - left. split; [done|]. subst res.
    unfold update_vm, save, set_data, get_data, bind, send_message, sent. simpl.
    destruct answered; world_eq.
  - right. assert (out = "") as -> by (by destruct (decide (out = ""))).
    destruct (local_ssh_port v) as [port|] eqn:Hport.
    + right. split; [done|].
      destruct (create_vm_process_result E name (ram_mb v) (cpu v) (disk_gb v) port
                  (host_step w (files w) [EvShell (Pgrep name) 120] 1))
        as (b & msg & fs & evs & k & Hcvp & Hfs & Hevs & Himg & Hok).
      unfold host_step in Hfs, Himg, Hok.
      cbn [files clock Nat.add] in Hfs, Himg, Hok.
      exists port, b, msg, fs, evs, (k + 1)%nat.
      split_and!; [done | done | done | done | |].
      { intros Hb. by destruct (Hok Hb) as (-> & -> & _). }
      erewrite bind_ok in Hres by exact Hcvp. cbv beta iota in Hres.
      subst res. destruct b; cbn [negb].
      * unfold update_vm, save, set_data, get_data, bind, send_message, sent. simpl.
        destruct answered; world_eq.
      * unfold send_message, sent, ret, raise. destruct answered; world_eq.
    + left. split_and!; [done..|]. by subst res.
Qed.

Lemma start_cb_cases E vid v w :
  vps (data w) !! vid = Some v →
  let name := vm_name v in
  let pgrep := EvShell (Pgrep name) 120 in
  let running := alter_vm (with_status Running) vid (data w) in
  ((shell E (clock w) (Pgrep name)).1.1 ≠ "" ∧
   start_cb E vid w
   = (Ok (AlreadyRunning name), saved w running (files w) [pgrep] 1))
  ∨ ((shell E (clock w) (Pgrep name)).1.1 = "" ∧
     local_ssh_port v = None ∧
     start_cb E vid w
     = (Raise (KeyError "local_ssh_port"), host_step w (files w) [pgrep] 1))
  ∨ ((shell E (clock w) (Pgrep name)).1.1 = "" ∧
     ∃ port b msg fs evs k,
       local_ssh_port v = Some port
       ∧ files w ⊆ fs
       ∧ Forall is_shell evs
       ∧ ((shell E (S (clock w)) (img_cmd name (disk_gb v))).2 = 0 →
          qcow (vm_paths name) ∈ fs)
       ∧ (b = true →
          fs = {[log (vm_paths name)]} ∪ ({[qcow (vm_paths name)]} ∪ files w)
          ∧ evs = [EvShell (launch_cmd name (ram_mb v) (cpu v) port) 120])
       ∧ start_cb E vid w
         = (Ok (if b then Started name else StartFailed msg),
            let evs' := pgrep :: EvShell (img_cmd name (disk_gb v)) 120 :: evs in
            if b then saved w running fs evs' k
            else host_step w fs evs' k)).
Proof. intros Hv. exact (start_cb_on_cases E false vid v w Hv). Qed.

(** An answered interaction changes how [start_cb] ends, not what it does. *)
Lemma start_cb_on_world E answered vid w :
  (start_cb_on E answered vid w).2 = (start_cb E vid w).2.
Proof.
  unfold start_cb, start_cb_on, bind, get_data. cbn [data].
  destruct (vps (data w) !! vid) as [v|]; [|done].
  destruct (run_shell E (Pgrep (vm_name v)) 120 w) as [[[[out err] rc]|e|] w1];
    [|done..].
  destruct (decide (out ≠ "")).
  - unfold update_vm, save, save_data, open_trunc, json_dump, set_data, get_data,
      bind, send_message, raise, ret.
    by destruct answered.
  - destruct (local_ssh_port v) as [port|]; [|done].
    destruct (create_vm_process E (vm_name v) (ram_mb v) (cpu v) (disk_gb v) port w1)
      as [[[ok msg]|e|] w2]; [|done..].
    destruct ok; cbn [negb];
      unfold update_vm, save, save_data, open_trunc, json_dump, set_data, get_data,
        bind, send_message, raise, ret;
      by destruct answered.
Qed.


(** ** Who is let in

    The four commands check the caller when they are invoked; the
    buttons do not check anything. *)

Lemma restart_cb_raises E vid v w :
  vps (data w) !! vid = Some v → ∃ e, (restart_cb E vid w).1 = Raise e.
Proof.
  intros Hv. unfold restart_cb.
  erewrite bind_ok by by apply stop_cb_eq.
  set (w1 := saved w _ _ _ _).
  assert (Hv1 : vps (data w1) !! vid = Some (with_status Stopped v)).
  { subst w1. cbn [saved data alter_vm vps]. by rewrite lookup_alter_eq, Hv. }
  destruct (start_cb_on_cases E true vid _ w1 Hv1)
    as [[_ ->]|[(_ & _ & ->)|(_ & port & b & msg & fs & evs & k & _ & _ & _ & _ & _ & ->)]];
    by eexists.
Qed.

(** C3, as the code has it: a caller who is neither the owner of the
    record nor an admin gets "Not authorized" from manage (so no view and
    none of its buttons), deletevps, reinstallvps and renewssh, and the
    whole state, host included, is as before: no record changed, no shell
    command run, no file removed, nothing saved.  The buttons of a view
    that is already out carry no check: in the same state no click
    answers "Not authorized", Stop kills the VM, marks the record Stopped
    and saves, and SSH Info gives out the two connection strings. *)
Theorem commands_reject_unauthorized_caller (E : Env) (caller : Z) (vid : string)
    (v : VM) (w : World) :
  vps (data w) !! vid = Some v →
  vm_user v ≠ py_str caller →
  caller ∉ admins (data w) →
  manage caller vid w = (Ok NotAuthorized, w)
  ∧ deletevps E caller vid w = (Ok NotAuthorized, w)
  ∧ reinstallvps E caller vid w = (Ok NotAuthorized, w)
  ∧ renewssh E caller vid w = (Ok NotAuthorized, w)
  ∧ (∀ b, (click E b vid w).1 ≠ Ok NotAuthorized)
  ∧ click E BtnStop vid w
    = (Ok (StoppedMsg (vm_name v)),
       saved w (alter_vm (with_status Stopped) vid (data w)) (files w)
             [EvShell (Pkill (vm_name v)) 120] 1)
  ∧ click E BtnSsh vid w = (Ok (SshInfo (local_ssh v) (tmate v)), w).
Proof.
  intros Hv Huser Hadm.
  split_and!; [by eapply with_vps_unauthorized.. | | by apply stop_cb_eq |].
  - intros [| | |]; cbn [click].
    + destruct (start_cb_cases E vid v w Hv)
        as [[_ ->]|[(_ & _ & ->)|(_ & port & b & msg & fs & evs & k & _ & _ & _ & _ & _ & ->)]];
        [done | done | by destruct b].
    + by rewrite (stop_cb_eq E vid v).
    + destruct (restart_cb_raises E vid v w Hv) as [e ->]. done.
    + unfold ssh_cb, bind, get_data. cbn [data]. by rewrite Hv.
  - cbn [click]. unfold ssh_cb, bind, get_data. cbn [data]. by rewrite Hv.
Qed.

Lemma commands_reject_unauthorized_caller_witness :
  manage 8 "1000" one_vm_world = (Ok NotAuthorized, one_vm_world)
  ∧ deletevps ok_env 8 "1000" one_vm_world = (Ok NotAuthorized, one_vm_world)
  ∧ reinstallvps ok_env 8 "1000" one_vm_world = (Ok NotAuthorized, one_vm_world)
  ∧ renewssh ok_env 8 "1000" one_vm_world = (Ok NotAuthorized, one_vm_world)
  ∧ (click ok_env BtnStop "1000" one_vm_world).1 = Ok (StoppedMsg "web-1000").
Proof.
  destruct (commands_reject_unauthorized_caller ok_env 8 "1000"
              (created_vm "1000" 7 "web" 2048 2 20 22700 "ssh demo@nyc1.tmate.io"
                          "2024-01-01T00:00:00") one_vm_world)
    as (Hm & Hd & Hr & Hn & _ & Hstop & _).
  - vm_compute. reflexivity.
  - vm_compute. discriminate.
  - vm_compute. intros H. inversion H as [|? ? ? H']. inversion H'.
  - split_and!; [exact Hm | exact Hd | exact Hr | exact Hn |].
    rewrite Hstop. reflexivity.
Defined.

(** The claim of C3 fails for the buttons.  In [stale_view_world] user 7
    is neither the owner of VM "1000" nor an admin, and manage refuses
    user 7 there; but manage had sent user 7 the view while user 7 was an
    admin, and a click on its Stop button still goes through: the pkill
    is issued and the record, Running before, is saved as Stopped. *)
Lemma stale_view_stop_goes_through :
  reachable ok_env stale_view_world
  ∧ manage 7 "1000" db_world = (Ok (ViewSent "1000"), db_world)
  ∧ vm_user <$> vps (data stale_view_world) !! "1000" = Some (py_str 8)
  ∧ status <$> vps (data stale_view_world) !! "1000" = Some Running
  ∧ admins (data stale_view_world) = [42]
  ∧ manage 7 "1000" stale_view_world = (Ok NotAuthorized, stale_view_world)
  ∧ stale_stop.1 = Ok (StoppedMsg "db-1000")
  ∧ status <$> vps (data stale_stop.2) !! "1000" = Some Stopped
  ∧ data_file stale_stop.2 = Doc (data stale_stop.2)
  ∧ trace stale_stop.2 !! length (trace stale_view_world)
    = Some (EvShell (Pkill "db-1000") 120).
Proof.
  split_and!; [|vm_compute; reflexivity..].
  unfold stale_view_world, db_world, two_admins_world.
  do 4 apply reach_handle. apply reach_init.
Qed.

Lemma advance_host n w : advance n w = host_step w (files w) [] n.
Proof. unfold advance, host_step. by rewrite app_nil_r. Qed.

Lemma advance_advance n m w : advance n (advance m w) = advance (n + m) w.
Proof. unfold advance. simpl. f_equal. lia. Qed.

Lemma gen_vps_id_world E fuel w : ∃ n, (gen_vps_id E fuel w).2 = advance n w.
Proof.
  revert w. induction fuel as [|fuel IH]; intros w.
  - exists 0%nat. by destruct w.
  - rewrite gen_vps_id_unfold. destruct (decide _) as [Hfree|Hbusy].
    + by exists 1%nat.
    + destruct (IH (tick w)) as [m ->]. exists (S m). by rewrite advance_tick.
Qed.

Lemma try_find_free_port w :
  try_RuntimeError (let* p := find_free_ssh_port in ret (Some p)) (ret None) w
  = (Ok (free_port (data w)), w).
Proof.
  unfold try_RuntimeError, find_free_ssh_port, bind, get_data, raise, ret.
  by destruct (free_port (data w)).
Qed.

Lemma createvps_cases E fuel caller name ram cores disk w :
  (∃ n, createvps E fuel caller name ram cores disk w = (OutOfFuel, advance n w))
  ∨ ∃ vid n,
      gen_vps_id E fuel w = (Ok vid, advance n w)
      ∧ vps (data w) !! vid = None
      ∧ let vm := name +:+ "-" +:+ vid in
        (free_port (data w) = None ∧
         createvps E fuel caller name ram cores disk w
         = (Ok NoFreePorts, advance n w))
        ∨ (∃ p msg fs evs k,
             free_port (data w) = Some p
             ∧ files w ⊆ fs
             ∧ Forall is_shell evs
             ∧ ((shell E (n + clock w) (img_cmd vm disk)).2 = 0 →
                qcow (vm_paths vm) ∈ fs)
             ∧ createvps E fuel caller name ram cores disk w
               = (Ok (CreateFailed msg),
                  host_step w fs (EvShell (img_cmd vm disk) 120 :: evs) k))
        ∨ (∃ p tm stamp fs evs k,
             free_port (data w) = Some p
             ∧ createvps E fuel caller name ram cores disk w
               = (Ok (Created vid),
                  saved w
                    (mkData (<[vid := created_vm vid caller name ram cores
                                        disk p tm stamp]> (vps (data w)))
                            (admins (data w)))
                    fs evs k)).
Proof.
  remember (createvps E fuel caller name ram cores disk w) as res eqn:Hres.
  unfold createvps in Hres. cbv zeta in Hres.
  destruct (gen_vps_id E fuel w) as [[vid|e|] w1] eqn:Hgen.
  - right. apply gen_vps_id_result in Hgen as Hvid.
    destruct Hvid as [Hnone [n ->]]. exists vid, n. split_and!; [done..|].
    erewrite bind_ok in Hres by exact Hgen.
    erewrite bind_ok in Hres by apply try_find_free_port.
    cbn [data advance] in Hres.
    destruct (free_port (data w)) as [p|] eqn:Hfree; [right | left; by subst res].
    rewrite advance_host in Hres.
    destruct (create_vm_process_result E (name +:+ "-" +:+ vid) ram cores disk p
                (host_step w (files w) [] n))
      as (b & msg & fs & evs & k & Hcvp & Hfs & Hevs & Himg & Hok).
    erewrite bind_ok in Hres by exact Hcvp. cbv beta iota in Hres.
    rewrite host_step_host_step in Hres.
    unfold host_step in Hfs, Himg. cbn [files clock] in Hfs, Himg.
    destruct b; cbn [negb] in Hres.
    + right.
      destruct (host_only_generate_tmate E (name +:+ "-" +:+ vid)
                  (host_step w fs ([] ++ EvShell (img_cmd (name +:+ "-" +:+ vid) disk) 120 :: evs)
                             (k + n)))
        as ([tok tstr] & fs2 & evs2 & n2 & Htm).
      erewrite bind_ok in Hres by exact Htm. cbv beta iota zeta in Hres.
      rewrite host_step_host_step in Hres.
      destruct (host_only_now E (host_step w fs2
                  (([] ++ EvShell (img_cmd (name +:+ "-" +:+ vid) disk) 120 :: evs) ++ evs2)
                  (n2 + (k + n))))
        as (stamp & fs3 & evs3 & n3 & Hnow).
      erewrite bind_ok in Hres by exact Hnow.
      rewrite host_step_host_step in Hres.
      exists p, (if negb tok then "Failed to generate tmate link: " +:+ tstr else tstr),
        stamp, fs3,
        ((([] ++ EvShell (img_cmd (name +:+ "-" +:+ vid) disk) 120 :: evs) ++ evs2) ++ evs3)%list,
        (n3 + (n2 + (k + n)))%nat.
      split; [done|]. subst res.
      unfold store_vm, save, set_data, get_data, bind. simpl. world_eq.
    + left. exists p, msg, fs, evs, (k + n)%nat. split_and!; [done..|]. by subst res.
  - exfalso. eapply (gen_vps_id_no_exception E fuel w e). by rewrite Hgen.
  - left. destruct (gen_vps_id_world E fuel w) as [n Hn]. exists n.
    rewrite Hgen in Hn. simpl in Hn. subst w1 res.
    unfold bind. by rewrite Hgen.
Qed.

(** ** Create *)

(** C1, as the code has it: when createvps gives up because no port is
    free or because [create_vm_process] failed, nothing is persisted: the
    VM map, the admin list and the data file are as before, the
    identifier it had picked is still absent and the next port
    allocation answers as it would have before.  The failure path
    removes no file: it only ran shell commands, and every file that
    existed, or that [qemu-img] created meanwhile, is still there. *)
Theorem createvps_failure_persists_nothing (E : Env) (fuel : nat) (caller : Z)
    (name : string) (ram cores disk : Z) (w : World) (r : Response) (w' : World) :
  createvps E fuel caller name ram cores disk w = (Ok r, w') →
  r = NoFreePorts ∨ (∃ msg, r = CreateFailed msg) →
  data w' = data w
  ∧ data_file w' = data_file w
  ∧ (∃ vid n, gen_vps_id E fuel w = (Ok vid, advance n w)
              ∧ vps (data w') !! vid = None)
  ∧ free_port (data w') = free_port (data w)
  ∧ files w ⊆ files w'
  ∧ (∃ evs : list Event, trace w' = (trace w ++ evs)%list ∧ Forall is_shell evs)
  ∧ (∀ vid n, gen_vps_id E fuel w = (Ok vid, advance n w) →
       r ≠ NoFreePorts →
       (shell E (n + clock w) (img_cmd (name +:+ "-" +:+ vid) disk)).2 = 0 →
       qcow (vm_paths (name +:+ "-" +:+ vid)) ∈ files w').
Proof.
  intros Hrun Hfail.
  destruct (createvps_cases E fuel caller name ram cores disk w)
    as [[n Hout]|(vid & n & Hgen & Hnone & Hcases)].
  { rewrite Hout in Hrun. discriminate. }
  cbv zeta in Hcases.
  destruct Hcases as [[Hfree Heq]|[(p & msg & fs & evs & k & Hfree & Hfs & Hevs & Himg & Heq)
                                  |(p & tm & stamp & fs & evs & k & Hfree & Heq)]];
    rewrite Heq in Hrun; injection Hrun as <- <-.
  - split_and!; [done | done | by eauto | done | done | |].
    + exists []. by rewrite app_nil_r.
    + intros vid' n' Hgen' Hr. done.
  - split_and!; [done | done | by eauto | done | done | |].
    + eexists. split; [reflexivity|]. constructor; [by eexists _, _ | done].
    + intros vid' n' Hgen' _ Hrc. rewrite Hgen in Hgen'.
      injection Hgen' as <- Hadv.
      assert (n' = n) as -> by lia.
      by apply Himg.
  - destruct Hfail as [?|[? ?]]; discriminate.
Qed.

Lemma createvps_failure_persists_nothing_witness :
  data failed_create.2 = data (init_world launch_fails_env ∅)
  ∧ data_file failed_create.2 = NoFile
  ∧ files (init_world launch_fails_env ∅) ⊆ files failed_create.2.
Proof.
  pose proof (createvps_failure_persists_nothing launch_fails_env 1 7 "web"
                2048 2 20 (init_world launch_fails_env ∅)
                (CreateFailed "qemu launch failed: timeout")
                failed_create.2) as H.
  destruct H as (Hd & Hf & _ & _ & Hfs & _).
  - vm_compute. reflexivity.
  - right. eexists. reflexivity.
  - split_and!; [exact Hd | exact Hf | exact Hfs].
Defined.

(** C1 fails as stated: on a host where [qemu-img create] succeeds and
    the qemu launch fails, createvps reports the failure and returns
    with the new disk image left in the working directory; it removes
    nothing. *)
Lemma createvps_launch_failure_leaves_disk_image :
  failed_create.1
  = Ok (CreateFailed "qemu launch failed: timeout")
  ∧ ("/root/vps_manager/web-1000.qcow2" ∉ files (init_world launch_fails_env ∅))
  ∧ "/root/vps_manager/web-1000.qcow2" ∈ files failed_create.2
  ∧ trace failed_create.2
    = [EvShell (img_cmd "web-1000" 20) 120;
       EvShell (launch_cmd "web-1000" 2048 2 22700) 120].
Proof.
  split_and!.
  - vm_compute. reflexivity.
  - set_solver.
  - vm_compute. reflexivity.
  - vm_compute. reflexivity.
Qed.

(** ** Start *)

(** C5 against the code: when the liveness check finds no process, the
    Start button does not just launch qemu.  It calls
    [create_vm_process], whose first step is [qemu-img create] on the
    disk path of the VM, with the stored size; the launch line comes
    after it and only if that step succeeded. *)
Theorem start_cb_runs_disk_creation (E : Env) (vid : string) (v : VM)
    (port : Z) (w : World) :
  vps (data w) !! vid = Some v →
  local_ssh_port v = Some port →
  (shell E (clock w) (Pgrep (vm_name v))).1.1 = "" →
  (∃ evs : list Event,
     trace (start_cb E vid w).2
     = (trace w ++ EvShell (Pgrep (vm_name v)) 120
                :: EvShell (img_cmd (vm_name v) (disk_gb v)) 120 :: evs)%list)
  ∧ ((shell E (S (clock w)) (img_cmd (vm_name v) (disk_gb v))).2 = 0 →
     qcow (vm_paths (vm_name v)) ∈ files (start_cb E vid w).2).
Proof.
  intros Hv Hport Hdown.
  destruct (start_cb_cases E vid v w Hv)
    as [[Hup _]|[(_ & Hnone & _)|(_ & port' & b & msg & fs & evs & k & _ & _ & _ & Himg & _ & Heq)]].
  - done.
  - congruence.
  - rewrite Heq. cbv zeta. destruct b; cbn [snd].
    + split; [|done]. eexists. unfold saved. cbn [trace].
      rewrite <- app_comm_cons. reflexivity.
    + split; [|done]. by eexists.
Qed.

Lemma start_cb_runs_disk_creation_witness :
  (∃ evs : list Event,
     trace start_when_down.2
     = (trace one_vm_world ++ EvShell (Pgrep "web-1000") 120
                :: EvShell (img_cmd "web-1000" 20) 120 :: evs)%list)
  ∧ "/root/vps_manager/web-1000.qcow2" ∈ files start_when_down.2.
Proof.
  pose proof (start_cb_runs_disk_creation ok_env "1000"
                (created_vm "1000" 7 "web" 2048 2 20 22700 "ssh demo@nyc1.tmate.io"
                            "2024-01-01T00:00:00")
                22700 one_vm_world) as H.
  destruct H as [Htr Hfile].
  - vm_compute. reflexivity.
  - reflexivity.
  - reflexivity.
  - split; [exact Htr | apply Hfile; reflexivity].
Defined.

(** ** Delete, reinstall, renew *)

Create HintDb host discriminated.
#[local] Hint Resolve host_only_ret host_only_run_shell host_only_remove_if_exists
  host_only_write_file host_only_now host_only_create_vm_process
  host_only_generate_tmate : host.

(** Run the first computation of the goal when it only touches the host. *)
Ltac step_host :=
  lazymatch goal with
  | |- context [bind ?m ?k ?w] =>
      let a := fresh "a" in
      let fs := fresh "fs" in
      let evs := fresh "evs" in
      let n := fresh "n" in
      let Hm := fresh "Hm" in
      let Heq := fresh "Heq" in
      assert (Hm : host_only m) by auto with host;
      destruct (Hm w) as (a & fs & evs & n & Heq); clear Hm;
      rewrite (bind_ok m k w _ _ Heq); clear Heq;
      rewrite ?host_step_host_step
  end.

Lemma deletevps_authorized E caller vid v w :
  vps (data w) !! vid = Some v →
  vm_user v = py_str caller ∨ caller ∈ admins (data w) →
  ∃ fs evs n,
    deletevps E caller vid w
    = (Ok (Deleted (vm_name v)),
       saved w (mkData (delete vid (vps (data w))) (admins (data w))) fs evs n).
Proof.
  intros Hv Hauth. unfold deletevps.
  rewrite (with_vps_authorized caller vid v) by done. cbv zeta.
  do 6 step_host.
  lazymatch goal with
  | |- context [host_step w ?fs ?evs ?n] => exists fs, evs, n
  end.
  unfold save, set_data, get_data, bind. simpl. world_eq.
Qed.

Lemma find_free_ssh_port_eq w :
  find_free_ssh_port w
  = match free_port (data w) with
    | Some p => (Ok p, w)
    | None => (Raise (RuntimeError "No free SSH ports available"), w)
    end.
Proof.
  unfold find_free_ssh_port, bind, get_data.
  by destruct (free_port (data w)).
Qed.

Lemma reinstallvps_cases E caller vid v w :
  vps (data w) !! vid = Some v →
  vm_user v = py_str caller ∨ caller ∈ admins (data w) →
  let name := vm_name v in
  match reinstall_port v (data w) with
  | None =>
      ∃ fs evs n,
        reinstallvps E caller vid w
        = (Raise (RuntimeError "No free SSH ports available"),
           host_step w fs evs n)
  | Some p =>
      (∃ msg fs evs n,
         reinstallvps E caller vid w
         = (Ok (ReinstallFailed msg), host_step w fs evs n))
      ∨ reinstallvps E caller vid w
        = (Ok (Reinstalled name),
           saved w (alter_vm (with_status Running ∘ with_port p) vid (data w))
                 ({[log (vm_paths name)]}
                  ∪ ({[qcow (vm_paths name)]}
                     ∪ files w ∖ {[qcow (vm_paths name)]}))
                 (reinstall_events v p (bool_decide (qcow (vm_paths name) ∈ files w)))
                 3)
  end.
Proof.
  intros Hv Hauth name.
  remember (reinstallvps E caller vid w) as res eqn:Hres.
  unfold reinstallvps in Hres.
  rewrite (with_vps_authorized caller vid v) in Hres by done.
  cbv zeta in Hres. fold name in Hres.
  erewrite bind_ok in Hres by apply run_shell_eq.
  rewrite tool_effect_pkill in Hres.
  erewrite bind_ok in Hres by apply remove_if_exists_eq.
  set (w1 := if decide (qcow (vm_paths name) ∈ files _) then _ else _) in Hres.
  assert (Hw1 : w1 = host_step w (files w ∖ {[qcow (vm_paths name)]})
                       ([EvShell (Pkill name) 10]
                        ++ (if bool_decide (qcow (vm_paths name) ∈ files w)
                            then [EvRemove (qcow (vm_paths name))] else []))
                       1).
  { subst w1. cbn [files host_step]. destruct (decide _) as [Hin|Hout].
    - rewrite bool_decide_true by done. by rewrite host_step_host_step.
    - rewrite bool_decide_false by done. unfold host_step. cbn.
      f_equal. rewrite difference_disjoint_L; [done|].
      by apply disjoint_singleton_r. }
  clearbody w1. subst w1.
  set (w1 := host_step w _ _ 1) in Hres.
  assert (Hport : ∀ k : Z → M Response,
    bind (match truthy_port v with Some p => ret p | None => find_free_ssh_port end)
         k w1
    = match reinstall_port v (data w) with
      | Some p => k p w1
      | None => (Raise (RuntimeError "No free SSH ports available"), w1)
      end).
  { intros k. unfold reinstall_port, bind. destruct (truthy_port v); [done|].
    rewrite find_free_ssh_port_eq. cbn [data w1 host_step].
    by destruct (free_port (data w)). }
  rewrite Hport in Hres. clear Hport.
  destruct (reinstall_port v (data w)) as [p|]; [|subst res; eauto].
  destruct (create_vm_process_cases E name (ram_mb v) (cpu v) (disk_gb v) p w1)
    as [[_ Heq]|[(_ & _ & Heq)|(_ & _ & Heq)]];
    erewrite bind_ok in Hres by exact Heq; cbv beta iota in Hres;
    cbn [negb] in Hres; subst res w1; rewrite host_step_host_step.
  - left. by eauto 10.
  - left. by eauto 10.
  - right. unfold update_vm, save, set_data, get_data, bind. simpl.
    unfold reinstall_events. fold name. rewrite !alter_alter_eq. world_eq.
Qed.

Lemma renewssh_cases E caller vid v w :
  vps (data w) !! vid = Some v →
  vm_user v = py_str caller ∨ caller ∈ admins (data w) →
  match free_port (data w) with
  | None => renewssh E caller vid w = (Ok NoFreePorts, w)
  | Some p =>
      (∃ msg fs evs n,
         renewssh E caller vid w = (Ok (RenewFailed msg), host_step w fs evs n))
      ∨ (∃ tm fs evs n,
           renewssh E caller vid w
           = (Ok (Renewed (ssh_line p) tm),
              saved w (alter_vm (with_status Running ∘ with_tmate tm ∘ with_port p)
                                vid (data w))
                    fs evs n))
  end.
Proof.
  intros Hv Hauth.
  remember (renewssh E caller vid w) as res eqn:Hres.
  unfold renewssh in Hres.
  rewrite (with_vps_authorized caller vid v) in Hres by done.
  cbv zeta in Hres.
  erewrite bind_ok in Hres by apply try_find_free_port.
  destruct (free_port (data w)) as [p|]; [|by subst res].
  erewrite bind_ok in Hres by apply run_shell_eq.
  rewrite tool_effect_pkill in Hres.
  destruct (create_vm_process_result E (vm_name v) (ram_mb v) (cpu v) (disk_gb v) p
              (host_step w (files w) [EvShell (Pkill (vm_name v)) 10] 1))
    as (b & msg & fs & evs & k & Hcvp & _).
  erewrite bind_ok in Hres by exact Hcvp. cbv beta iota in Hres.
  rewrite host_step_host_step in Hres.
  destruct b; cbn [negb] in Hres; [right | left; subst res; by eauto 10].
  erewrite bind_ok in Hres by reflexivity.
  match type of Hres with
  | context [generate_tmate E ?name] =>
      match type of Hres with
      | res = bind _ _ ?w2 =>
          destruct (host_only_generate_tmate E name w2)
            as ([tok tstr] & fs2 & evs2 & n2 & Htm)
      end
  end.
  erewrite bind_ok in Hres by exact Htm. cbv beta iota zeta in Hres.
  exists (if negb tok then "Failed to generate tmate: " +:+ tstr else tstr),
    fs2,
    (([EvShell (Pkill (vm_name v)) 10]
      ++ EvShell (img_cmd (vm_name v) (disk_gb v)) 120 :: evs) ++ evs2)%list,
    (n2 + (k + 1))%nat.
  subst res.
  unfold update_vm, save, set_data, get_data, bind. simpl.
  rewrite !alter_alter_eq, lookup_alter_eq, Hv. simpl. world_eq.
Qed.

(** ** Invariants *)

Lemma ports_ok_alter (g : VM → VM) vid v0 p d :
  ports_ok d →
  vps d !! vid = Some v0 →
  local_ssh_port (g v0) = Some p →
  local_ssh (g v0) = ssh_line p →
  SSH_PORT_MIN ≤ p ≤ SSH_PORT_MAX →
  (∀ k' v', k' ≠ vid → vps d !! k' = Some v' → local_ssh_port v' ≠ Some p) →
  ports_ok (alter_vm g vid d).
Proof.
  intros Hok Hv0 Hport Hssh Hrange Hfresh k v Hk.
  unfold alter_vm in *. cbn [vps] in *.
  destruct (decide (k = vid)) as [->|Hne].
  - rewrite lookup_alter_eq, Hv0 in Hk. simpl in Hk. simplify_eq.
    exists p. do 3 (split; [done|]).
    intros k' v' Hk' Hp'. destruct (decide (k' = vid)) as [|Hne']; [done|].
    rewrite lookup_alter_ne in Hk' by done. by destruct (Hfresh k' v').
  - rewrite lookup_alter_ne in Hk by done.
    destruct (Hok k v Hk) as (q & Hq & Hqr & Hqs & Huniq).
    exists q. do 3 (split; [done|]).
    intros k' v' Hk' Hq'. destruct (decide (k' = vid)) as [->|Hne'].
    + rewrite lookup_alter_eq, Hv0 in Hk'. simpl in Hk'.
      injection Hk' as <-. rewrite Hport in Hq'. injection Hq' as <-.
      by destruct (Hfresh k v).
    + rewrite lookup_alter_ne in Hk' by done. by eapply Huniq.
Qed.

(** An update that leaves the port and the ssh line alone. *)
Lemma ports_ok_alter_same (g : VM → VM) vid v0 d :
  ports_ok d →
  vps d !! vid = Some v0 →
  local_ssh_port (g v0) = local_ssh_port v0 →
  local_ssh (g v0) = local_ssh v0 →
  ports_ok (alter_vm g vid d).
Proof.
  intros Hok Hv0 Hport Hssh.
  destruct (Hok vid v0 Hv0) as (p & Hp & Hr & Hs & Huniq).
  apply (ports_ok_alter g vid v0 p); [done | done | congruence | congruence | done |].
  intros k' v' Hne Hk' Hp'. apply Hne. by eapply Huniq.
Qed.

Lemma ports_ok_delete vid d :
  ports_ok d → ports_ok (mkData (delete vid (vps d)) (admins d)).
Proof.
  intros Hok k v Hk. cbn [vps] in *.
  apply lookup_delete_Some in Hk as [Hne Hk].
  destruct (Hok k v Hk) as (p & Hp & Hr & Hs & Huniq).
  exists p. do 3 (split; [done|]).
  intros k' v' Hk' Hp'. apply lookup_delete_Some in Hk' as [_ Hk'].
  by eapply Huniq.
Qed.

Lemma ports_ok_insert vid v p d :
  ports_ok d →
  vps d !! vid = None →
  free_port d = Some p →
  local_ssh_port v = Some p →
  local_ssh v = ssh_line p →
  ports_ok (mkData (<[vid := v]> (vps d)) (admins d)).
Proof.
  intros Hok Hnone Hfree Hp Hs k u Hk. cbn [vps] in *.
  apply free_port_Some in Hfree as (Hr & Hunused & _).
  apply lookup_insert_Some in Hk as [[<- <-]|[Hne Hk]].
  - exists p. do 3 (split; [done|]).
    intros k' v' Hk' Hp'. apply lookup_insert_Some in Hk' as [[? _]|[_ Hk']]; [done|].
    by destruct (Hunused k' v').
  - destruct (Hok k u Hk) as (q & Hq & Hqr & Hqs & Huniq).
    exists q. do 3 (split; [done|]).
    intros k' v' Hk' Hq'. apply lookup_insert_Some in Hk' as [[<- <-]|[_ Hk']].
    + assert (q = p) as -> by congruence. by destruct (Hunused k u).
    + by eapply Huniq.
Qed.

Lemma list_remove_first_subseteq x l y :
  y ∈ list_remove_first x l → y ∈ l.
Proof.
  induction l as [|z l IH]; simpl; [done|].
  destruct (decide (z = x)); [by right|].
  intros [->|Hin]%elem_of_cons; [by left | right; by apply IH].
Qed.

Lemma list_remove_first_other x l y :
  y ≠ x → y ∈ l → y ∈ list_remove_first x l.
Proof.
  intros Hne. induction l as [|z l IH]; simpl; [done|].
  intros [->|Hin]%elem_of_cons.
  - rewrite decide_False by done. by left.
  - destruct (decide (z = x)); [done|]. right. by apply IH.
Qed.

Lemma list_remove_first_NoDup x l :
  NoDup l → NoDup (list_remove_first x l) ∧ x ∉ list_remove_first x l.
Proof.
  induction 1 as [|z l Hz Hnd [IHnd IHx]]; simpl; [split; [constructor | by intros ?%elem_of_nil]|].
  destruct (decide (z = x)) as [->|Hne]; [done|].
  split.
  - constructor; [|done]. intros Hin. by apply Hz, (list_remove_first_subseteq x).
  - intros [?|?]%elem_of_cons; [congruence | done].
Qed.

Lemma inv_host_step E w fs evs n : inv E w → inv E (host_step w fs evs n).
Proof. done. Qed.

Lemma inv_advance E w n : inv E w → inv E (advance n w).
Proof. done. Qed.

Lemma inv_saved E w d fs evs n : good_data E d → inv E (saved w d fs evs n).
Proof. by split. Qed.

Lemma ports_ok_truthy d k v :
  ports_ok d → vps d !! k = Some v →
  ∃ p, local_ssh_port v = Some p ∧ truthy_port v = Some p
       ∧ SSH_PORT_MIN ≤ p ≤ SSH_PORT_MAX ∧ local_ssh v = ssh_line p.
Proof.
  intros Hok Hk. destruct (Hok k v Hk) as (p & Hp & Hr & Hs & _).
  exists p. split_and!; [done | | lia | lia | done].
  unfold truthy_port. rewrite Hp. rewrite decide_False; [done|].
  unfold SSH_PORT_MIN in Hr. lia.
Qed.

Lemma with_vps_cases caller vid body w :
  with_vps caller vid body w = (Ok NotFound, w)
  ∨ with_vps caller vid body w = (Ok NotAuthorized, w)
  ∨ ∃ v, vps (data w) !! vid = Some v
         ∧ (vm_user v = py_str caller ∨ caller ∈ admins (data w))
         ∧ with_vps caller vid body w = body v w.
Proof.
  destruct (vps (data w) !! vid) as [v|] eqn:Hv.
  - destruct (decide (vm_user v = py_str caller)) as [Hown|Hown].
    { right. right. exists v. split_and!; [done | by left |].
      apply with_vps_authorized; [done | by left]. }
    destruct (decide (caller ∈ admins (data w))) as [Hadm|Hadm].
    { right. right. exists v. split_and!; [done | by right |].
      apply with_vps_authorized; [done | by right]. }
    right. left. by eapply with_vps_unauthorized.
  - left. by apply with_vps_not_found.
Qed.

Lemma createvps_inv E fuel caller name ram cores disk w :
  inv E w → inv E (createvps E fuel caller name ram cores disk w).2.
Proof.
  intros Hinv.
  destruct (createvps_cases E fuel caller name ram cores disk w)
    as [[n ->]|(vid & n & Hgen & Hnone & Hcases)]; [done|].
  cbv zeta in Hcases.
  destruct Hcases as [[_ ->]|[(p & msg & fs & evs & k & _ & _ & _ & _ & ->)
                             |(p & tm & stamp & fs & evs & k & Hfree & ->)]];
    [done | done |].
  apply inv_saved. destruct Hinv as [(Hown & Hnd & Hports) _].
  split_and!; [done | done |].
  by eapply ports_ok_insert.
Qed.

Lemma good_data_alter_same E (g : VM → VM) vid v0 d :
  good_data E d →
  vps d !! vid = Some v0 →
  local_ssh_port (g v0) = local_ssh_port v0 →
  local_ssh (g v0) = local_ssh v0 →
  good_data E (alter_vm g vid d).
Proof.
  intros (Hown & Hnd & Hports) Hv0 Hp Hs.
  split_and!; [done | done | by eapply ports_ok_alter_same].
Qed.

Lemma start_cb_detached E vid w :
  vps (data w) !! vid = None → start_cb E vid w = (Ok Detached, w).
Proof. intros Hv. unfold start_cb, start_cb_on, bind, get_data. by rewrite Hv. Qed.

Lemma stop_cb_detached E vid w :
  vps (data w) !! vid = None → stop_cb E vid w = (Ok Detached, w).
Proof. intros Hv. unfold stop_cb, bind, get_data. by rewrite Hv. Qed.

Lemma start_cb_inv E vid w : inv E w → inv E (start_cb E vid w).2.
Proof.
  intros Hinv. destruct (vps (data w) !! vid) as [v|] eqn:Hv.
  - destruct (start_cb_cases E vid v w Hv)
      as [[_ ->]|[(_ & _ & ->)|(_ & port & b & msg & fs & evs & k & _ & _ & _ & _ & _ & ->)]].
    + apply inv_saved. by eapply good_data_alter_same; [apply Hinv|..].
    + done.
    + cbv zeta. destruct b; [|done].
      apply inv_saved. by eapply good_data_alter_same; [apply Hinv|..].
  - by rewrite start_cb_detached.
Qed.

Lemma stop_cb_inv E vid w : inv E w → inv E (stop_cb E vid w).2.
Proof.
  intros Hinv. destruct (vps (data w) !! vid) as [v|] eqn:Hv.
  - rewrite (stop_cb_eq E vid v) by done.
    apply inv_saved. by eapply good_data_alter_same; [apply Hinv|..].
  - by rewrite stop_cb_detached.
Qed.

Lemma restart_cb_world E vid w :
  (restart_cb E vid w).2 = (start_cb E vid (stop_cb E vid w).2).2.
Proof.
  rewrite <- (start_cb_on_world E true).
  unfold restart_cb, bind. destruct (vps (data w) !! vid) as [v|] eqn:Hv.
  - by rewrite (stop_cb_eq E vid v).
  - by rewrite stop_cb_detached.
Qed.

Lemma click_inv E b vid w : inv E w → inv E (click E b vid w).2.
Proof.
  intros Hinv. destruct b; simpl.
  - by apply start_cb_inv.
  - by apply stop_cb_inv.
  - rewrite restart_cb_world. by apply start_cb_inv, stop_cb_inv.
  - unfold ssh_cb, bind, get_data. by destruct (vps (data w) !! vid).
Qed.

Lemma manage_world caller vid w : (manage caller vid w).2 = w.
Proof.
  unfold manage.
  destruct (with_vps_cases caller vid (λ _, ret (ViewSent vid)) w)
    as [->|[->|(v & _ & _ & ->)]]; done.
Qed.

Lemma deletevps_inv E caller vid w : inv E w → inv E (deletevps E caller vid w).2.
Proof.
  intros Hinv. unfold deletevps.
  match goal with |- context [with_vps caller vid ?body w] =>
    destruct (with_vps_cases caller vid body w) as [->|[->|(v & Hv & Hauth & Hbody)]]
  end; [done | done |].
  destruct (deletevps_authorized E caller vid v w Hv Hauth) as (fs & evs & n & Heq).
  unfold deletevps in Heq. rewrite Heq.
  apply inv_saved. destruct Hinv as [(Hown & Hnd & Hports) _].
  split_and!; [done | done | by apply ports_ok_delete].
Qed.

Lemma reinstallvps_inv E caller vid w :
  inv E w → inv E (reinstallvps E caller vid w).2.
Proof.
  intros Hinv. pose proof Hinv as [(Hown & Hnd & Hports) _].
  assert (Hcases := λ v, reinstallvps_cases E caller vid v w).
  unfold reinstallvps in *.
  match goal with |- context [with_vps caller vid ?body w] =>
    destruct (with_vps_cases caller vid body w) as [->|[->|(v & Hv & Hauth & Hbody)]]
  end; [done | done |].
  specialize (Hcases v Hv Hauth). cbv zeta in Hcases.
  destruct (ports_ok_truthy _ _ _ Hports Hv) as (p & Hp & Htruthy & Hr & Hs).
  unfold reinstall_port in Hcases. rewrite Htruthy in Hcases.
  destruct Hcases as [(msg & fs & evs & n & ->)| ->]; [done|].
  apply inv_saved. split_and!; [done | done |].
  apply (ports_ok_alter _ vid v p); [done | done | done | done | done |].
  intros k' v' Hne Hk' Hp'.
  destruct (Hports vid v Hv) as (q & Hq & _ & _ & Huniq).
  assert (q = p) as -> by congruence. apply Hne. by eapply Huniq.
Qed.

Lemma renewssh_inv E caller vid w :
  inv E w → inv E (renewssh E caller vid w).2.
Proof.
  intros Hinv. pose proof Hinv as [(Hown & Hnd & Hports) _].
  assert (Hcases := λ v, renewssh_cases E caller vid v w).
  unfold renewssh in *.
  match goal with |- context [with_vps caller vid ?body w] =>
    destruct (with_vps_cases caller vid body w) as [->|[->|(v & Hv & Hauth & Hbody)]]
  end; [done | done |].
  specialize (Hcases v Hv Hauth).
  destruct (free_port (data w)) as [p|] eqn:Hfree; [|by rewrite Hcases].
  destruct Hcases as [(msg & fs & evs & n & ->)|(tm & fs & evs & n & ->)]; [done|].
  apply inv_saved. split_and!; [done | done |].
  apply free_port_Some in Hfree as (Hr & Hunused & _).
  apply (ports_ok_alter _ vid v p); [done | done | done | done | done |].
  intros k' v' _ Hk'. exact (Hunused k' v' Hk').
Qed.

(** ** The admin list *)

Lemma addadmin_cases E caller user w :
  (caller ≠ OWNER_ID E ∧ addadmin E caller user w = (Ok OnlyOwner, w))
  ∨ (caller = OWNER_ID E ∧ user ∈ admins (data w) ∧
     addadmin E caller user w = (Ok AlreadyAdmin, w))
  ∨ (caller = OWNER_ID E ∧ (user ∉ admins (data w)) ∧
     addadmin E caller user w
     = (Ok (AdminAdded user),
        saved w (mkData (vps (data w)) (admins (data w) ++ [user])) (files w) [] 0)).
Proof.
  remember (addadmin E caller user w) as res eqn:Hres.
  unfold addadmin in Hres. destruct (decide (caller ≠ OWNER_ID E)) as [Hne|Heq].
  { by left. }
  right. assert (caller = OWNER_ID E) as -> by (by destruct (decide (caller = OWNER_ID E))).
  erewrite bind_ok in Hres by reflexivity.
  destruct (decide (user ∈ admins (data w))) as [Hin|Hout].
  { by left. }
  right. split_and!; [done..|]. subst res.
  unfold save, set_data, get_data, bind. simpl. world_eq.
Qed.

Lemma removeadmin_cases E caller user w :
  (caller ≠ OWNER_ID E ∧ removeadmin E caller user w = (Ok OnlyOwner, w))
  ∨ (caller = OWNER_ID E ∧ user = OWNER_ID E ∧
     removeadmin E caller user w = (Ok CannotRemoveOwner, w))
  ∨ (caller = OWNER_ID E ∧ user ≠ OWNER_ID E ∧ (user ∉ admins (data w)) ∧
     removeadmin E caller user w = (Ok NotAnAdmin, w))
  ∨ (caller = OWNER_ID E ∧ user ≠ OWNER_ID E ∧ user ∈ admins (data w) ∧
     removeadmin E caller user w
     = (Ok (AdminRemoved user),
        saved w (mkData (vps (data w)) (list_remove_first user (admins (data w))))
              (files w) [] 0)).
Proof.
  remember (removeadmin E caller user w) as res eqn:Hres.
  unfold removeadmin in Hres. destruct (decide (caller ≠ OWNER_ID E)) as [Hne|Heq].
  { by left. }
  right. assert (caller = OWNER_ID E) as -> by (by destruct (decide (caller = OWNER_ID E))).
  destruct (decide (user = OWNER_ID E)) as [Huser|Huser].
  { by left. }
  right. erewrite bind_ok in Hres by reflexivity.
  destruct (decide (user ∉ admins (data w))) as [Hout|Hin].
  { by left. }
  right. assert (user ∈ admins (data w)) by (by destruct (decide (user ∈ admins (data w)))).
  split_and!; [done..|]. subst res.
  unfold save, set_data, get_data, bind. simpl. world_eq.
Qed.

Lemma addadmin_inv E caller user w : inv E w → inv E (addadmin E caller user w).2.
Proof.
  intros Hinv. pose proof Hinv as [(Hown & Hnd & Hports) _].
  destruct (addadmin_cases E caller user w)
    as [[_ ->]|[(_ & _ & ->)|(_ & Hout & ->)]]; [done | done |].
  apply inv_saved. split_and!; cbn [admins vps].
  - apply elem_of_app. by left.
  - apply NoDup_app. split_and!; [done | | apply NoDup_singleton].
    intros x Hx ->%list_elem_of_singleton. done.
  - done.
Qed.

Lemma removeadmin_inv E caller user w :
  inv E w → inv E (removeadmin E caller user w).2.
Proof.
  intros Hinv. pose proof Hinv as [(Hown & Hnd & Hports) _].
  destruct (removeadmin_cases E caller user w)
    as [[_ ->]|[(_ & _ & ->)|[(_ & _ & _ & ->)|(_ & Hne & Hin & ->)]]];
    [done | done | done |].
  apply inv_saved. split_and!; cbn [admins vps].
  - apply list_remove_first_other; [congruence | done].
  - by apply list_remove_first_NoDup.
  - done.
Qed.

Lemma startup_inv E w : inv E w → inv E (startup E w).2.
Proof.
  intros [Hdata Hfile]. unfold startup, bind, load_data, set_data.
  destruct (data_file w) as [| |d] eqn:Hf; cbn [snd].
  - split; cbn [data data_file]; [|by rewrite Hf].
    split_and!; cbn [admins vps]; [by left | apply NoDup_singleton |].
    intros k v Hk. cbn [init_world data vps] in Hk. by rewrite lookup_empty in Hk.
  - split; [done | by rewrite Hf].
  - split; cbn [data data_file]; [done | by rewrite Hf].
Qed.

Lemma handle_inv E fuel r w : inv E w → inv E (handle E fuel r w).2.
Proof.
  intros Hinv. destruct r; simpl.
  - by apply createvps_inv.
  - by rewrite manage_world.
  - by apply click_inv.
  - by apply deletevps_inv.
  - by apply reinstallvps_inv.
  - by apply renewssh_inv.
  - by apply addadmin_inv.
  - by apply removeadmin_inv.
Qed.

Lemma reachable_inv E w : reachable E w → inv E w.
Proof.
  induction 1 as [fs|w fuel r _ IH|w _ IH].
  - split; [|done]. split_and!; cbn [init_world data admins vps];
      [by left | apply NoDup_singleton |].
    intros k v Hk. cbn [init_world data vps] in Hk. by rewrite lookup_empty in Hk.
  - by apply handle_inv.
  - by apply startup_inv.
Qed.

(** Only addadmin makes the admin list grow: every other request leaves
    in it nothing that was not there. *)
Lemma handle_admins E fuel r w x :
  (∀ caller user, r ≠ ReqAddAdmin caller user) →
  x ∈ admins (data (handle E fuel r w).2) → x ∈ admins (data w).
Proof.
  intros Hr. destruct r as [caller name ram cores disk|caller vid|b vid|caller vid
                           |caller vid|caller vid|caller user|caller user]; simpl.
  - destruct (createvps_cases E fuel caller name ram cores disk w)
      as [[n ->]|(vid & n & _ & _ & Hcases)]; [done|].
    cbv zeta in Hcases.
    by destruct Hcases as [[_ ->]|[(p & msg & fs & evs & k & _ & _ & _ & _ & ->)
                                  |(p & tm & stamp & fs & evs & k & _ & ->)]].
  - by rewrite manage_world.
  - assert (Hstart : ∀ w0, admins (data (start_cb E vid w0).2) = admins (data w0)).
    { intros w0. destruct (vps (data w0) !! vid) as [v|] eqn:Hv.
      - destruct (start_cb_cases E vid v w0 Hv)
          as [[_ ->]|[(_ & _ & ->)|(_ & port & b' & msg & fs & evs & k & _ & _ & _ & _ & _ & ->)]];
          [done | done |]. by destruct b'.
      - by rewrite start_cb_detached. }
    assert (Hstop : ∀ w0, admins (data (stop_cb E vid w0).2) = admins (data w0)).
    { intros w0. destruct (vps (data w0) !! vid) as [v|] eqn:Hv.
      - by rewrite (stop_cb_eq E vid v).
      - by rewrite stop_cb_detached. }
    destruct b; simpl.
    + by rewrite Hstart.
    + by rewrite Hstop.
    + by rewrite restart_cb_world, Hstart, Hstop.
    + unfold ssh_cb, bind, get_data. by destruct (vps (data w) !! vid).
  - unfold deletevps.
    match goal with |- context [with_vps caller vid ?body w] =>
      destruct (with_vps_cases caller vid body w) as [->|[->|(v & Hv & Hauth & Hbody)]]
    end; [done | done |].
    destruct (deletevps_authorized E caller vid v w Hv Hauth) as (fs & evs & n & Heq).
    unfold deletevps in Heq. by rewrite Heq.
  - assert (Hcases := λ v, reinstallvps_cases E caller vid v w).
    unfold reinstallvps in *.
    match goal with |- context [with_vps caller vid ?body w] =>
      destruct (with_vps_cases caller vid body w) as [->|[->|(v & Hv & Hauth & Hbody)]]
    end; [done | done |].
    specialize (Hcases v Hv Hauth). cbv zeta in Hcases.
    destruct (reinstall_port v (data w)) as [p|].
    + by destruct Hcases as [(msg & fs & evs & n & ->)| ->].
    + by destruct Hcases as (fs & evs & n & ->).
  - assert (Hcases := λ v, renewssh_cases E caller vid v w).
    unfold renewssh in *.
    match goal with |- context [with_vps caller vid ?body w] =>
      destruct (with_vps_cases caller vid body w) as [->|[->|(v & Hv & Hauth & Hbody)]]
    end; [done | done |].
    specialize (Hcases v Hv Hauth).
    destruct (free_port (data w)) as [p|]; [|by rewrite Hcases].
    by destruct Hcases as [(msg & fs & evs & n & ->)|(tm & fs & evs & n & ->)].
  - by destruct (Hr caller user).
  - destruct (removeadmin_cases E caller user w)
      as [[_ ->]|[(_ & _ & ->)|[(_ & _ & _ & ->)|(_ & Hne & Hin & ->)]]];
      [done | done | done |].
    cbn [saved data admins snd]. apply list_remove_first_subseteq.
Qed.

(** C9: in every state the bot reaches the owner is in the admin list,
    and removeadmin aimed at the owner is turned down with the state
    untouched, whoever calls it: the owner gets "Cannot remove the
    owner", anybody else "Only the owner can remove admins". *)
Theorem owner_always_admin (E : Env) (w : World) :
  reachable E w →
  OWNER_ID E ∈ admins (data w)
  ∧ removeadmin E (OWNER_ID E) (OWNER_ID E) w = (Ok CannotRemoveOwner, w)
  ∧ (∀ caller, caller ≠ OWNER_ID E →
       removeadmin E caller (OWNER_ID E) w = (Ok OnlyOwner, w))
  ∧ (∀ fuel r, OWNER_ID E ∈ admins (data (handle E fuel r w).2))
  ∧ OWNER_ID E ∈ admins (data (startup E w).2).
Proof.
  intros Hreach. split_and!.
  - by destruct (reachable_inv E w Hreach) as [(Hown & _) _].
  - unfold removeadmin. rewrite decide_False by (by intros ?).
    by rewrite decide_True.
  - intros caller Hne. unfold removeadmin. by rewrite decide_True.
  - intros fuel r.
    by destruct (reachable_inv E _ (reach_handle E w fuel r Hreach)) as [(Hown & _) _].
  - by destruct (reachable_inv E _ (reach_restart E w Hreach)) as [(Hown & _) _].
Qed.

Lemma owner_always_admin_witness :
  42 ∈ admins (data two_admins_world)
  ∧ removeadmin ok_env 42 42 two_admins_world = (Ok CannotRemoveOwner, two_admins_world).
Proof.
  destruct (owner_always_admin ok_env two_admins_world) as (Hin & Hrm & _).
  - apply reach_handle, reach_init.
  - split; [exact Hin | exact Hrm].
Defined.

(** C10: in every state the bot reaches the admin list has no
    duplicates.  addadmin turns down a user who is already in it and
    leaves the state untouched, no other request adds an entry, and
    after a removeadmin that went through the removed user is not in
    the list any more. *)
Theorem admins_never_duplicated (E : Env) (w : World) :
  reachable E w →
  NoDup (admins (data w))
  ∧ (∀ user, user ∈ admins (data w) →
       addadmin E (OWNER_ID E) user w = (Ok AlreadyAdmin, w))
  ∧ (∀ caller user, user ∈ admins (data w) → (addadmin E caller user w).2 = w)
  ∧ (∀ fuel r x, (∀ caller user, r ≠ ReqAddAdmin caller user) →
       x ∈ admins (data (handle E fuel r w).2) → x ∈ admins (data w))
  ∧ (∀ caller user w',
       removeadmin E caller user w = (Ok (AdminRemoved user), w') →
       user ∉ admins (data w')).
Proof.
  intros Hreach.
  destruct (reachable_inv E w Hreach) as [(Hown & Hnd & _) _].
  split_and!.
  - done.
  - intros user Hin.
    destruct (addadmin_cases E (OWNER_ID E) user w)
      as [[Hne _]|[(_ & _ & Heq)|(_ & Hout & _)]]; done.
  - intros caller user Hin.
    destruct (addadmin_cases E caller user w)
      as [[_ ->]|[(_ & _ & ->)|(_ & Hout & _)]]; done.
  - intros fuel r x. apply handle_admins.
  - intros caller user w' Hrm.
    destruct (removeadmin_cases E caller user w)
      as [[_ Heq]|[(_ & _ & Heq)|[(_ & _ & _ & Heq)|(_ & Hne & Hin & Heq)]]];
      rewrite Heq in Hrm; try discriminate.
    injection Hrm as <-. cbn [saved data admins].
    by apply list_remove_first_NoDup.
Qed.

Lemma admins_never_duplicated_witness :
  NoDup (admins (data two_admins_world))
  ∧ addadmin ok_env 42 7 two_admins_world = (Ok AlreadyAdmin, two_admins_world)
  ∧ (7 ∉ admins (data (removeadmin ok_env 42 7 two_admins_world).2)).
Proof.
  destruct (admins_never_duplicated ok_env two_admins_world)
    as (Hnd & Hadd & _ & _ & Hrm).
  - apply reach_handle, reach_init.
  - split_and!.
    + exact Hnd.
    + apply (Hadd 7). vm_compute. right. left.
    + apply (Hrm 42 7). vm_compute. reflexivity.
Defined.

(** ** Renew and reinstall *)


Lemma with_vps_entered caller vid v body w r w' :
  vps (data w) !! vid = Some v →
  with_vps caller vid body w = (Ok r, w') →
  r ≠ NotAuthorized →
  vm_user v = py_str caller ∨ caller ∈ admins (data w).
Proof.
  intros Hv Hrun Hr.
  destruct (decide (vm_user v = py_str caller)) as [|Hown]; [by left|].
  destruct (decide (caller ∈ admins (data w))) as [|Hadm]; [by right|].
  rewrite (with_vps_unauthorized caller vid v) in Hrun by done. congruence.
Qed.

(** The cut of [createvps] is [createvps]: run one part right after the
    other, the two segments are the handler. *)
Lemma createvps_cut E fuel caller name ram cores disk w :
  createvps E fuel caller name ram cores disk w
  = (let* chosen := createvps_alloc E fuel in
     createvps_resume E caller name ram cores disk chosen) w.
Proof.
  unfold createvps. cbv zeta.
  destruct (gen_vps_id E fuel w) as [[vid|e|] w1] eqn:Hgen.
  - erewrite bind_ok by exact Hgen.
    erewrite bind_ok by apply try_find_free_port.
    symmetry. erewrite bind_ok.
    2:{ unfold createvps_alloc. erewrite bind_ok by exact Hgen.
        erewrite bind_ok by apply try_find_free_port. reflexivity. }
    unfold createvps_resume. by destruct (free_port (data w1)).
  - unfold createvps_alloc. unfold bind. by rewrite Hgen.
  - unfold createvps_alloc. unfold bind. by rewrite Hgen.
Qed.

(** The ports in use once the record under [vid] has been given the port
    [new]: [new], and the ports of the other records. *)
Lemma used_ports_alter_port (g : VM → VM) vid v new d q :
  vps d !! vid = Some v →
  local_ssh_port (g v) = Some new →
  new ≠ 0 →
  q ∈ used_ports (alter_vm g vid d) ↔
  q = new ∨ ∃ k u, k ≠ vid ∧ vps d !! k = Some u ∧ local_ssh_port u = Some q ∧ q ≠ 0.
Proof.
  intros Hv Hg Hnz. rewrite elem_of_used_ports. unfold alter_vm. cbn [vps]. split.
  - intros (k & u & Hk & Hq & Hq0).
    destruct (decide (k = vid)) as [->|Hne].
    + rewrite lookup_alter_eq, Hv in Hk. simpl in Hk. injection Hk as <-.
      left. congruence.
    + rewrite lookup_alter_ne in Hk by done. right. by exists k, u.
  - intros [->|(k & u & Hne & Hk & Hq & Hq0)].
    + exists vid, (g v). rewrite lookup_alter_eq, Hv. done.
    + exists k, u. by rewrite lookup_alter_ne.
Qed.

Lemma find_free_at_most d p :
  SSH_PORT_MIN ≤ p ≤ SSH_PORT_MAX → port_unused d p →
  ∃ q, free_port d = Some q ∧ q ≤ p.
Proof.
  intros Hr Hfree. destruct (free_port d) as [q|] eqn:Hq.
  - exists q. split; [done|]. apply free_port_Some in Hq as (_ & _ & Hmin).
    destruct (decide (q ≤ p)) as [|Hgt]; [done|].
    destruct (Hmin p); [lia | done].
  - exfalso. by apply (proj1 (free_port_None _) Hq p).
Qed.

(** C7, as the code has it: a renewssh that goes through stores, and
    saves, a port of the range that differs from the one the record had.
    The ports in use are then the new port and the ports the other
    records hold, nothing else: the old port is free for the next
    allocation pass, which returns it or a lower free port, unless
    another record holds the same port. *)
Theorem renewssh_moves_to_fresh_port (E : Env) (caller : Z) (vid : string)
    (v : VM) (w : World) (l t : string) (w' : World) :
  vps (data w) !! vid = Some v →
  renewssh E caller vid w = (Ok (Renewed l t), w') →
  ∃ v' new,
    vps (data w') !! vid = Some v'
    ∧ local_ssh_port v' = Some new
    ∧ SSH_PORT_MIN ≤ new ≤ SSH_PORT_MAX
    ∧ local_ssh_port v ≠ Some new
    ∧ data_file w' = Doc (data w')
    ∧ (∀ q, q ∈ used_ports (data w') ↔
            q = new ∨ ∃ k u, k ≠ vid ∧ vps (data w) !! k = Some u
                             ∧ local_ssh_port u = Some q ∧ q ≠ 0)
    ∧ ∀ old, local_ssh_port v = Some old →
        old ≠ new
        ∧ ((∀ k u, k ≠ vid → vps (data w) !! k = Some u →
                   local_ssh_port u ≠ Some old) →
           (old ∉ used_ports (data w'))
           ∧ (SSH_PORT_MIN ≤ old ≤ SSH_PORT_MAX →
              ∃ q, find_free_ssh_port w' = (Ok q, w') ∧ q ≤ old)).
Proof.
  intros Hv Hrun.
  assert (Hauth : vm_user v = py_str caller ∨ caller ∈ admins (data w)).
  { unfold renewssh in Hrun. by eapply with_vps_entered. }
  pose proof (renewssh_cases E caller vid v w Hv Hauth) as Hcases.
  destruct (free_port (data w)) as [p|] eqn:Hfree;
    [|rewrite Hcases in Hrun; discriminate].
  destruct Hcases as [(msg & fs & evs & n & Heq)|(tm & fs & evs & n & Heq)];
    rewrite Heq in Hrun; [discriminate|].
  injection Hrun as <- <- <-.
  apply free_port_Some in Hfree as (Hr & Hunused & _).
  eexists _, p. cbn [saved data data_file alter_vm vps].
  rewrite lookup_alter_eq, Hv. cbn [fmap option_fmap option_map].
  assert (Hused : ∀ q,
    q ∈ used_ports
          (alter_vm (with_status Running ∘ with_tmate tm ∘ with_port p) vid (data w)) ↔
    q = p ∨ ∃ k u, k ≠ vid ∧ vps (data w) !! k = Some u
                   ∧ local_ssh_port u = Some q ∧ q ≠ 0).
  { intros q. apply (used_ports_alter_port _ vid v); [done | done |].
    unfold SSH_PORT_MIN in Hr. lia. }
  split_and!; [reflexivity | done | lia | lia | exact (Hunused vid v Hv) | done
              | exact Hused |].
  intros old Hold.
  assert (Hne : old ≠ p).
  { intros ->. by destruct (Hunused vid v Hv). }
  split; [done|]. intros Hothers.
  assert (Hout : old ∉ used_ports
            (alter_vm (with_status Running ∘ with_tmate tm ∘ with_port p) vid (data w))).
  { rewrite Hused. intros [?|(k & u & Hk_ne & Hk & Hu & _)]; [done|].
    by destruct (Hothers k u). }
  split; [exact Hout|]. intros Hor.
  rewrite find_free_ssh_port_eq.
  destruct (find_free_at_most
              (alter_vm (with_status Running ∘ with_tmate tm ∘ with_port p) vid (data w))
              old Hor) as (q & Hq & Hle); [by apply not_used_port_unused|].
  unfold saved at 1. cbn [data]. rewrite Hq. by exists q.
Qed.

Lemma renewssh_moves_to_fresh_port_witness :
  ∃ v' new,
    vps (data renewed.2) !! "1000" = Some v'
    ∧ local_ssh_port v' = Some new
    ∧ new ≠ 22700
    ∧ (22700 ∉ used_ports (data renewed.2))
    ∧ ∃ q, find_free_ssh_port renewed.2 = (Ok q, renewed.2) ∧ q ≤ 22700.
Proof.
  destruct (renewssh_moves_to_fresh_port ok_env 7 "1000"
              (created_vm "1000" 7 "web" 2048 2 20 22700 "ssh demo@nyc1.tmate.io"
                          "2024-01-01T00:00:00")
              one_vm_world
              "ssh ubuntu@localhost -p 22701" "ssh demo@nyc1.tmate.io" renewed.2)
    as (v' & new & Hv' & Hnew & _ & Hne & _ & _ & Hold).
  - vm_compute. reflexivity.
  - vm_compute. reflexivity.
  - destruct (Hold 22700 eq_refl) as [_ Hfree].
    destruct Hfree as [Hout Hq].
    { intros k u Hk Hu. exfalso.
      assert (Hw : vps (data one_vm_world)
                   = {[ "1000" := created_vm "1000" 7 "web" 2048 2 20 22700
                                    "ssh demo@nyc1.tmate.io" "2024-01-01T00:00:00" ]})
        by (vm_compute; reflexivity).
      rewrite Hw in Hu. rewrite lookup_singleton_ne in Hu by done.
      discriminate Hu. }
    exists v', new. split_and!; [exact Hv' | exact Hnew | | exact Hout |].
    + intros ->. by apply Hne.
    + apply Hq. unfold SSH_PORT_MIN, SSH_PORT_MAX. lia.
Defined.

(** The claim of C7 fails once two records hold one port, which is what
    two creations that overlap lead to.  In [overlap_world] the records
    "1000" and "1001" are both on 22700.  A renewssh of "1000" moves it
    to 22701, yet 22700 stays in use, by "1001", and the next allocation
    pass returns 22702. *)
Lemma renewssh_old_port_still_taken :
  overlapped_creations.1 = Ok (Created "1000", Created "1001")
  ∧ local_ssh_port <$> vps (data overlap_world) !! "1000" = Some (Some 22700)
  ∧ local_ssh_port <$> vps (data overlap_world) !! "1001" = Some (Some 22700)
  ∧ renewed_after_overlap.1
    = Ok (Renewed "ssh ubuntu@localhost -p 22701" "ssh demo@nyc1.tmate.io")
  ∧ local_ssh_port <$> vps (data renewed_after_overlap.2) !! "1000"
    = Some (Some 22701)
  ∧ local_ssh_port <$> vps (data renewed_after_overlap.2) !! "1001"
    = Some (Some 22700)
  ∧ 22700 ∈ used_ports (data renewed_after_overlap.2)
  ∧ (find_free_ssh_port renewed_after_overlap.2).1 = Ok 22702.
Proof.
  assert (H1001 : local_ssh_port <$> vps (data renewed_after_overlap.2) !! "1001"
                  = Some (Some 22700)) by (vm_compute; reflexivity).
  split_and!; [vm_compute; reflexivity.. | exact H1001 | | vm_compute; reflexivity].
  apply elem_of_used_ports.
  destruct (vps (data renewed_after_overlap.2) !! "1001") as [u|] eqn:Hu;
    [|discriminate H1001].
  exists "1001", u. split_and!; [exact Hu | | done].
  cbn in H1001. congruence.
Qed.



(** * Further properties of the commands *)

(** ** One request, seen from the registry *)

Lemma same_identity_refl v : same_identity v v.
Proof. by repeat split. Qed.

Lemma same_identity_with_status s v : same_identity v (with_status s v).
Proof. by repeat split. Qed.

Lemma same_identity_with_port p v : same_identity v (with_port p v).
Proof. by repeat split. Qed.

Lemma same_identity_with_tmate t v : same_identity v (with_tmate t v).
Proof. by repeat split. Qed.

Lemma same_identity_trans v1 v2 v3 :
  same_identity v1 v2 → same_identity v2 v3 → same_identity v1 v3.
Proof.
  intros (?&?&?&?&?&?&?) (?&?&?&?&?&?&?). repeat split; congruence.
Qed.

#[local] Hint Resolve same_identity_refl same_identity_with_status
  same_identity_with_port same_identity_with_tmate : host.

Lemma same_identity_compose (f g : VM → VM) :
  (∀ v, same_identity v (f v)) → (∀ v, same_identity v (g v)) →
  ∀ v, same_identity v ((f ∘ g) v).
Proof. intros Hf Hg v. eapply same_identity_trans; [apply Hg | apply Hf]. Qed.

(** The state after a request: [data] moved by one [data_step], and
    either nothing of the registry was touched or the new [data] is in
    the data file. *)
Definition step_summary (adm : bool) (w w' : World) : Prop :=
  data_step adm (data w) (data w')
  ∧ ((data w' = data w ∧ data_file w' = data_file w)
     ∨ data_file w' = Doc (data w')).

Lemma summary_host_step adm w fs evs n : step_summary adm w (host_step w fs evs n).
Proof. split; [constructor | by left]. Qed.

Lemma summary_same adm w : step_summary adm w w.
Proof. split; [constructor | by left]. Qed.

Lemma summary_advance adm w n : step_summary adm w (advance n w).
Proof. split; [constructor | by left]. Qed.

Lemma summary_saved adm w d fs evs n :
  data_step adm (data w) d → step_summary adm w (saved w d fs evs n).
Proof. intros Hd. split; [done | by right]. Qed.

Lemma start_cb_summary adm E vid w : step_summary adm w (start_cb E vid w).2.
Proof.
  destruct (vps (data w) !! vid) as [v|] eqn:Hv.
  - destruct (start_cb_cases E vid v w Hv)
      as [[_ ->]|[(_ & _ & ->)|(_ & port & b & msg & fs & evs & k & _ & _ & _ & _ & _ & ->)]].
    + apply summary_saved. constructor. auto with host.
    + apply summary_host_step.
    + cbv zeta. destruct b; [|apply summary_host_step].
      apply summary_saved. constructor. auto with host.
  - rewrite start_cb_detached by done. apply summary_same.
Qed.

Lemma stop_cb_summary adm E vid w : step_summary adm w (stop_cb E vid w).2.
Proof.
  destruct (vps (data w) !! vid) as [v|] eqn:Hv.
  - rewrite (stop_cb_eq E vid v) by done.
    apply summary_saved. constructor. auto with host.
  - rewrite stop_cb_detached by done. apply summary_same.
Qed.

Lemma restart_cb_summary adm E vid w : step_summary adm w (restart_cb E vid w).2.
Proof.
  rewrite restart_cb_world.
  destruct (vps (data w) !! vid) as [v|] eqn:Hv.
  - rewrite (stop_cb_eq E vid v) by done. cbn [snd].
    set (w1 := saved w _ _ _ _).
    assert (Hv1 : vps (data w1) !! vid = Some (with_status Stopped v)).
    { subst w1. cbn [saved data alter_vm vps]. by rewrite lookup_alter_eq, Hv. }
    destruct (start_cb_cases E vid _ w1 Hv1)
      as [[_ ->]|[(_ & _ & ->)|(_ & port & b & msg & fs & evs & k & _ & _ & _ & _ & _ & ->)]].
    + split; [|by right]. subst w1. unfold saved, alter_vm. cbn [data vps admins snd].
      rewrite alter_alter_eq.
      apply (step_alter _ _ (with_status Running ∘ with_status Stopped) vid).
      apply same_identity_compose; auto with host.
    + split; [|by right]. subst w1. cbn [saved host_step data snd].
      constructor. auto with host.
    + cbv zeta. destruct b.
      * split; [|by right]. subst w1. unfold saved, alter_vm. cbn [data vps admins snd].
        rewrite alter_alter_eq.
        apply (step_alter _ _ (with_status Running ∘ with_status Stopped) vid).
        apply same_identity_compose; auto with host.
      * split; [|by right]. subst w1. cbn [saved host_step data snd].
        constructor. auto with host.
  - rewrite stop_cb_detached by done. cbn [snd].
    rewrite start_cb_detached by done. apply summary_same.
Qed.

Lemma handle_summary E fuel r w :
  step_summary (owner_admin_request E r) w (handle E fuel r w).2.
Proof.
  destruct r as [caller name ram cores disk|caller vid|b vid|caller vid
                |caller vid|caller vid|caller user|caller user]; simpl.
  - destruct (createvps_cases E fuel caller name ram cores disk w)
      as [[n ->]|(vid & n & _ & Hnone & Hcases)]; [apply summary_advance|].
    cbv zeta in Hcases.
    destruct Hcases as [[_ ->]|[(p & msg & fs & evs & k & _ & _ & _ & _ & ->)
                               |(p & tm & stamp & fs & evs & k & Hfree & ->)]].
    + apply summary_advance.
    + apply summary_host_step.
    + apply summary_saved. by constructor.
  - rewrite manage_world. apply summary_same.
  - destruct b; simpl.
    + apply start_cb_summary.
    + apply stop_cb_summary.
    + apply restart_cb_summary.
    + unfold ssh_cb, bind, get_data.
      destruct (vps (data w) !! vid); apply summary_same.
  - unfold deletevps.
    match goal with |- context [with_vps caller vid ?body w] =>
      destruct (with_vps_cases caller vid body w) as [->|[->|(v & Hv & Hauth & Hbody)]]
    end; [apply summary_same | apply summary_same |].
    destruct (deletevps_authorized E caller vid v w Hv Hauth) as (fs & evs & n & Heq).
    unfold deletevps in Heq. rewrite Heq. apply summary_saved. constructor.
  - assert (Hcases := λ v, reinstallvps_cases E caller vid v w).
    unfold reinstallvps in *.
    match goal with |- context [with_vps caller vid ?body w] =>
      destruct (with_vps_cases caller vid body w) as [->|[->|(v & Hv & Hauth & Hbody)]]
    end; [apply summary_same | apply summary_same |].
    specialize (Hcases v Hv Hauth). cbv zeta in Hcases.
    destruct (reinstall_port v (data w)) as [p|].
    + destruct Hcases as [(msg & fs & evs & n & ->)| ->]; [apply summary_host_step|].
      apply summary_saved. constructor.
      apply same_identity_compose; auto with host.
    + destruct Hcases as (fs & evs & n & ->). apply summary_host_step.
  - assert (Hcases := λ v, renewssh_cases E caller vid v w).
    unfold renewssh in *.
    match goal with |- context [with_vps caller vid ?body w] =>
      destruct (with_vps_cases caller vid body w) as [->|[->|(v & Hv & Hauth & Hbody)]]
    end; [apply summary_same | apply summary_same |].
    specialize (Hcases v Hv Hauth).
    destruct (free_port (data w)) as [p|]; [|rewrite Hcases; apply summary_same].
    destruct Hcases as [(msg & fs & evs & n & ->)|(tm & fs & evs & n & ->)];
      [apply summary_host_step|].
    apply summary_saved. constructor.
    repeat apply same_identity_compose; auto with host.
  - destruct (addadmin_cases E caller user w)
      as [[_ ->]|[(_ & _ & ->)|(Hown & _ & ->)]];
      [apply summary_same | apply summary_same |].
    apply summary_saved. constructor. by apply bool_decide_eq_true.
  - destruct (removeadmin_cases E caller user w)
      as [[_ ->]|[(_ & _ & ->)|[(_ & _ & _ & ->)|(Hown & _ & _ & ->)]]];
      [apply summary_same | apply summary_same | apply summary_same |].
    apply summary_saved. constructor. by apply bool_decide_eq_true.
Qed.

Lemma remove_if_exists_files p w :
  remove_if_exists p w
  = (Ok tt, host_step w (files w ∖ {[p]})
                      (if bool_decide (p ∈ files w) then [EvRemove p] else []) 0).
Proof.
  rewrite remove_if_exists_eq. destruct (decide (p ∈ files w)) as [Hin|Hout].
  - by rewrite bool_decide_true.
  - rewrite bool_decide_false by done. f_equal.
    rewrite difference_disjoint_L by by apply disjoint_singleton_r.
    apply host_step_id.
Qed.

(** ** What a handler changes, it saves *)

Lemma synced_step E adm w w' : synced E w → step_summary adm w w' → synced E w'.
Proof.
  intros Hs [_ [[Hd Hf]|Hf]]; [|by left].
  unfold synced. rewrite Hd, Hf. exact Hs.
Qed.

Lemma startup_synced E w : synced E w → startup E w = (Ok tt, w).
Proof.
  intros [Hf|[Hf Hd]]; unfold startup, bind, load_data, set_data; rewrite Hf.
  - by destruct w.
  - rewrite <- Hd. by destruct w.
Qed.

(** X1. A request that runs from its first line to its last with no
    other handler in between has saved what it changed: when it ends,
    whatever its answer, either [data] and the data file are as they
    were or the data file holds the new [data].  So if the data file
    held the registry before the request (or did not exist yet, with the
    registry still the initial one), it does so after it, and a restart
    right then, [data = load_data()], changes nothing. *)
Theorem request_saves_what_it_changes (E : Env) (fuel : nat) (r : Request)
    (w : World) :
  ((data (handle E fuel r w).2 = data w
    ∧ data_file (handle E fuel r w).2 = data_file w)
   ∨ data_file (handle E fuel r w).2 = Doc (data (handle E fuel r w).2))
  ∧ (synced E w →
     synced E (handle E fuel r w).2
     ∧ startup E (handle E fuel r w).2 = (Ok tt, (handle E fuel r w).2)).
Proof.
  pose proof (handle_summary E fuel r w) as Hsum.
  split; [exact (proj2 Hsum)|].
  intros Hs. assert (Hs' : synced E (handle E fuel r w).2) by by eapply synced_step.
  split; [exact Hs' | by apply startup_synced].
Qed.

Lemma request_saves_what_it_changes_witness :
  data_file (handle ok_env 0 (ReqRenew 7 "1000") one_vm_world).2
  = Doc (data (handle ok_env 0 (ReqRenew 7 "1000") one_vm_world).2)
  ∧ startup ok_env (handle ok_env 0 (ReqRenew 7 "1000") one_vm_world).2
    = (Ok tt, (handle ok_env 0 (ReqRenew 7 "1000") one_vm_world).2).
Proof.
  destruct (request_saves_what_it_changes ok_env 0 (ReqRenew 7 "1000") one_vm_world)
    as [_ Hs].
  destruct Hs as [[Hf|[Hf _]] Hstart].
  - left. vm_compute. reflexivity.
  - split; [exact Hf | exact Hstart].
  - vm_compute in Hf. discriminate Hf.
Defined.

(** ** The await between the new port and its save *)

Lemma host_only_tmate_session E name : host_only (tmate_session E name).
Proof.
  unfold tmate_session. cbv zeta.
  apply host_only_bind; [apply host_only_run_shell | intros [[out1 err1] rc1]].
  destruct (decide _); [apply host_only_ret|].
  apply host_only_bind; [apply host_only_run_shell | intros [[out2 err2] rc2]].
  destruct (decide _).
  - apply host_only_bind; [apply host_only_run_shell | intros [[out3 err3] rc3]].
    destruct (decide _); [|apply host_only_ret].
    apply host_only_bind; [apply host_only_write_file | intros _].
    apply host_only_ret.
  - apply host_only_bind; [apply host_only_write_file | intros _].
    apply host_only_ret.
Qed.

(** The cut of renewssh is renewssh. *)
Lemma generate_tmate_cut E name w :
  generate_tmate E name w
  = (remove_if_exists (tmate_file (vm_paths name)) ;;
     remove_if_exists (tmate_sock name) ;;
     tmate_session E name) w.
Proof. reflexivity. Qed.

Lemma bind_assoc {A B C} (m : M A) (k : A → M B) (h : B → M C) w :
  bind (bind m k) h w = bind m (λ a, bind (k a) h) w.
Proof. unfold bind. by destruct (m w) as [[a|e|] w1]. Qed.

Lemma bind_ext {A B} (m : M A) (k k' : A → M B) w :
  (∀ a w1, k a w1 = k' a w1) → bind m k w = bind m k' w.
Proof. intros Hk. unfold bind. by destruct (m w) as [[a|e|] w1]. Qed.

Lemma renewssh_cut E caller vid w :
  renewssh E caller vid w
  = (let* s := renewssh_until_tmate E caller vid in
     match s with
     | inl r => ret r
     | inr name => renewssh_from_tmate E vid name
     end) w.
Proof.
  unfold renewssh, with_vps, renewssh_until_tmate.
  rewrite bind_assoc. apply bind_ext. intros d w1.
  destruct (vps d !! vid) as [v|]; [|done].
  rewrite bind_assoc. apply bind_ext. intros adm w2.
  destruct (_ && _); [done|]. cbv zeta.
  rewrite bind_assoc. apply bind_ext. intros [p|] w3; [|done].
  rewrite bind_assoc. apply bind_ext. intros _ w4.
  rewrite bind_assoc. apply bind_ext. intros [[] msg] w5; cbn [negb]; [|done].
  rewrite bind_assoc. apply bind_ext. intros _ w6.
  unfold renewssh_from_tmate.
  change (generate_tmate E (vm_name v))
    with (remove_if_exists (tmate_file (vm_paths (vm_name v))) ;;
          remove_if_exists (tmate_sock (vm_name v)) ;;
          tmate_session E (vm_name v)).
  rewrite !bind_assoc. apply bind_ext. intros _ w7.
  rewrite !bind_assoc. apply bind_ext. intros _ w8.
  reflexivity.
Qed.

(** X24. renewssh waits between writing the new port into the record
    and saving.  When it is suspended at that await the VM has been
    relaunched on the new port and the record in [data] has it, while the
    data file still holds the old registry: a restart at that moment
    brings the old port back.  Run on from there, it saves. *)
Theorem renewssh_unsaved_window (E : Env) (caller : Z) (vid : string) (v : VM)
    (w : World) (name : string) (w1 : World) :
  vps (data w) !! vid = Some v →
  data_file w = Doc (data w) →
  renewssh_until_tmate E caller vid w = (Ok (inr name), w1) →
  ∃ p,
    free_port (data w) = Some p
    ∧ name = vm_name v
    ∧ data w1 = alter_vm (with_port p) vid (data w)
    ∧ local_ssh_port v ≠ Some p
    ∧ data_file w1 = Doc (data w)
    ∧ data_file w1 ≠ Doc (data w1)
    ∧ EvShell (launch_cmd name (ram_mb v) (cpu v) p) 120 ∈ trace w1
    ∧ data (startup E w1).2 = data w
    ∧ ∃ r w2, renewssh_from_tmate E vid name w1 = (Ok r, w2)
              ∧ data_file w2 = Doc (data w2)
              ∧ local_ssh_port <$> vps (data w2) !! vid = Some (Some p).
Proof.
  intros Hv Hfile Hrun. unfold renewssh_until_tmate in Hrun.
  erewrite bind_ok in Hrun by reflexivity. cbn [data] in Hrun. rewrite Hv in Hrun.
  erewrite bind_ok in Hrun by reflexivity.
  destruct (_ && _); [discriminate|]. cbv zeta in Hrun.
  erewrite bind_ok in Hrun by apply try_find_free_port.
  destruct (free_port (data w)) as [p|] eqn:Hfree; [|discriminate].
  erewrite bind_ok in Hrun by apply run_shell_eq.
  rewrite tool_effect_pkill in Hrun.
  destruct (create_vm_process_result E (vm_name v) (ram_mb v) (cpu v) (disk_gb v) p
              (host_step w (files w) [EvShell (Pkill (vm_name v)) 10] 1))
    as (b & msg & fs & evs & k & Hcvp & _ & _ & _ & Hok).
  erewrite bind_ok in Hrun by exact Hcvp. cbv beta iota in Hrun.
  destruct b; cbn [negb] in Hrun; [|discriminate].
  destruct (Hok eq_refl) as (_ & -> & _).
  rewrite host_step_host_step in Hrun.
  erewrite bind_ok in Hrun by reflexivity.
  do 2 (erewrite bind_ok in Hrun by apply remove_if_exists_files;
        rewrite ?host_step_host_step in Hrun).
  injection Hrun as <- <-.
  apply free_port_Some in Hfree as (Hr & Hunused & _).
  assert (Hne : local_ssh_port v ≠ Some p) by exact (Hunused vid v Hv).
  exists p. cbn [host_step data data_file trace files clock].
  split_and!; [done | done | done | done | done | | | |].
  - rewrite Hfile. intros [= Hd]. apply (f_equal (λ d, vps d !! vid)) in Hd.
    cbn [vps] in Hd. rewrite lookup_alter_eq, Hv in Hd. simpl in Hd.
    injection Hd as Hd. apply Hne. rewrite Hd at 1. reflexivity.
  - rewrite !elem_of_app. left. right.
    rewrite !elem_of_cons. by right; right; left.
  - unfold startup, bind, load_data, set_data. cbn [data_file].
    by rewrite Hfile.
  - unfold renewssh_from_tmate.
    match goal with
    | |- context [bind (tmate_session E ?n) ?k ?w0] =>
        destruct (host_only_tmate_session E n w0) as ([tok tstr] & fs2 & evs2 & n2 & Htm);
        rewrite (bind_ok _ k w0 _ _ Htm)
    end.
    cbv beta iota zeta.
    unfold update_vm, save, save_data, open_trunc, json_dump, set_data, get_data,
      bind, ret.
    cbn [host_step data data_file vps admins].
    rewrite !lookup_alter_eq, Hv. cbn [fmap option_fmap option_map].
    eexists _, _. split_and!; [reflexivity | reflexivity |].
    cbn [data vps]. rewrite !lookup_alter_eq, Hv. reflexivity.
Qed.

Lemma renewssh_unsaved_window_witness :
  ∃ w1, renew_suspended = (Ok (inr "web-1000"), w1)
        ∧ local_ssh_port <$> vps (data w1) !! "1000" = Some (Some 22701)
        ∧ data_file w1 = Doc (data one_vm_world)
        ∧ data (startup ok_env w1).2 = data one_vm_world.
Proof.
  destruct (renewssh_unsaved_window ok_env 7 "1000"
              (created_vm "1000" 7 "web" 2048 2 20 22700 "ssh demo@nyc1.tmate.io"
                          "2024-01-01T00:00:00")
              one_vm_world "web-1000" renew_suspended.2)
    as (p & Hp & _ & Hd & _ & Hf & _ & _ & Hs & _).
  - vm_compute. reflexivity.
  - vm_compute. reflexivity.
  - vm_compute. reflexivity.
  - exists renew_suspended.2.
    split_and!; [vm_compute; reflexivity | | exact Hf | exact Hs].
    rewrite Hd. vm_compute in Hp. injection Hp as <-. vm_compute. reflexivity.
Defined.
(** ** What a request never changes *)

Lemma data_step_identity adm d d' k v v' :
  data_step adm d d' →
  vps d !! k = Some v → vps d' !! k = Some v' → same_identity v v'.
Proof.
  intros Hstep Hk Hk'.
  destruct Hstep as [|vid caller name ram cores disk p tm stamp Hnone _
                     |f vid Hf|vid|l _]; cbn [vps alter_vm] in Hk'.
  - assert (v' = v) as -> by congruence. apply same_identity_refl.
  - rewrite lookup_insert_ne in Hk' by congruence.
    assert (v' = v) as -> by congruence. apply same_identity_refl.
  - destruct (decide (k = vid)) as [->|Hne].
    + rewrite lookup_alter_eq, Hk in Hk'. simpl in Hk'. injection Hk' as <-.
      apply Hf.
    + rewrite lookup_alter_ne in Hk' by done.
      assert (v' = v) as -> by congruence. apply same_identity_refl.
  - apply lookup_delete_Some in Hk' as [_ Hk'].
    assert (v' = v) as -> by congruence. apply same_identity_refl.
  - assert (v' = v) as -> by congruence. apply same_identity_refl.
Qed.

(** X2. No request changes what a record is: a record found under the
    same id before and after any one request (a command or a button
    click) has the same id, owner, name, ram, cpu, disk size and creation
    time.  Only status, port with ssh line, and tmate string ever move. *)
Theorem request_keeps_identity (E : Env) (fuel : nat) (r : Request) (w : World)
    (k : string) (v v' : VM) :
  vps (data w) !! k = Some v →
  vps (data (handle E fuel r w).2) !! k = Some v' →
  same_identity v v'.
Proof.
  intros Hk Hk'. destruct (handle_summary E fuel r w) as [Hstep _].
  by eapply data_step_identity.
Qed.

Lemma request_keeps_identity_witness :
  ∃ v v',
    vps (data one_vm_world) !! "1000" = Some v
    ∧ vps (data (handle ok_env 0 (ReqRenew 7 "1000") one_vm_world).2) !! "1000"
      = Some v'
    ∧ local_ssh_port v ≠ local_ssh_port v'
    ∧ same_identity v v'.
Proof.
  eexists _, _. split_and!.
  - vm_compute. reflexivity.
  - vm_compute. reflexivity.
  - vm_compute. discriminate.
  - eapply (request_keeps_identity ok_env 0 (ReqRenew 7 "1000") one_vm_world "1000").
    + vm_compute. reflexivity.
    + vm_compute. reflexivity.
Defined.

(** ** Identifiers *)

Lemma data_step_ids_ok adm d d' : data_step adm d d' → ids_ok d → ids_ok d'.
Proof.
  intros Hstep Hok k v' Hk'.
  destruct Hstep as [|vid caller name ram cores disk p tm stamp Hnone _
                     |f vid Hf|vid|l _]; cbn [vps alter_vm] in Hk'.
  - by apply Hok.
  - apply lookup_insert_Some in Hk' as [[<- <-]|[_ Hk']]; [|by apply Hok].
    split; [done|]. by exists name.
  - destruct (decide (k = vid)) as [->|Hne].
    + rewrite lookup_alter_eq in Hk'.
      destruct (vps d !! vid) as [v|] eqn:Hv; [|done].
      simpl in Hk'. injection Hk' as <-.
      destruct (Hok vid v Hv) as [Hid [base Hname]].
      destruct (Hf v) as (Hid' & _ & Hname' & _).
      split; [congruence|]. exists base. congruence.
    + rewrite lookup_alter_ne in Hk' by done. by apply Hok.
  - apply lookup_delete_Some in Hk' as [_ Hk']. by apply Hok.
  - by apply Hok.
Qed.

(** X3. Records stay filed under their own id.  If every record of the
    registry is stored under the identifier it carries and is named
    base-id, the same is true after any one request, whatever the request
    and its outcome: [createvps] builds id and name from the key it
    stores under, and nothing else writes these two fields. *)
Theorem request_keeps_ids (E : Env) (fuel : nat) (r : Request) (w : World) :
  ids_ok (data w) → ids_ok (data (handle E fuel r w).2).
Proof.
  intros Hok. eapply data_step_ids_ok; [|exact Hok].
  apply (handle_summary E fuel r w).
Qed.

Lemma request_keeps_ids_witness :
  ids_ok (data (init_world ok_env ∅)) ∧ ids_ok (data one_vm_world).
Proof.
  assert (Hinit : ids_ok (data (init_world ok_env ∅))).
  { intros k v Hk. cbn [init_world data vps] in Hk.
    rewrite lookup_empty in Hk. discriminate Hk. }
  split; [exact Hinit|].
  exact (request_keeps_ids ok_env 1 (ReqCreate 7 "web" 2048 2 20)
           (init_world ok_env ∅) Hinit).
Defined.

(** ** Who can change the admin list *)

(** X4. The admin list changes only when the owner issues addadmin or
    removeadmin: every other request (any VM command, any button, and the
    two admin commands coming from anybody else) leaves the list exactly
    as it was. *)
Theorem admins_change_only_by_owner (E : Env) (fuel : nat) (r : Request) (w : World) :
  owner_admin_request E r = false →
  admins (data (handle E fuel r w).2) = admins (data w).
Proof.
  intros Hr. destruct (handle_summary E fuel r w) as [Hstep _].
  rewrite Hr in Hstep.
  by destruct Hstep as [| | | |l Hadm].
Qed.

Lemma admins_change_only_by_owner_witness :
  admins (data (handle ok_env 0 (ReqAddAdmin 7 8) two_admins_world).2)
  = admins (data two_admins_world)
  ∧ admins (data (handle ok_env 0 (ReqDelete 7 "1000") one_vm_world).2)
    = admins (data one_vm_world).
Proof.
  split.
  - apply (admins_change_only_by_owner ok_env 0 (ReqAddAdmin 7 8)). reflexivity.
  - apply (admins_change_only_by_owner ok_env 0 (ReqDelete 7 "1000")). reflexivity.
Defined.

(** ** Ports *)

(** X5. A request that runs with no other handler in between keeps the
    ports in order.  If every record has a port of
    [SSH_PORT_MIN .. SSH_PORT_MAX] with the matching ssh line and no two
    records share a port (in [data] and in the data file, with a good
    admin list), the same is true after any one request. *)
Theorem request_keeps_ports_distinct (E : Env) (fuel : nat) (r : Request)
    (w : World) :
  inv E w →
  inv E (handle E fuel r w).2
  ∧ ∀ k v, vps (data (handle E fuel r w).2) !! k = Some v →
      ∃ p, local_ssh_port v = Some p
           ∧ SSH_PORT_MIN ≤ p ≤ SSH_PORT_MAX
           ∧ local_ssh v = ssh_line p
           ∧ ∀ k' v', vps (data (handle E fuel r w).2) !! k' = Some v' →
                      local_ssh_port v' = Some p → k' = k.
Proof.
  intros Hinv. pose proof (handle_inv E fuel r w Hinv) as Hinv'.
  split; [exact Hinv'|]. by destruct Hinv' as [(_ & _ & Hports) _].
Qed.

Lemma request_keeps_ports_distinct_witness :
  ∃ v p, vps (data two_vms_world) !! "1006" = Some v
         ∧ local_ssh_port v = Some p
         ∧ ∀ k' v', vps (data two_vms_world) !! k' = Some v' →
                    local_ssh_port v' = Some p → k' = "1006".
Proof.
  destruct (request_keeps_ports_distinct counting_env 1 (ReqCreate 8 "db" 1024 1 10)
              (handle counting_env 1 (ReqCreate 7 "web" 2048 2 20)
                 (init_world counting_env ∅)).2) as [_ Hports].
  - apply reachable_inv. apply reach_handle, reach_init.
  - destruct (Hports "1006"
                (created_vm "1006" 8 "db" 1024 1 10 22701 "ssh demo@nyc1.tmate.io"
                            "2024-01-01T00:00:00"))
      as (p & Hp & _ & _ & Huniq).
    + vm_compute. reflexivity.
    + eexists _, p. split_and!; [vm_compute; reflexivity | exact Hp | exact Huniq].
Defined.

(** ** Creations that overlap *)

Lemma createvps_alloc_cases E fuel w :
  (∃ n, createvps_alloc E fuel w = (OutOfFuel, advance n w))
  ∨ ∃ vid n,
      gen_vps_id E fuel w = (Ok vid, advance n w)
      ∧ vps (data w) !! vid = None
      ∧ createvps_alloc E fuel w
        = (Ok ((λ p, (vid, p)) <$> free_port (data w)), advance n w).
Proof.
  unfold createvps_alloc.
  destruct (gen_vps_id E fuel w) as [[vid|e|] w1] eqn:Hgen.
  - right. apply gen_vps_id_result in Hgen as Hvid.
    destruct Hvid as [Hnone [n ->]]. exists vid, n. split_and!; [done..|].
    erewrite bind_ok by exact Hgen.
    erewrite bind_ok by apply try_find_free_port.
    cbn [data advance]. by destruct (free_port (data w)).
  - exfalso. eapply (gen_vps_id_no_exception E fuel w e). by rewrite Hgen.
  - left. destruct (gen_vps_id_world E fuel w) as [n Hn]. exists n.
    rewrite Hgen in Hn. simpl in Hn. subst w1.
    unfold bind. by rewrite Hgen.
Qed.

(** What the second part of [createvps] stores, if it stores: the port it
    was given, whatever the registry holds by then. *)
Lemma createvps_resume_cases E caller name ram cores disk vid p w :
  (∃ msg fs evs n,
     createvps_resume E caller name ram cores disk (Some (vid, p)) w
     = (Ok (CreateFailed msg), host_step w fs evs n))
  ∨ (∃ tm stamp fs evs n,
       createvps_resume E caller name ram cores disk (Some (vid, p)) w
       = (Ok (Created vid),
          saved w
            (mkData (<[vid := created_vm vid caller name ram cores disk p tm stamp]>
                       (vps (data w)))
                    (admins (data w)))
            fs evs n)).
Proof.
  remember (createvps_resume E caller name ram cores disk (Some (vid, p)) w)
    as res eqn:Hres.
  unfold createvps_resume in Hres. cbv zeta in Hres.
  destruct (create_vm_process_result E (name +:+ "-" +:+ vid) ram cores disk p w)
    as (b & msg & fs & evs & k & Hcvp & _).
  erewrite bind_ok in Hres by exact Hcvp. cbv beta iota in Hres.
  destruct b; cbn [negb] in Hres; [right | left; subst res; by eauto 10].
  match type of Hres with
  | res = bind _ _ ?w2 =>
      destruct (host_only_generate_tmate E (name +:+ "-" +:+ vid) w2)
        as ([tok tstr] & fs2 & evs2 & n2 & Htm)
  end.
  erewrite bind_ok in Hres by exact Htm. cbv beta iota zeta in Hres.
  rewrite host_step_host_step in Hres.
  match type of Hres with
  | res = bind _ _ ?w3 =>
      destruct (host_only_now E w3) as (stamp & fs3 & evs3 & n3 & Hnow)
  end.
  erewrite bind_ok in Hres by exact Hnow.
  rewrite host_step_host_step in Hres.
  lazymatch type of Hres with
  | context [host_step w ?fs ?evs ?n] =>
      exists (if negb tok then "Failed to generate tmate link: " +:+ tstr else tstr),
        stamp, fs, evs, n
  end.
  subst res.
  unfold store_vm, save, set_data, get_data, bind. simpl. world_eq.
Qed.

(** X25. Nothing keeps two creations apart.  [createvps] chooses its
    port before it waits for [qemu-img] and stores it after, without a
    second look: when a second /createvps starts while the first waits,
    both choose the same port, the lowest free one, and if both go
    through, both records carry it.  Unless the two happened to draw the
    same identifier (then the second record replaces the first), the
    registry ends with two records on one port. *)
Theorem overlapping_creations_share_port (E : Env) (fuel : nat) (a b : Creation)
    (w : World) (vid_a vid_b : string) (w' : World) :
  createvps_overlapped E fuel a b w = (Ok (Created vid_a, Created vid_b), w') →
  ∃ p va vb,
    free_port (data w) = Some p
    ∧ vps (data w) !! vid_a = None
    ∧ vps (data w) !! vid_b = None
    ∧ vps (data w') !! vid_a = Some va
    ∧ vps (data w') !! vid_b = Some vb
    ∧ local_ssh_port va = Some p
    ∧ local_ssh_port vb = Some p
    ∧ (vid_a ≠ vid_b → ¬ ports_ok (data w')).
Proof.
  intros Hrun. unfold createvps_overlapped in Hrun.
  destruct (createvps_alloc_cases E fuel w)
    as [[n Ha]|(va & n & _ & Hnone_a & Ha)];
    [unfold bind in Hrun; rewrite Ha in Hrun; discriminate|].
  erewrite bind_ok in Hrun by exact Ha.
  destruct (createvps_alloc_cases E fuel (advance n w))
    as [[m Hb]|(vb & m & _ & Hnone_b & Hb)];
    [unfold bind in Hrun; rewrite Hb in Hrun; discriminate|].
  erewrite bind_ok in Hrun by exact Hb.
  cbn [advance data] in Hrun, Hnone_b.
  destruct (free_port (data w)) as [p|] eqn:Hfree; [|discriminate].
  cbn [fmap option_fmap option_map] in Hrun.
  set (w0 := advance m (advance n w)) in *.
  destruct (createvps_resume_cases E (cr_caller a) (cr_name a) (cr_ram a)
              (cr_cores a) (cr_disk a) va p w0)
    as [(msg & fs & evs & k & Hra)|(tm & stamp & fs & evs & k & Hra)];
    erewrite bind_ok in Hrun by exact Hra.
  { match type of Hrun with
    | context [createvps_resume E ?c ?nm ?r ?cs ?d (Some (vb, p))] =>
        destruct (createvps_resume_cases E c nm r cs d vb p (host_step w0 fs evs k))
          as [(msg' & fs' & evs' & k' & Hrb)|(tm' & stamp' & fs' & evs' & k' & Hrb)]
    end; erewrite bind_ok in Hrun by exact Hrb; discriminate. }
  set (w1 := saved w0 _ fs evs k) in *.
  destruct (createvps_resume_cases E (cr_caller b) (cr_name b) (cr_ram b)
              (cr_cores b) (cr_disk b) vb p w1)
    as [(msg' & fs' & evs' & k' & Hrb)|(tm' & stamp' & fs' & evs' & k' & Hrb)];
    erewrite bind_ok in Hrun by exact Hrb; [discriminate|].
  injection Hrun as <- <- <-.
  subst w1 w0. cbn [saved data vps admins advance].
  assert (Hb_rec : (<[vb := created_vm vb (cr_caller b) (cr_name b) (cr_ram b)
                             (cr_cores b) (cr_disk b) p tm' stamp']>
                     (<[va := created_vm va (cr_caller a) (cr_name a) (cr_ram a)
                                (cr_cores a) (cr_disk a) p tm stamp]> (vps (data w))))
                   !! vb
                   = Some (created_vm vb (cr_caller b) (cr_name b) (cr_ram b)
                             (cr_cores b) (cr_disk b) p tm' stamp'))
    by apply lookup_insert_eq.
  destruct (decide (va = vb)) as [->|Hne].
  - eexists p, _, _. split_and!; [done | done | done | exact Hb_rec | exact Hb_rec
                                 | done | done | done].
  - eexists p, _, _.
    split_and!; [done | done | done | | exact Hb_rec | | done |].
    + rewrite lookup_insert_ne by done. apply lookup_insert_eq.
    + done.
    + intros _ Hok. destruct (Hok vb _ Hb_rec) as (q & Hq & _ & _ & Huniq).
      apply Hne. apply (Huniq va (created_vm va (cr_caller a) (cr_name a) (cr_ram a)
                                    (cr_cores a) (cr_disk a) p tm stamp)).
      * cbn [vps]. rewrite lookup_insert_ne by done. apply lookup_insert_eq.
      * exact Hq.
Qed.

Lemma overlapping_creations_share_port_witness :
  ∃ va vb,
    vps (data overlap_world) !! "1000" = Some va
    ∧ vps (data overlap_world) !! "1001" = Some vb
    ∧ local_ssh_port va = Some 22700
    ∧ local_ssh_port vb = Some 22700
    ∧ ¬ ports_ok (data overlap_world).
Proof.
  destruct (overlapping_creations_share_port counting_env 1
              (mkCreation 7 "web" 2048 2 20) (mkCreation 8 "db" 1024 1 10)
              (init_world counting_env ∅) "1000" "1001" overlap_world)
    as (p & va & vb & Hp & _ & _ & Ha & Hb & Hpa & Hpb & Hbad).
  - vm_compute. reflexivity.
  - vm_compute in Hp. injection Hp as <-.
    exists va, vb. split_and!; [exact Ha | exact Hb | exact Hpa | exact Hpb |].
    apply Hbad. discriminate.
Defined.

(** ** Unknown identifiers, and who gets in *)

(** X6. On an identifier that is not in the registry, manage (whatever
    button one meant to press), deletevps, reinstallvps and renewssh
    answer "VPS not found" and touch nothing: no shell command, no file,
    no save. *)
Theorem unknown_id_not_found (E : Env) (caller : Z) (vid : string) (w : World) :
  vps (data w) !! vid = None →
  manage caller vid w = (Ok NotFound, w)
  ∧ (∀ b, manage_click E caller vid b w = (Ok NotFound, w))
  ∧ deletevps E caller vid w = (Ok NotFound, w)
  ∧ reinstallvps E caller vid w = (Ok NotFound, w)
  ∧ renewssh E caller vid w = (Ok NotFound, w).
Proof.
  intros Hv.
  assert (Hmanage : manage caller vid w = (Ok NotFound, w))
    by by apply with_vps_not_found.
  split_and!; [done | | by apply with_vps_not_found..].
  intros b. unfold manage_click, bind. by rewrite Hmanage.
Qed.

Lemma unknown_id_not_found_witness :
  manage 7 "4711" one_vm_world = (Ok NotFound, one_vm_world)
  ∧ deletevps ok_env 7 "4711" one_vm_world = (Ok NotFound, one_vm_world).
Proof.
  destruct (unknown_id_not_found ok_env 7 "4711" one_vm_world) as (Hm & _ & Hd & _).
  - vm_compute. reflexivity.
  - split; [exact Hm | exact Hd].
Defined.

(** X7. manage never changes the state, and it sends the view exactly to
    the owner of an existing record and to the admins: the answer is the
    view if and only if the record exists and the caller is its owner or
    an admin. *)
Theorem manage_view_iff_authorized (caller : Z) (vid : string) (w : World) :
  (manage caller vid w).2 = w
  ∧ ((manage caller vid w).1 = Ok (ViewSent vid)
     ↔ ∃ v, vps (data w) !! vid = Some v
            ∧ (vm_user v = py_str caller ∨ caller ∈ admins (data w))).
Proof.
  split; [apply manage_world|].
  unfold manage.
  destruct (vps (data w) !! vid) as [v|] eqn:Hv.
  - destruct (decide (vm_user v = py_str caller ∨ caller ∈ admins (data w)))
      as [Hauth|Hno].
    + rewrite (with_vps_authorized caller vid v) by done.
      split; [by eauto | done].
    + rewrite (with_vps_unauthorized caller vid v); [| done | tauto | tauto].
      split; [done|]. intros (v' & Hv' & Hauth). simplify_eq. tauto.
  - rewrite with_vps_not_found by done.
    split; [done|]. by intros (v' & Hv' & _).
Qed.

Lemma manage_view_iff_authorized_witness :
  (manage 42 "1000" one_vm_world).1 = Ok (ViewSent "1000").
Proof.
  apply (proj2 (manage_view_iff_authorized 42 "1000" one_vm_world)).
  eexists. split; [vm_compute; reflexivity|].
  right. vm_compute. left.
Defined.

(** ** Delete *)

Lemma deletevps_detail E caller vid v w :
  vps (data w) !! vid = Some v →
  vm_user v = py_str caller ∨ caller ∈ admins (data w) →
  ∃ evs,
    deletevps E caller vid w
    = (Ok (Deleted (vm_name v)),
       saved w (mkData (delete vid (vps (data w))) (admins (data w)))
             (files w ∖ vm_artifacts (vm_name v))
             (EvShell (Pkill (vm_name v)) 10 :: evs) 1)
    ∧ Forall is_remove evs.
Proof.
  intros Hv Hauth. unfold deletevps.
  rewrite (with_vps_authorized caller vid v) by done. cbv zeta.
  erewrite bind_ok by apply run_shell_eq. rewrite tool_effect_pkill.
  do 5 (erewrite bind_ok by apply remove_if_exists_files;
        rewrite host_step_host_step; cbn [files host_step]).
  eexists. split.
  - unfold save, set_data, get_data, bind. simpl. unfold saved.
    f_equal. apply world_ext; [done | done | | | done].
    + unfold vm_artifacts. apply set_eq. intros x.
      rewrite !elem_of_difference, !elem_of_union, !elem_of_singleton. tauto.
    + rewrite <- !app_assoc. reflexivity.
  - repeat (apply Forall_app; split);
      try (destruct (bool_decide _); repeat constructor; by eexists).
Qed.

(** X8. deletevps by the owner of the record or by an admin always goes
    through: it kills the VM process, removes the record and saves, and
    afterwards none of the VM's files (disk image, log, tmate file,
    script, tmate socket) exists.  The other records are untouched, and
    the id is unknown from then on. *)
Theorem deletevps_removes_everything (E : Env) (caller : Z) (vid : string)
    (v : VM) (w : World) :
  vps (data w) !! vid = Some v →
  vm_user v = py_str caller ∨ caller ∈ admins (data w) →
  ∃ w',
    deletevps E caller vid w = (Ok (Deleted (vm_name v)), w')
    ∧ vps (data w') = delete vid (vps (data w))
    ∧ admins (data w') = admins (data w)
    ∧ data_file w' = Doc (data w')
    ∧ files w' = files w ∖ vm_artifacts (vm_name v)
    ∧ (∃ evs, trace w' = (trace w ++ EvShell (Pkill (vm_name v)) 10 :: evs)%list)
    ∧ manage caller vid w' = (Ok NotFound, w')
    ∧ deletevps E caller vid w' = (Ok NotFound, w').
Proof.
  intros Hv Hauth.
  destruct (deletevps_detail E caller vid v w Hv Hauth) as (evs & Heq & _).
  eexists. split; [exact Heq|]. cbn [saved data data_file files trace vps admins].
  split_and!; [done | done | done | done | by eexists | |];
    apply with_vps_not_found; cbn [data vps]; apply lookup_delete_eq.
Qed.

Lemma deletevps_removes_everything_witness :
  (deletevps ok_env 42 "1000" one_vm_world).1 = Ok (Deleted "web-1000")
  ∧ vps (data (deletevps ok_env 42 "1000" one_vm_world).2) = ∅
  ∧ files (deletevps ok_env 42 "1000" one_vm_world).2
    = files one_vm_world ∖ vm_artifacts "web-1000".
Proof.
  destruct (deletevps_removes_everything ok_env 42 "1000"
              (created_vm "1000" 7 "web" 2048 2 20 22700 "ssh demo@nyc1.tmate.io"
                          "2024-01-01T00:00:00") one_vm_world)
    as (w' & Heq & Hvps & _ & _ & Hfiles & _).
  - vm_compute. reflexivity.
  - right. vm_compute. left.
  - rewrite Heq. cbn [fst snd]. split_and!; [reflexivity | | exact Hfiles].
    rewrite Hvps. vm_compute. reflexivity.
Defined.

(** X9. Deleting a VM gives its port back unless another record holds
    the same port: once the record is gone, a port is in use exactly when
    one of the other records has it.  So when no other record has the
    port of the deleted VM, that port is free, and if it lies in the
    range the next allocation returns it or a lower free port. *)
Theorem deletevps_frees_port (E : Env) (caller : Z) (vid : string) (v : VM)
    (p : Z) (w : World) (name : string) (w' : World) :
  vps (data w) !! vid = Some v →
  local_ssh_port v = Some p →
  deletevps E caller vid w = (Ok (Deleted name), w') →
  (∀ q, q ∈ used_ports (data w') ↔
        ∃ k u, k ≠ vid ∧ vps (data w) !! k = Some u
               ∧ local_ssh_port u = Some q ∧ q ≠ 0)
  ∧ ((∀ k u, k ≠ vid → vps (data w) !! k = Some u → local_ssh_port u ≠ Some p) →
     port_unused (data w') p
     ∧ (SSH_PORT_MIN ≤ p ≤ SSH_PORT_MAX →
        ∃ q, find_free_ssh_port w' = (Ok q, w') ∧ q ≤ p)).
Proof.
  intros Hv Hp Hrun.
  assert (Hauth : vm_user v = py_str caller ∨ caller ∈ admins (data w)).
  { unfold deletevps in Hrun. by eapply with_vps_entered. }
  destruct (deletevps_detail E caller vid v w Hv Hauth) as (evs & Heq & _).
  rewrite Heq in Hrun. injection Hrun as _ <-.
  split.
  - intros q. rewrite elem_of_used_ports. cbn [saved data vps]. split.
    + intros (k & u & Hk & Hq & Hq0). apply lookup_delete_Some in Hk as [Hne Hk].
      by exists k, u.
    + intros (k & u & Hne & Hk & Hq & Hq0). exists k, u.
      split_and!; [|done..]. by apply lookup_delete_Some.
  - intros Hothers.
    assert (Hfree : port_unused
              (mkData (delete vid (vps (data w))) (admins (data w))) p).
    { intros k u Hk Hu. cbn [vps] in Hk.
      apply lookup_delete_Some in Hk as [Hne Hk]. by destruct (Hothers k u). }
    split; [exact Hfree|]. intros Hr.
    rewrite find_free_ssh_port_eq. unfold saved at 1. cbn [data].
    destruct (find_free_at_most _ p Hr Hfree) as (q & -> & Hle). by exists q.
Qed.

Lemma deletevps_frees_port_witness :
  (22700 ∉ used_ports (data (deletevps ok_env 7 "1000" one_vm_world).2))
  ∧ ∃ q, find_free_ssh_port (deletevps ok_env 7 "1000" one_vm_world).2
         = (Ok q, (deletevps ok_env 7 "1000" one_vm_world).2)
         ∧ q ≤ 22700.
Proof.
  destruct (deletevps_frees_port ok_env 7 "1000"
              (created_vm "1000" 7 "web" 2048 2 20 22700 "ssh demo@nyc1.tmate.io"
                          "2024-01-01T00:00:00")
              22700 one_vm_world "web-1000"
              (deletevps ok_env 7 "1000" one_vm_world).2)
    as [Hused Hfree].
  - vm_compute. reflexivity.
  - reflexivity.
  - vm_compute. reflexivity.
  - assert (Hothers : ∀ k u, k ≠ "1000" → vps (data one_vm_world) !! k = Some u →
                             local_ssh_port u ≠ Some 22700).
    { intros k u Hk Hu. exfalso.
      assert (Hw : vps (data one_vm_world)
                   = {[ "1000" := created_vm "1000" 7 "web" 2048 2 20 22700
                                    "ssh demo@nyc1.tmate.io" "2024-01-01T00:00:00" ]})
        by (vm_compute; reflexivity).
      rewrite Hw in Hu. rewrite lookup_singleton_ne in Hu by done.
      discriminate Hu. }
    split.
    + rewrite Hused. intros (k & u & Hne & Hk & Hq & _). by destruct (Hothers k u).
    + destruct (Hfree Hothers) as [_ Hq]. apply Hq.
      unfold SSH_PORT_MIN, SSH_PORT_MAX. lia.
Defined.

(** ** Create *)

Lemma createvps_succeeds E fuel caller (name : string) (ram cores disk : Z) w vid n p :
  gen_vps_id E fuel w = (Ok vid, advance n w) →
  free_port (data w) = Some p →
  (shell E (n + clock w) (img_cmd (name +:+ "-" +:+ vid) disk)).2 = 0 →
  (shell E (S (n + clock w)) (launch_cmd (name +:+ "-" +:+ vid) ram cores p)).2 = 0 →
  ∃ (tok : bool) tstr wt stamp fs evs k,
    generate_tmate E (name +:+ "-" +:+ vid)
      (create_vm_process E (name +:+ "-" +:+ vid) ram cores disk p (advance n w)).2
    = (Ok (tok, tstr), wt)
    ∧ createvps E fuel caller name ram cores disk w
      = (Ok (Created vid),
         saved w
           (mkData (<[vid := created_vm vid caller name ram cores disk p
                               (if tok then tstr
                                else "Failed to generate tmate link: " +:+ tstr)
                               stamp]> (vps (data w)))
                   (admins (data w)))
           fs evs k).
Proof.
  intros Hgen Hfree Himg Hlaunch. rewrite advance_host.
  destruct (create_vm_process_cases E (name +:+ "-" +:+ vid) ram cores disk p
              (host_step w (files w) [] n))
    as [[Hrc _]|[(_ & Hrc & _)|(_ & _ & Heq)]];
    [by destruct Hrc | by destruct Hrc |].
  rewrite Heq. cbn [snd]. rewrite host_step_host_step in Heq |- *.
  match goal with
  | |- context [generate_tmate E ?vm ?w2] =>
      destruct (host_only_generate_tmate E vm w2)
        as ([tok tstr] & fs2 & evs2 & n2 & Htm)
  end.
  rewrite host_step_host_step in Htm.
  match type of Htm with
  | _ = (_, ?w3) => destruct (host_only_now E w3) as (stamp & fs3 & evs3 & n3 & Hnow)
  end.
  rewrite host_step_host_step in Hnow.
  lazymatch type of Hnow with
  | _ = (_, host_step w ?fs ?evs ?k) =>
      lazymatch type of Htm with
      | _ = (_, ?w3) => exists tok, tstr, w3, stamp, fs, evs, k
      end
  end.
  split; [exact Htm|].
  unfold createvps. cbv zeta.
  erewrite bind_ok by exact Hgen.
  erewrite bind_ok by apply try_find_free_port.
  cbn [data advance]. rewrite Hfree, advance_host.
  erewrite bind_ok by exact Heq. cbv beta iota. cbn [negb].
  erewrite bind_ok by exact Htm. cbv beta iota zeta.
  erewrite bind_ok by exact Hnow.
  unfold store_vm, save, set_data, get_data, bind. simpl.
  destruct tok; cbn [negb]; world_eq.
Qed.

(** X10. createvps goes through whenever an identifier and a port are
    found and both [qemu-img create] and the qemu launch line exit with
    0, whatever tmate does: the new record is filed under the fresh
    identifier with the lowest free port, status Running, the caller as
    owner and name-id as name, and is saved.  Its tmate field is what
    [generate_tmate] returned for the new VM, run once the VM had been
    launched: the connection string when it succeeded, and its message
    behind "Failed to generate tmate link: " when it failed.  Records
    that were there before are untouched. *)
Theorem createvps_stores_new_record (E : Env) (fuel : nat) (caller : Z)
    (name : string) (ram cores disk : Z) (w : World) (vid : string) (n : nat)
    (p : Z) :
  gen_vps_id E fuel w = (Ok vid, advance n w) →
  free_port (data w) = Some p →
  (shell E (n + clock w) (img_cmd (name +:+ "-" +:+ vid) disk)).2 = 0 →
  (shell E (S (n + clock w)) (launch_cmd (name +:+ "-" +:+ vid) ram cores p)).2 = 0 →
  ∃ (tok : bool) tstr wt stamp w',
    generate_tmate E (name +:+ "-" +:+ vid)
      (create_vm_process E (name +:+ "-" +:+ vid) ram cores disk p (advance n w)).2
    = (Ok (tok, tstr), wt)
    ∧ createvps E fuel caller name ram cores disk w = (Ok (Created vid), w')
    ∧ vps (data w) !! vid = None
    ∧ vps (data w') !! vid
      = Some (created_vm vid caller name ram cores disk p
                (if tok then tstr else "Failed to generate tmate link: " +:+ tstr)
                stamp)
    ∧ (∀ k, k ≠ vid → vps (data w') !! k = vps (data w) !! k)
    ∧ admins (data w') = admins (data w)
    ∧ data_file w' = Doc (data w').
Proof.
  intros Hgen Hfree Himg Hlaunch.
  destruct (createvps_succeeds E fuel caller name ram cores disk w vid n p
              Hgen Hfree Himg Hlaunch)
    as (tok & tstr & wt & stamp & fs & evs & k & Htm & Heq).
  exists tok, tstr, wt, stamp. eexists. split; [exact Htm|]. split; [exact Heq|].
  cbn [saved data data_file vps admins].
  split_and!; [by apply gen_vps_id_result in Hgen as [? _]
              | apply lookup_insert_eq | | done | done].
  intros k' Hne. by rewrite lookup_insert_ne.
Qed.

Lemma createvps_stores_new_record_witness :
  tmate <$> vps (data one_vm_world) !! "1000" = Some "ssh demo@nyc1.tmate.io".
Proof.
  destruct (createvps_stores_new_record ok_env 1 7 "web" 2048 2 20
              (init_world ok_env ∅) "1000" 1 22700)
    as (tok & tstr & wt & stamp & w' & Htm & Heq & _ & Hnew & _).
  - vm_compute. reflexivity.
  - vm_compute. reflexivity.
  - reflexivity.
  - reflexivity.
  - unfold one_vm_world. cbn [handle]. rewrite Heq. cbn [snd]. rewrite Hnew.
    cbn [fmap option_fmap option_map created_vm tmate]. f_equal.
    vm_compute in Htm. injection Htm as <- <- _. reflexivity.
Defined.

(** X11. Creating a VM and then deleting it, by the same user, brings
    the VM map back to what it was before the creation. *)
Theorem create_then_delete_restores (E : Env) (fuel : nat) (caller : Z)
    (name : string) (ram cores disk : Z) (w : World) (vid : string) (w1 : World) :
  createvps E fuel caller name ram cores disk w = (Ok (Created vid), w1) →
  ∃ w2,
    deletevps E caller vid w1 = (Ok (Deleted (name +:+ "-" +:+ vid)), w2)
    ∧ data w2 = data w
    ∧ data_file w2 = Doc (data w).
Proof.
  intros Hrun.
  destruct (createvps_cases E fuel caller name ram cores disk w)
    as [[n Heq]|(vid' & n & Hgen & Hnone & Hcases)];
    [rewrite Heq in Hrun; discriminate|].
  cbv zeta in Hcases.
  destruct Hcases as [[_ Heq]|[(p & msg & fs & evs & k & _ & _ & _ & _ & Heq)
                              |(p & tm & stamp & fs & evs & k & Hfree & Heq)]];
    rewrite Heq in Hrun; try discriminate.
  injection Hrun as <- <-.
  set (v := created_vm vid' caller name ram cores disk p tm stamp).
  set (w1 := saved w _ fs evs k).
  assert (Hv : vps (data w1) !! vid' = Some v).
  { subst w1. cbn [saved data vps]. apply lookup_insert_eq. }
  destruct (deletevps_detail E caller vid' v w1 Hv) as (evs' & Hdel & _);
    [by left|].
  eexists. split; [exact Hdel|].
  subst w1. cbn [saved data data_file vps admins].
  rewrite delete_insert_id by done.
  by destruct (data w).
Qed.

Lemma create_then_delete_restores_witness :
  data (deletevps ok_env 7 "1000" one_vm_world).2 = data (init_world ok_env ∅).
Proof.
  destruct (create_then_delete_restores ok_env 1 7 "web" 2048 2 20
              (init_world ok_env ∅) "1000" one_vm_world)
    as (w2 & Hdel & Hdata & _).
  - vm_compute. reflexivity.
  - rewrite Hdel. exact Hdata.
Defined.

(** ** The buttons *)

Lemma alter_as_insert (f : VM → VM) vid v (m : gmap string VM) :
  m !! vid = Some v → alter f vid m = <[vid := f v]> m.
Proof.
  intros Hv. apply map_eq. intros k. destruct (decide (k = vid)) as [->|Hne].
  - by rewrite lookup_alter_eq, lookup_insert_eq, Hv.
  - by rewrite lookup_alter_ne, lookup_insert_ne.
Qed.

(** X12. Stop on an existing record always succeeds: it issues the pkill,
    sets the status to Stopped (nothing else in the record, no other
    record) and saves.  Stopping again succeeds the same way and leaves
    [data] as the first stop left it. *)
Theorem stop_cb_idempotent (E : Env) (vid : string) (v : VM) (w : World) :
  vps (data w) !! vid = Some v →
  ∃ w1 w2,
    stop_cb E vid w = (Ok (StoppedMsg (vm_name v)), w1)
    ∧ vps (data w1) = <[vid := with_status Stopped v]> (vps (data w))
    ∧ admins (data w1) = admins (data w)
    ∧ data_file w1 = Doc (data w1)
    ∧ trace w1 = (trace w ++ [EvShell (Pkill (vm_name v)) 120;
                              EvOpenTrunc DATA_FILE;
                              EvJsonDump DATA_FILE (data w1)])%list
    ∧ stop_cb E vid w1 = (Ok (StoppedMsg (vm_name v)), w2)
    ∧ data w2 = data w1
    ∧ data_file w2 = Doc (data w2).
Proof.
  intros Hv. eexists _, _.
  split; [by apply stop_cb_eq|].
  cbn [saved data data_file trace alter_vm vps admins].
  split_and!; [by apply alter_as_insert | done | done | done | | |].
  - rewrite (stop_cb_eq E vid (with_status Stopped v)).
    + reflexivity.
    + cbn [saved data alter_vm vps]. by rewrite lookup_alter_eq, Hv.
  - unfold saved, alter_vm. cbn [data vps admins]. f_equal.
    rewrite alter_alter_eq. by apply alter_ext.
  - done.
Qed.

Lemma stop_cb_idempotent_witness :
  status <$> (vps (data (stop_cb ok_env "1000" (stop_cb ok_env "1000" one_vm_world).2).2)
              !! "1000")
  = Some Stopped.
Proof.
  destruct (stop_cb_idempotent ok_env "1000"
              (created_vm "1000" 7 "web" 2048 2 20 22700 "ssh demo@nyc1.tmate.io"
                          "2024-01-01T00:00:00") one_vm_world)
    as (w1 & w2 & H1 & Hvps & _ & _ & _ & H2 & Hdata & _).
  - vm_compute. reflexivity.
  - rewrite H1. cbn [snd]. rewrite H2. cbn [snd]. rewrite Hdata, Hvps.
    by rewrite lookup_insert_eq.
Defined.





(** ** The qemu helper *)

(** X15. [create_vm_process] never raises and never touches the
    registry.  It reports success exactly when both [qemu-img create] and
    the qemu launch line exit with 0.  When [qemu-img] fails it stops
    there: the launch line is not run and no file appears; otherwise both
    commands are run, in that order. *)
Theorem create_vm_process_contract (E : Env) (name : string)
    (ram cores disk port : Z) (w : World) :
  ∃ (b : bool) msg w',
    create_vm_process E name ram cores disk port w = (Ok (b, msg), w')
    ∧ data w' = data w ∧ data_file w' = data_file w
    ∧ (b = true ↔
       (shell E (clock w) (img_cmd name disk)).2 = 0
       ∧ (shell E (S (clock w)) (launch_cmd name ram cores port)).2 = 0)
    ∧ ((shell E (clock w) (img_cmd name disk)).2 ≠ 0 →
       trace w' = (trace w ++ [EvShell (img_cmd name disk) 120])%list
       ∧ files w' = files w)
    ∧ ((shell E (clock w) (img_cmd name disk)).2 = 0 →
       trace w' = (trace w ++ [EvShell (img_cmd name disk) 120;
                                EvShell (launch_cmd name ram cores port) 120])%list
       ∧ qcow (vm_paths name) ∈ files w').
Proof.
  destruct (create_vm_process_cases E name ram cores disk port w)
    as [[Hrc ->]|[(Hrc1 & Hrc2 & ->)|(Hrc1 & Hrc2 & ->)]];
    eexists _, _, _; (split; [reflexivity|]);
    unfold host_step; cbn [data data_file files trace].
  - split_and!; [done | done | | done | done].
    split; [done | by intros [? _]].
  - split_and!; [done | done | | done |].
    + split; [done | by intros [_ ?]].
    + intros _. split; [done|]. apply elem_of_union_l. by apply elem_of_singleton.
  - split_and!; [done | done | done | done |].
    intros _. split; [done|].
    apply elem_of_union_r, elem_of_union_l. by apply elem_of_singleton.
Qed.

(** ** Admin round trip *)

Lemma list_remove_first_snoc x l :
  x ∉ l → list_remove_first x (l ++ [x]) = l.
Proof.
  induction l as [|y l IH]; intros Hx; simpl.
  - by rewrite decide_True.
  - apply not_elem_of_cons in Hx as [Hne Hx].
    rewrite decide_False by done. by rewrite IH.
Qed.

(** X16. When the owner adds a user who is not yet an admin, the user
    is appended to the list and [is_admin] holds for them from then on;
    when the owner then removes that user, [data] is again what it was
    before the addition, and [is_admin] no longer holds. *)
Theorem addadmin_then_removeadmin (E : Env) (user : Z) (w : World) :
  user ∉ admins (data w) →
  user ≠ OWNER_ID E →
  ∃ w1 w2,
    addadmin E (OWNER_ID E) user w = (Ok (AdminAdded user), w1)
    ∧ admins (data w1) = (admins (data w) ++ [user])%list
    ∧ vps (data w1) = vps (data w)
    ∧ data_file w1 = Doc (data w1)
    ∧ is_admin user w1 = (Ok true, w1)
    ∧ removeadmin E (OWNER_ID E) user w1 = (Ok (AdminRemoved user), w2)
    ∧ data w2 = data w
    ∧ data_file w2 = Doc (data w)
    ∧ is_admin user w2 = (Ok false, w2).
Proof.
  intros Hout Hne.
  destruct (addadmin_cases E (OWNER_ID E) user w)
    as [[? _]|[(_ & ? & _)|(_ & _ & Hadd)]]; [done | done |].
  set (w1 := saved w (mkData (vps (data w)) (admins (data w) ++ [user])) (files w) [] 0)
    in Hadd.
  assert (Hin1 : user ∈ admins (data w1)).
  { subst w1. cbn [saved data admins]. apply elem_of_app. right. by left. }
  destruct (removeadmin_cases E (OWNER_ID E) user w1)
    as [[? _]|[(_ & ? & _)|[(_ & _ & ? & _)|(_ & _ & _ & Hrm)]]]; [done..|].
  eexists w1, _. split; [exact Hadd|].
  split_and!; [done | done | done | | exact Hrm | | |].
  - unfold is_admin, bind, get_data, ret. by rewrite bool_decide_true.
  - subst w1. cbn [saved data admins vps].
    rewrite list_remove_first_snoc by done. by destruct (data w).
  - subst w1. cbn [saved data data_file admins vps].
    rewrite list_remove_first_snoc by done. by destruct (data w).
  - unfold is_admin, bind, get_data, ret. subst w1. cbn [saved data admins vps].
    rewrite list_remove_first_snoc by done. by rewrite bool_decide_false.
Qed.

Lemma addadmin_then_removeadmin_witness :
  data (removeadmin ok_env 42 7 two_admins_world).2 = data (init_world ok_env ∅).
Proof.
  destruct (addadmin_then_removeadmin ok_env 7 (init_world ok_env ∅))
    as (w1 & w2 & Hadd & _ & _ & _ & _ & Hrm & Hdata & _).
  - vm_compute. intros H. inversion H as [|? ? ? H']. inversion H'.
  - vm_compute. discriminate.
  - unfold two_admins_world. cbn [handle].
    change (OWNER_ID ok_env) with 42 in Hadd, Hrm.
    rewrite Hadd. cbn [snd]. rewrite Hrm. exact Hdata.
Defined.

Lemma create_vm_process_contract_witness :
  ∃ msg w',
    create_vm_process launch_fails_env "web-1000" 2048 2 20 22700
      (init_world launch_fails_env ∅) = (Ok (false, msg), w')
    ∧ qcow (vm_paths "web-1000") ∈ files w'.
Proof.
  destruct (create_vm_process_contract launch_fails_env "web-1000" 2048 2 20 22700
              (init_world launch_fails_env ∅))
    as (b & msg & w' & Heq & _ & _ & Hb & _ & Himg).
  destruct b.
  - destruct (proj1 Hb eq_refl) as [_ Hrc]. vm_compute in Hrc. discriminate Hrc.
  - exists msg, w'. split; [exact Heq|]. apply Himg. reflexivity.
Defined.

(** ** The tmate helper *)

Lemma string_length_app (a b : string) :
  String.length (a +:+ b) = (String.length a + String.length b)%nat.
Proof. induction a as [|c a IH]; simpl; [done | by rewrite IH]. Qed.

Lemma path_join_length d f :
  String.length (path_join d f) = String.length f
  ∨ String.length (path_join d f)
    = (String.length d + 1 + String.length f)%nat.
Proof.
  unfold path_join. destruct f as [|c f]; [right|].
  - rewrite !string_length_app. simpl. lia.
  - destruct (decide (c = "/"%char)) as [->|Hne]; [by left|].
    right. destruct c as [[] [] [] [] [] [] [] []];
      try (rewrite !string_length_app; simpl; lia). done.
Qed.

Lemma tmate_file_not_sock name :
  tmate_file (vm_paths name) ≠ tmate_sock name.
Proof.
  intros Heq. apply (f_equal String.length) in Heq.
  unfold vm_paths, tmate_sock in Heq. cbn [tmate_file] in Heq.
  destruct (path_join_length WORK_DIR (name +:+ "_tmate.txt")) as [Hl|Hl];
    rewrite Hl in Heq; rewrite !string_length_app in Heq; simpl in Heq; lia.
Qed.

Lemma write_file_host p t w fs evs n :
  write_file p t (host_step w fs evs n)
  = (Ok tt, host_step w ({[p]} ∪ fs) (evs ++ [EvWriteFile p t]) n).
Proof. unfold write_file, host_step. cbn. by rewrite <- app_assoc. Qed.

Lemma generate_tmate_cases E name w :
  let tf := tmate_file (vm_paths name) in
  let sock := tmate_sock name in
  ∃ (ok : bool) s fs evs n,
    generate_tmate E name w = (Ok (ok, s), host_step w fs evs n)
    ∧ (if ok
       then s ≠ "" ∧ tf ∈ fs
            ∧ ∃ evs0, evs = (evs0 ++ [EvWriteFile tf s])%list
       else (tf ∉ fs) ∧ Forall (λ e, ∀ p t, e ≠ EvWriteFile p t) evs).
Proof.
  intros tf sock. unfold generate_tmate. cbv zeta. fold tf. fold sock.
  erewrite bind_ok by apply remove_if_exists_files.
  erewrite bind_ok by apply remove_if_exists_files.
  rewrite host_step_host_step. cbn [files host_step].
  set (fs0 := files w ∖ {[tf]} ∖ {[sock]}).
  set (evs0 := (_ ++ _)%list).
  assert (Hevs0 : Forall (λ e, ∀ p t, e ≠ EvWriteFile p t) evs0).
  { subst evs0. apply Forall_app. split;
      destruct (bool_decide _); repeat constructor; done. }
  assert (Htf0 : tf ∉ fs0).
  { subst fs0. rewrite !elem_of_difference, elem_of_singleton. tauto. }
  assert (Hsock : tf ∉ ({[sock]} ∪ fs0 : gset string)).
  { rewrite elem_of_union, elem_of_singleton.
    intros [Heq|Hin]; [by apply (tmate_file_not_sock name) | done]. }
  clearbody evs0 fs0.
  erewrite bind_ok by apply run_shell_eq. rewrite host_step_host_step.
  cbn [clock files host_step].
  destruct (shell E _ (TmateNewSession sock)) as [[out1 err1] rc1].
  cbv beta iota. cbn [fst snd].
  destruct (decide (rc1 ≠ 0)) as [Hrc1|Hrc1].
  { exists false. eexists _, _, _, _. split; [reflexivity|].
    rewrite tool_effect_failed by done. split; [done|].
    apply Forall_app. split; [done | repeat constructor; done]. }
  assert (rc1 = 0) as -> by lia.
  assert (Hnew : tool_effect (TmateNewSession sock) 0 fs0 = {[sock]} ∪ fs0) by done.
  rewrite Hnew. clear Hnew.
  erewrite bind_ok by apply run_shell_eq. rewrite host_step_host_step.
  cbn [clock files host_step].
  destruct (shell E _ (TmateDisplay sock tmate_ssh)) as [[out2 err2] rc2].
  cbv beta iota. cbn [fst snd].
  assert (Hdisp : ∀ what rc fs, tool_effect (TmateDisplay sock what) rc fs = fs).
  { intros what rc fs. unfold tool_effect. by destruct (decide _). }
  rewrite Hdisp.
  destruct (decide (rc2 ≠ 0 ∨ out2 = "")) as [Hbad|Hgood].
  - erewrite bind_ok by apply run_shell_eq. rewrite host_step_host_step.
    cbn [clock files host_step].
    destruct (shell E _ (TmateDisplay sock tmate_web)) as [[out3 err3] rc3].
    cbv beta iota. cbn [fst snd]. rewrite Hdisp.
    destruct (decide (rc3 = 0 ∧ out3 ≠ "")) as [[-> Hout3]|Hno].
    + exists true. eexists out3, _, _, _. split.
      * erewrite bind_ok by apply write_file_host. reflexivity.
      * split_and!; [done | apply elem_of_union_l; by apply elem_of_singleton |].
        by eexists.
    + exists false. eexists _, _, _, _. split; [reflexivity|].
      split; [done|]. repeat (apply Forall_app; split); try done;
        repeat constructor; done.
  - exists true. eexists out2, _, _, _. split.
    + erewrite bind_ok by apply write_file_host. reflexivity.
    + split_and!; [tauto | apply elem_of_union_l; by apply elem_of_singleton |].
      by eexists.
Qed.

(** X17. [generate_tmate] never raises and never touches the registry.
    When it reports success the string it returns is not empty, is the
    last thing it wrote, and sits in the VM's tmate file.  When it
    reports failure it has written nothing and no tmate file is left
    for the VM: a stale one has been removed. *)
Theorem generate_tmate_contract (E : Env) (name : string) (w : World) :
  ∃ (ok : bool) s w',
    generate_tmate E name w = (Ok (ok, s), w')
    ∧ data w' = data w ∧ data_file w' = data_file w
    ∧ (ok = true →
       s ≠ ""
       ∧ tmate_file (vm_paths name) ∈ files w'
       ∧ ∃ evs0, trace w'
                 = (trace w ++ evs0 ++ [EvWriteFile (tmate_file (vm_paths name)) s])%list)
    ∧ (ok = false →
       (tmate_file (vm_paths name) ∉ files w')
       ∧ ∃ evs, trace w' = (trace w ++ evs)%list
                ∧ Forall (λ e, ∀ p t, e ≠ EvWriteFile p t) evs).
Proof.
  destruct (generate_tmate_cases E name w) as (ok & s & fs & evs & n & Heq & Hok).
  cbv zeta in Hok. exists ok, s. eexists. split; [exact Heq|].
  unfold host_step. cbn [data data_file files trace].
  split_and!; [done | done | |]; intros ->.
  - destruct Hok as (Hs & Hin & evs0 & ->). by eauto.
  - destruct Hok as [Hout Hevs]. by eauto.
Qed.

Lemma generate_tmate_contract_witness :
  ∃ w', generate_tmate ok_env "web-1000" (init_world ok_env ∅)
        = (Ok (true, "ssh demo@nyc1.tmate.io"), w')
        ∧ tmate_file (vm_paths "web-1000") ∈ files w'.
Proof.
  destruct (generate_tmate_contract ok_env "web-1000" (init_world ok_env ∅))
    as (ok & s & w' & Heq & _ & _ & Hok & _).
  assert (Hres : (ok, s) = (true, "ssh demo@nyc1.tmate.io")).
  { apply (f_equal fst) in Heq. vm_compute in Heq. congruence. }
  injection Hres as -> ->.
  exists w'. split; [exact Heq|]. by destruct (Hok eq_refl) as (_ & Hin & _).
Defined.

(** ** Failed renewals and reinstalls *)

(** X18. A renewssh that finds no free port gives up before touching
    anything.  One that fails to relaunch the VM leaves the registry and
    the data file as they were (the record keeps its old port and its
    status), but by then it has already issued the pkill for the VM, and
    it has removed no file. *)
Theorem renewssh_failure (E : Env) (caller : Z) (vid : string) (v : VM)
    (w : World) (r : Response) (w' : World) :
  vps (data w) !! vid = Some v →
  renewssh E caller vid w = (Ok r, w') →
  match r with
  | NoFreePorts => free_port (data w) = None ∧ w' = w
  | RenewFailed _ =>
      data w' = data w ∧ data_file w' = data_file w
      ∧ files w ⊆ files w'
      ∧ ∃ evs, trace w' = (trace w ++ EvShell (Pkill (vm_name v)) 10 :: evs)%list
  | _ => True
  end.
Proof.
  intros Hv Hrun.
  destruct r; try done.
  - assert (Hauth : vm_user v = py_str caller ∨ caller ∈ admins (data w)).
    { unfold renewssh in Hrun. by eapply with_vps_entered. }
    pose proof (renewssh_cases E caller vid v w Hv Hauth) as Hcases.
    destruct (free_port (data w)) as [p|].
    + destruct Hcases as [(msg & fs & evs & n & Heq)|(tm & fs & evs & n & Heq)];
        rewrite Heq in Hrun; discriminate.
    + rewrite Hcases in Hrun. by injection Hrun as <-.
  - assert (Hauth : vm_user v = py_str caller ∨ caller ∈ admins (data w)).
    { unfold renewssh in Hrun. by eapply with_vps_entered. }
    unfold renewssh in Hrun.
    rewrite (with_vps_authorized caller vid v) in Hrun by done.
    cbv zeta in Hrun.
    erewrite bind_ok in Hrun by apply try_find_free_port.
    destruct (free_port (data w)) as [p|]; [|discriminate].
    erewrite bind_ok in Hrun by apply run_shell_eq.
    rewrite tool_effect_pkill in Hrun.
    destruct (create_vm_process_result E (vm_name v) (ram_mb v) (cpu v) (disk_gb v) p
                (host_step w (files w) [EvShell (Pkill (vm_name v)) 10] 1))
      as (b & msg' & fs & evs & k & Hcvp & Hfs & _).
    erewrite bind_ok in Hrun by exact Hcvp. cbv beta iota in Hrun.
    rewrite host_step_host_step in Hrun.
    destruct b; cbn [negb] in Hrun.
    + exfalso. revert Hrun.
      erewrite bind_ok by reflexivity.
      step_host. destruct a as [tok tstr]. cbv beta iota zeta.
      unfold update_vm, save, set_data, get_data, bind. simpl.
      rewrite !alter_alter_eq, lookup_alter_eq, Hv. simpl. discriminate.
    + injection Hrun as <- <-. unfold host_step. cbn [data data_file files trace].
      split_and!; [done | done | done | by eexists].
Qed.

Lemma renewssh_failure_witness :
  data (renewssh launch_fails_env 7 "1000" one_vm_world).2 = data one_vm_world
  ∧ ∃ evs, trace (renewssh launch_fails_env 7 "1000" one_vm_world).2
           = (trace one_vm_world ++ EvShell (Pkill "web-1000") 10 :: evs)%list.
Proof.
  pose proof (renewssh_failure launch_fails_env 7 "1000"
                (created_vm "1000" 7 "web" 2048 2 20 22700 "ssh demo@nyc1.tmate.io"
                            "2024-01-01T00:00:00")
                one_vm_world (RenewFailed "qemu launch failed: timeout")
                (renewssh launch_fails_env 7 "1000" one_vm_world).2) as H.
  cbv beta iota in H. destruct H as (Hd & _ & _ & Htr).
  - vm_compute. reflexivity.
  - vm_compute. reflexivity.
  - split; [exact Hd | exact Htr].
Defined.

(** X19. A reinstall that fails leaves the registry and the data file as
    they were, but it is not harmless: the VM has been sent the pkill and
    the old disk image has been removed before the new one is attempted.
    When [qemu-img create] is what failed, the VM is left with no disk
    image at all. *)
Theorem reinstallvps_failure (E : Env) (caller : Z) (vid : string) (v : VM)
    (p : Z) (w : World) (msg : string) (w' : World) :
  vps (data w) !! vid = Some v →
  truthy_port v = Some p →
  reinstallvps E caller vid w = (Ok (ReinstallFailed msg), w') →
  data w' = data w ∧ data_file w' = data_file w
  ∧ (∃ evs, trace w' = (trace w ++ EvShell (Pkill (vm_name v)) 10 :: evs)%list)
  ∧ (qcow (vm_paths (vm_name v)) ∈ files w →
     EvRemove (qcow (vm_paths (vm_name v))) ∈ trace w')
  ∧ ((shell E (S (clock w)) (img_cmd (vm_name v) (disk_gb v))).2 ≠ 0 →
     qcow (vm_paths (vm_name v)) ∉ files w').
Proof.
  intros Hv Hport Hrun.
  assert (Hauth : vm_user v = py_str caller ∨ caller ∈ admins (data w)).
  { unfold reinstallvps in Hrun. by eapply with_vps_entered. }
  unfold reinstallvps in Hrun.
  rewrite (with_vps_authorized caller vid v) in Hrun by done.
  cbv zeta in Hrun.
  erewrite bind_ok in Hrun by apply run_shell_eq.
  rewrite tool_effect_pkill in Hrun.
  erewrite bind_ok in Hrun by apply remove_if_exists_files.
  rewrite host_step_host_step in Hrun. cbn [files host_step] in Hrun.
  rewrite Hport in Hrun.
  erewrite bind_ok in Hrun by reflexivity.
  set (q := qcow (vm_paths (vm_name v))) in *.
  set (w1 := host_step w (files w ∖ {[q]}) _ _) in Hrun.
  assert (Hq : q ∉ files w ∖ {[q]}).
  { rewrite elem_of_difference, elem_of_singleton. tauto. }
  assert (Hrm : q ∈ files w →
            EvRemove q ∈ ([EvShell (Pkill (vm_name v)) 10]
                          ++ (if bool_decide (q ∈ files w) then [EvRemove q] else []))%list).
  { intros Hin. rewrite bool_decide_true by done. right. left. }
  destruct (create_vm_process_cases E (vm_name v) (ram_mb v) (cpu v) (disk_gb v) p w1)
    as [[Hrc Heq]|[(Hrc1 & Hrc2 & Heq)|(_ & _ & Heq)]];
    erewrite bind_ok in Hrun by exact Heq; cbv beta iota in Hrun;
    cbn [negb] in Hrun; [| |exfalso; revert Hrun;
      unfold update_vm, save, set_data, get_data, bind; simpl; discriminate];
    injection Hrun as _ <-; subst w1; rewrite host_step_host_step;
    unfold host_step; cbn [data data_file files trace clock Nat.add] in *.
  - split_and!; [done | done | | | done].
    + cbn [app]. by eexists.
    + intros Hin. apply elem_of_app. right. apply elem_of_app. left. by apply Hrm.
  - split_and!; [done | done | | | done].
    + cbn [app]. by eexists.
    + intros Hin. apply elem_of_app. right. apply elem_of_app. left. by apply Hrm.
Qed.

Lemma reinstallvps_failure_witness :
  qcow (vm_paths "web-1000") ∈ files one_vm_world
  ∧ (qcow (vm_paths "web-1000")
     ∉ files (reinstallvps img_fails_env 7 "1000" one_vm_world).2)
  ∧ data (reinstallvps img_fails_env 7 "1000" one_vm_world).2 = data one_vm_world.
Proof.
  destruct (reinstallvps_failure img_fails_env 7 "1000"
              (created_vm "1000" 7 "web" 2048 2 20 22700 "ssh demo@nyc1.tmate.io"
                          "2024-01-01T00:00:00")
              22700 one_vm_world "qemu-img failed: timeout"
              (reinstallvps img_fails_env 7 "1000" one_vm_world).2)
    as (Hd & _ & _ & _ & Hgone).
  - vm_compute. reflexivity.
  - reflexivity.
  - vm_compute. reflexivity.
  - split_and!; [vm_compute; reflexivity | | exact Hd].
    apply Hgone. vm_compute. discriminate.
Defined.

(** ** The listings *)

#[local] Instance id_le_total : Total id_le.
Proof. intros a b. unfold id_le. apply String.leb_total. Qed.

(** X20. listall changes nothing.  Anybody who is not in the admin list
    gets "Only admins can use this"; an admin gets every record of the
    registry exactly once, in ascending order of id (even when there is
    none: the listing is then empty). *)
Theorem listall_admins_sorted (caller : Z) (w : World) :
  (caller ∉ admins (data w) → listall caller w = (Ok OnlyAdmins, w))
  ∧ (caller ∈ admins (data w) →
     ∃ l, listall caller w = (Ok (Fields l), w)
          ∧ l ≡ₚ (map_to_list (vps (data w))).*2
          ∧ Sorted id_le l
          ∧ ∀ v, v ∈ l ↔ ∃ k, vps (data w) !! k = Some v).
Proof.
  unfold listall, is_admin, bind, get_data, ret. split; intros Hadm.
  - by rewrite bool_decide_false.
  - rewrite bool_decide_true by done. cbn [negb]. eexists. split; [reflexivity|].
    split_and!.
    + apply merge_sort_Permutation.
    + apply Sorted_merge_sort. apply _.
    + intros v. rewrite merge_sort_Permutation, list_elem_of_fmap. split.
      * intros ([k v'] & -> & Hin). exists k. by apply elem_of_map_to_list.
      * intros [k Hk]. exists (k, v). split; [done|]. by apply elem_of_map_to_list.
Qed.

Lemma listall_admins_sorted_witness :
  listall 8 two_vms_world = (Ok OnlyAdmins, two_vms_world)
  ∧ (vm_id <$> match (listall 42 two_vms_world).1 with
               | Ok (Fields l) => l
               | _ => []
               end) = ["1000"; "1006"].
Proof.
  destruct (listall_admins_sorted 8 two_vms_world) as [Hno _].
  destruct (listall_admins_sorted 42 two_vms_world) as [_ Hyes].
  split.
  - apply Hno. vm_compute. intros H. inversion H as [|? ? ? H']. inversion H'.
  - destruct Hyes as (l & Heq & _); [vm_compute; left|].
    vm_compute. reflexivity.
Defined.

(** X21. listvps changes nothing and shows a user their own records and
    no others: a record is in the listing exactly when it is in the
    registry with the caller as its user, and the answer is "You have no
    VPS" exactly when there is no such record. *)
Theorem listvps_own_records (caller : Z) (w : World) :
  ∃ r, listvps caller w = (Ok r, w)
       ∧ match r with
         | NoVps =>
             ∀ k v, vps (data w) !! k = Some v → vm_user v ≠ py_str caller
         | Fields l =>
             l ≠ []
             ∧ ∀ v, v ∈ l ↔ (∃ k, vps (data w) !! k = Some v)
                            ∧ vm_user v = py_str caller
         | OnlyAdmins => False
         end.
Proof.
  unfold listvps, bind, get_data, ret. cbv zeta.
  set (owned := filter _ _).
  assert (Hin : ∀ v, v ∈ owned ↔ (∃ k, vps (data w) !! k = Some v)
                                 ∧ vm_user v = py_str caller).
  { intros v. subst owned. rewrite list_elem_of_filter, list_elem_of_fmap. split.
    - intros [Hu ([k v'] & -> & Hkv)]. split; [|done].
      exists k. by apply elem_of_map_to_list.
    - intros [[k Hk] Hu]. split; [done|]. exists (k, v). split; [done|].
      by apply elem_of_map_to_list. }
  destruct (decide (owned = [])) as [Hnil|Hne].
  - eexists. split; [reflexivity|]. intros k v Hk Hu.
    assert (Hv : v ∈ owned) by (apply Hin; eauto).
    rewrite Hnil in Hv. by apply elem_of_nil in Hv.
  - eexists. split; [reflexivity|]. by split.
Qed.

Lemma listvps_own_records_witness :
  ∃ l, listvps 7 two_vms_world = (Ok (Fields l), two_vms_world)
       ∧ vm_name <$> l = ["web-1000"].
Proof.
  destruct (listvps_own_records 7 two_vms_world) as (r & Heq & _).
  eexists. split; [vm_compute; reflexivity|]. vm_compute. reflexivity.
Defined.

(** ** What gen_vps_id returns *)

(** X22. Whatever [gen_vps_id] returns is the decimal writing of a
    number from 1000 to 9999 that is filed under no record, and the call
    has changed nothing but the count of queries to the host. *)
Theorem gen_vps_id_returns_fresh_id (E : Env) (fuel : nat) (w : World)
    (vid : string) (w' : World) :
  gen_vps_id E fuel w = (Ok vid, w') →
  (∃ z, 1000 ≤ z ≤ 9999 ∧ vid = py_str z)
  ∧ vps (data w) !! vid = None
  ∧ ∃ n, (0 < n ≤ fuel)%nat ∧ w' = advance n w.
Proof.
  revert w. induction fuel as [|fuel IH]; intros w; [done|].
  rewrite gen_vps_id_unfold. destruct (decide _) as [Hnone|Hsome].
  - intros [= <- <-]. split_and!; [apply draw_in_range | done |].
    exists 1%nat. split; [lia | done].
  - intros Hrec. apply IH in Hrec as (Hz & Hnone & n & Hn & ->).
    split_and!; [done | done |]. exists (S n). split; [lia|].
    by rewrite advance_tick.
Qed.

Lemma gen_vps_id_returns_fresh_id_witness :
  ∃ z, 1000 ≤ z ≤ 9999 ∧ "1006" = py_str z.
Proof.
  destruct (gen_vps_id_returns_fresh_id counting_env 1 one_vm_world_counting
              "1006" (advance 1 one_vm_world_counting)) as (Hz & _).
  - vm_compute. reflexivity.
  - exact Hz.
Defined.

(** ** Records without a port *)

(** X23. Records without a usable port, as an older data file could
    hold them.  With the key [local_ssh_port] missing, Start (when pgrep
    finds no process) raises KeyError at [v["local_ssh_port"]] right
    after the pgrep, without touching the registry.  With the port 0,
    Start goes on: it runs [qemu-img create] and, if that succeeds, the
    launch line with port 0.  In both cases [v.get("local_ssh_port")] is
    falsy for reinstallvps, which takes the lowest free port and, when it
    goes through, stores that port with its ssh line; when no port is
    free its RuntimeError is not caught, and the registry is untouched. *)
Theorem portless_record (E : Env) (caller : Z) (vid : string) (v : VM) (w : World) :
  vps (data w) !! vid = Some v →
  truthy_port v = None →
  (local_ssh_port v = None →
   (shell E (clock w) (Pgrep (vm_name v))).1.1 = "" →
   ∃ w', start_cb E vid w = (Raise (KeyError "local_ssh_port"), w')
         ∧ data w' = data w ∧ data_file w' = data_file w
         ∧ trace w' = (trace w ++ [EvShell (Pgrep (vm_name v)) 120])%list)
  ∧ (local_ssh_port v = Some 0 →
     (shell E (clock w) (Pgrep (vm_name v))).1.1 = "" →
     ∃ (b : bool) msg evs w',
       start_cb E vid w
       = (Ok (if b then Started (vm_name v) else StartFailed msg), w')
       ∧ trace w' = (trace w ++ EvShell (Pgrep (vm_name v)) 120
                             :: EvShell (img_cmd (vm_name v) (disk_gb v)) 120
                             :: evs)%list
       ∧ (b = true →
          EvShell (launch_cmd (vm_name v) (ram_mb v) (cpu v) 0) 120 ∈ trace w'))
  ∧ (vm_user v = py_str caller ∨ caller ∈ admins (data w) →
     match free_port (data w) with
     | None =>
         ∃ w', reinstallvps E caller vid w
               = (Raise (RuntimeError "No free SSH ports available"), w')
               ∧ data w' = data w ∧ data_file w' = data_file w
     | Some p =>
         ∀ name w', reinstallvps E caller vid w = (Ok (Reinstalled name), w') →
           vps (data w') !! vid
           = Some (with_status Running (with_port p v))
           ∧ data_file w' = Doc (data w')
     end).
Proof.
  intros Hv Hport. split_and!.
  - intros Hnone Hdown.
    destruct (start_cb_cases E vid v w Hv)
      as [[Hup _]|[(_ & _ & Heq)|(_ & port & b & msg & fs & evs & k & Hsome & _)]];
      [done | | congruence].
    eexists. split; [exact Heq | done].
  - intros Hzero Hdown.
    destruct (start_cb_cases E vid v w Hv)
      as [[Hup _]|[(_ & Hnone & _)|(_ & port & b & msg & fs & evs & k & Hsome & _ & _ & _ & Hb & Heq)]];
      [done | congruence |].
    assert (port = 0) as -> by congruence.
    cbv zeta in Heq. destruct b.
    + destruct (Hb eq_refl) as [_ ->].
      exists true, msg. eexists _, _. split; [exact Heq|].
      unfold saved. cbn [trace]. split.
      * rewrite <- app_comm_cons. reflexivity.
      * intros _. rewrite !elem_of_app. right. left.
        rewrite !elem_of_cons. by right; right; left.
    + exists false, msg, evs. eexists. split; [exact Heq|].
      split; [reflexivity | discriminate].
  - intros Hauth.
    pose proof (reinstallvps_cases E caller vid v w Hv Hauth) as Hcases.
    cbv zeta in Hcases. unfold reinstall_port in Hcases. rewrite Hport in Hcases.
    destruct (free_port (data w)) as [p|].
    + intros name w' Hrun.
      destruct Hcases as [(msg & fs & evs & n & Heq)|Heq];
        rewrite Heq in Hrun; [discriminate|].
      injection Hrun as _ <-. cbn [saved data data_file alter_vm vps].
      by rewrite lookup_alter_eq, Hv.
    + destruct Hcases as (fs & evs & n & Heq). eexists. split; [exact Heq | done].
Qed.

Lemma portless_record_witness :
  (start_cb ok_env "2000" portless_world).1 = Raise (KeyError "local_ssh_port")
  ∧ local_ssh_port
      <$> (vps (data (reinstallvps ok_env 7 "2000" portless_world).2) !! "2000")
    = Some (Some 22700).
Proof.
  destruct (portless_record ok_env 7 "2000" portless_vm portless_world)
    as (Hstart & _ & Hre).
  - vm_compute. reflexivity.
  - reflexivity.
  - split.
    + destruct Hstart as (w' & Heq & _); [reflexivity | reflexivity |].
      by rewrite Heq.
    + assert (Hfree : free_port (data portless_world) = Some 22700)
        by (vm_compute; reflexivity).
      assert (Hauth : vm_user portless_vm = py_str 7 ∨ 7 ∈ admins (data portless_world))
        by (left; vm_compute; reflexivity).
      specialize (Hre Hauth). rewrite Hfree in Hre.
      destruct (Hre "old-2000" (reinstallvps ok_env 7 "2000" portless_world).2)
        as [Hrec _]; [vm_compute; reflexivity|].
      rewrite Hrec. vm_compute. reflexivity.
Defined.

(** ** Buttons of a deleted VM *)

Lemma save_eq w :
  save w = (Ok tt, saved w (data w) (files w) [] 0).
Proof. unfold save, save_data, open_trunc, json_dump, get_data, bind. simpl. world_eq. Qed.

Lemma start_cb_gone_data E answered v w :
  data (start_cb_gone E answered v w).2 = data w.
Proof.
  unfold start_cb_gone. cbv zeta.
  erewrite bind_ok by apply run_shell_eq.
  destruct (shell E (clock w) (Pgrep (vm_name v))) as [[out err] rc].
  cbv beta iota.
  destruct (decide (out ≠ "")).
  - erewrite bind_ok by apply save_eq. unfold send_message, raise, ret.
    by destruct answered.
  - destruct (local_ssh_port v) as [port|]; [|done].
    match goal with
    | |- context [bind (create_vm_process E ?n ?r ?c ?d ?p) ?k ?w0] =>
        destruct (create_vm_process_result E n r c d p w0)
          as (b & msg & fs & evs & k' & Hcvp & _);
        rewrite (bind_ok _ k w0 _ _ Hcvp)
    end.
    cbv beta iota. destruct b; cbn [negb].
    + erewrite bind_ok by apply save_eq. unfold send_message, raise, ret.
      by destruct answered.
    + unfold send_message, raise, ret. by destruct answered.
Qed.

Lemma stop_cb_gone_eq E v w :
  stop_cb_gone E v w
  = (Ok (StoppedMsg (vm_name v)),
     saved w (data w) (files w) [EvShell (Pkill (vm_name v)) 120] 1).
Proof.
  unfold stop_cb_gone. cbv zeta.
  erewrite bind_ok by apply run_shell_eq. rewrite tool_effect_pkill.
  erewrite bind_ok by apply save_eq.
  unfold ret. world_eq.
Qed.

(** X26. A view outlives its record.  Once deletevps has removed a VM,
    the buttons of a view that manage had sent for it still run, on the
    record object the view holds.  No click changes the registry, so the
    record stays deleted and the id unknown to every command; but Start,
    when pgrep finds no process and both qemu tools exit with 0, creates
    the disk image again and launches the VM on the port it had, and
    saves the registry as it is: the image that deletevps removed is
    back, for a VM without a record. *)
Theorem deleted_vm_started_from_old_view (E : Env) (caller : Z) (vid : string)
    (v : VM) (port : Z) (w : World) :
  vps (data w) !! vid = Some v →
  vm_user v = py_str caller ∨ caller ∈ admins (data w) →
  local_ssh_port v = Some port →
  ∃ w1,
    deletevps E caller vid w = (Ok (Deleted (vm_name v)), w1)
    ∧ (qcow (vm_paths (vm_name v)) ∉ files w1)
    ∧ (∀ b, data (click_gone E b v w1).2 = data w1)
    ∧ ((shell E (clock w1) (Pgrep (vm_name v))).1.1 = "" →
       (shell E (S (clock w1)) (img_cmd (vm_name v) (disk_gb v))).2 = 0 →
       (shell E (S (S (clock w1)))
          (launch_cmd (vm_name v) (ram_mb v) (cpu v) port)).2 = 0 →
       ∃ w2,
         click_gone E BtnStart v w1 = (Ok (Started (vm_name v)), w2)
         ∧ vps (data w2) !! vid = None
         ∧ manage caller vid w2 = (Ok NotFound, w2)
         ∧ data_file w2 = Doc (data w2)
         ∧ qcow (vm_paths (vm_name v)) ∈ files w2
         ∧ trace w2
           = (trace w1 ++
              [EvShell (Pgrep (vm_name v)) 120;
               EvShell (img_cmd (vm_name v) (disk_gb v)) 120;
               EvShell (launch_cmd (vm_name v) (ram_mb v) (cpu v) port) 120;
               EvOpenTrunc DATA_FILE;
               EvJsonDump DATA_FILE (data w1)])%list).
Proof.
  intros Hv Hauth Hport.
  destruct (deletevps_detail E caller vid v w Hv Hauth) as (evs & Heq & _).
  eexists. split; [exact Heq|].
  set (w1 := saved w _ _ _ _).
  split_and!.
  - subst w1. cbn [saved files]. unfold vm_artifacts.
    rewrite elem_of_difference, !elem_of_union, !elem_of_singleton. tauto.
  - intros [| | |]; cbn [click_gone].
    + apply start_cb_gone_data.
    + by rewrite stop_cb_gone_eq.
    + erewrite bind_ok by apply stop_cb_gone_eq.
      by rewrite start_cb_gone_data.
    + done.
  - intros Hdown Himg Hlaunch. cbn [click_gone]. unfold start_cb_gone. cbv zeta.
    erewrite bind_ok by apply run_shell_eq.
    destruct (shell E (clock w1) (Pgrep (vm_name v))) as [[out err] rc] eqn:Hsh.
    cbn [fst snd] in Hdown. subst out. cbv beta iota.
    rewrite tool_effect_pgrep.
    destruct (decide ("" ≠ "")) as [Hne|_]; [by destruct Hne|].
    rewrite Hport.
    destruct (create_vm_process_cases E (vm_name v) (ram_mb v) (cpu v) (disk_gb v) port
                (host_step w1 (files w1) [EvShell (Pgrep (vm_name v)) 120] 1))
      as [[Hrc _]|[(_ & Hrc & _)|(_ & _ & Hcvp)]];
      [by destruct Hrc | by destruct Hrc |].
    erewrite bind_ok by exact Hcvp. cbv beta iota. cbn [negb].
    rewrite host_step_host_step.
    erewrite bind_ok by apply save_eq.
    unfold send_message, ret. eexists. split; [reflexivity|].
    cbn [saved host_step data data_file files trace vps].
    split_and!.
    + subst w1. cbn [saved data vps]. apply lookup_delete_eq.
    + apply with_vps_not_found. subst w1. cbn [saved host_step data vps].
      apply lookup_delete_eq.
    + done.
    + rewrite !elem_of_union, !elem_of_singleton. tauto.
    + rewrite <- !app_assoc. reflexivity.
Qed.

Lemma deleted_vm_started_from_old_view_witness :
  ∃ w1 w2,
    deletevps ok_env 7 "1000" one_vm_world = (Ok (Deleted "web-1000"), w1)
    ∧ click_gone ok_env BtnStart
        (created_vm "1000" 7 "web" 2048 2 20 22700 "ssh demo@nyc1.tmate.io"
                    "2024-01-01T00:00:00") w1
      = (Ok (Started "web-1000"), w2)
    ∧ vps (data w2) !! "1000" = None
    ∧ qcow (vm_paths "web-1000") ∈ files w2.
Proof.
  destruct (deleted_vm_started_from_old_view ok_env 7 "1000"
              (created_vm "1000" 7 "web" 2048 2 20 22700 "ssh demo@nyc1.tmate.io"
                          "2024-01-01T00:00:00") 22700 one_vm_world)
    as (w1 & Hdel & _ & _ & Hstart).
  - vm_compute. reflexivity.
  - left. vm_compute. reflexivity.
  - reflexivity.
  - destruct Hstart as (w2 & Hclick & Hnone & _ & _ & Hqcow & _);
      [reflexivity | reflexivity | reflexivity |].
    exists w1, w2. split_and!; [exact Hdel | exact Hclick | exact Hnone | exact Hqcow].
Defined.
